(** * Cart service of the storefront: a shallow embedding and its properties

    The development follows [src/pages/api/cart/index.ts] (the cart route:
    [handleGetCart], [handleAddToCart], [handleRemoveFromCart]) and
    [src/pages/api/orders/index.ts] (the checkout route).  The database
    behind the Prisma client is a record of four tables; a query is a step
    of a state-and-exception monad over that record.

    Around the two routes it follows their callers: the cart page
    ([src/pages/cart.tsx]), the home page with its pagination, the product
    page and the product card, the credentials sign-in
    ([src/pages/api/auth/[...nextauth].ts]) and [slugify] of the seed
    script. *)

From Stdlib Require Import ZArith List String Ascii Bool Lia Floats.SpecFloat.
From Stdlib Require Import DecimalString DecimalNat Permutation.
Import ListNotations.
Open Scope string_scope.
Open Scope Z_scope.

Set Implicit Arguments.

(** ** JavaScript numbers

    A JS [number] is an IEEE-754 binary64 value.  The Standard Library's
    [spec_float] gives the arithmetic as computable definitions ([prec = 53],
    [emax = 1024]). *)
Module Number.

Definition t := spec_float.

Definition prec : Z := 53.
Definition emax : Z := 1024.

Definition zero : t := S754_zero false.
Definition add (x y : t) : t := SFadd prec emax x y.
Definition mul (x y : t) : t := SFmul prec emax x y.
Definition div (x y : t) : t := SFdiv prec emax x y.
Definition ltb (x y : t) : bool := SFltb x y.
Definition leb (x y : t) : bool := SFleb x y.

(** The number an integer column value becomes when it enters an arithmetic
    expression (exact below 2^53, rounded to nearest above). *)
Definition of_Z (z : Z) : t := binary_normalize prec emax z 0 false.

(** [Number.isInteger]. *)
Definition isInteger (x : t) : bool :=
  match x with
  | S754_zero _ => true
  | S754_finite _ m e =>
      if 0 <=? e then true else Zpos m mod 2 ^ (- e) =? 0
  | _ => false
  end.

(** The mathematical integer of an integral number. *)
Definition to_Z (x : t) : Z :=
  match x with
  | S754_finite s m e =>
      let a := if 0 <=? e then Zpos m * 2 ^ e else Zpos m / 2 ^ (- e) in
      if s then - a else a
  | _ => 0
  end.

(** [Number.isSafeInteger]: an integer of magnitude at most 2^53 - 1. *)
Definition isSafeInteger (x : t) : bool :=
  isInteger x && (Z.abs (to_Z x) <=? 2 ^ 53 - 1).

(** [m * 2^e >= 10^21], decided on integers. *)
Definition ge_1e21 (m : positive) (e : Z) : bool :=
  if 0 <=? e then 10 ^ 21 <=? Zpos m * 2 ^ e
  else 10 ^ 21 * 2 ^ (- e) <=? Zpos m.

(** The integer [n] of [Number.prototype.toFixed] for two fraction digits:
    the [n] for which [n / 100 - m * 2^e] is as close to zero as possible,
    the larger one when there are two. *)
Definition cents (m : positive) (e : Z) : Z :=
  if 0 <=? e then 100 * Zpos m * 2 ^ e
  else (200 * Zpos m + 2 ^ (- e)) / (2 * 2 ^ (- e)).

(** The number read back from the decimal string of [n] hundredths:
    the binary64 value nearest to [n / 100]. *)
Definition of_cents (s : bool) (n : Z) : t :=
  match n with
  | Zpos p => div (S754_finite s p 0) (S754_finite false 100 0)
  | _ => S754_zero s
  end.

(** [parseFloat(x.toFixed(2))].  [toFixed] prints ["NaN"] and the infinities
    as such, prints a number of magnitude at least 10^21 as
    [Number::toString] does (a string that reads back as the same number),
    and otherwise prints the sign and [n] with two fraction digits. *)
Definition toFixed2 (x : t) : t :=
  match x with
  | S754_nan => S754_nan
  | S754_infinity s => S754_infinity s
  | S754_zero _ => S754_zero false
  | S754_finite s m e =>
      if ge_1e21 m e then x else of_cents s (cents m e)
  end.

End Number.

(** ** Rows of the four tables

    Modelled from the spec: the Prisma schema ([prisma/schema.prisma] is not
    among the sources).  User: id, email (unique), name.  Product: id, name,
    description, price (a float), imageUrl.  Cart: id, userId (unique, a
    foreign key to User).  CartItem: id, quantity (an [Int], 32 bits),
    productId and cartId (foreign keys), unique on (cartId, productId).  Ids
    are strings.  A quantity is a [Z]; the store refuses to write one outside
    the range of the column ([int32] below). *)
Module User.
Record t := { id : string; email : string; name : string }.
End User.

Module Product.
Record t := { id : string; name : string; description : string;
              price : Number.t; imageUrl : string }.
End Product.

Module Cart.
Record t := { id : string; userId : string }.
End Cart.

Module CartItem.
Record t := { id : string; quantity : Z; productId : string; cartId : string }.

Definition has_key (cid pid : string) (i : t) : bool :=
  (cartId i =? cid)%string && (productId i =? pid)%string.

Definition key (i : t) : string * string := (cartId i, productId i).

Definition set_quantity (q : Z) (i : t) : t :=
  {| id := id i; quantity := q; productId := productId i; cartId := cartId i |}.
End CartItem.

(** The range of the quantity column. *)
Definition int32 (z : Z) : bool := (- 2 ^ 31 <=? z) && (z <=? 2 ^ 31 - 1).
Arguments int32 : simpl never.

(** ** The database

    [issued] counts the ids the [cuid()] column default has handed out;
    [outages] is the environment's schedule of connection failures, one entry
    consumed by each query ([true]: this query cannot reach the database). *)
Record Db := {
  users : list User.t;
  products : list Product.t;
  carts : list Cart.t;
  cartItems : list CartItem.t;
  issued : nat;
  outages : list bool
}.

Definition cuid (n : nat) : string :=
  String "c" (NilEmpty.string_of_uint (Nat.to_uint n)).

Definition mem (x : string) (l : list string) : bool :=
  existsb (String.eqb x) l.

(** ** Exceptions and the query monad *)
Record Issue := { path : list string; message : string }.

Inductive Exn :=
| ZodError (issues : list Issue)
| PrismaError (code : string)
| TypeError.

Inductive Outcome (A : Type) :=
| Value (a : A)
| Throw (e : Exn).
Arguments Value {A} a.
Arguments Throw {A} e.

Definition M (A : Type) := Db -> Outcome A * Db.

Definition ret {A} (a : A) : M A := fun d => (Value a, d).

Definition throw {A} (e : Exn) : M A := fun d => (Throw e, d).

Definition bind {A B} (m : M A) (k : A -> M B) : M B :=
  fun d => match m d with
           | (Value a, d') => k a d'
           | (Throw e, d') => (Throw e, d')
           end.

Definition lift {A} (o : Outcome A) : M A := fun d => (o, d).

Notation "x <- m ;; k" := (bind m (fun x => k))
  (at level 61, m at next level, right associativity).
Notation "m ;;; k" := (bind m (fun _ => k))
  (at level 61, right associativity).

(** A statement block under [try], with its [catch] handler. *)
Definition try_catch {A} (m : M A) (h : Exn -> A) : Db -> A * Db :=
  fun d => match m d with
           | (Value a, d') => (a, d')
           | (Throw e, d') => (h e, d')
           end.

Definition tick (d : Db) : Db :=
  {| users := users d; products := products d; carts := carts d;
     cartItems := cartItems d; issued := issued d; outages := tl (outages d) |}.

(** One round trip to the database. *)
Definition query {A} (f : M A) : M A :=
  fun d => match outages d with
           | true :: _ => (Throw (PrismaError "P1001"), tick d)
           | false :: _ => f (tick d)
           | [] => f d
           end.

(** ** The Prisma client calls the routes make

    Modelled from the spec: the client instance the routes import from
    [lib/prisma.ts] (not among the sources), a Prisma client over the schema
    above.  Each call is one query; the store enforces the primary keys, the
    unique constraints, the foreign keys and the range of the integer
    column, and a call that breaks one throws and writes nothing.  Error
    codes: P2002 unique constraint, P2003 foreign key, P2020 value out of
    range for the column, P2025 record not found, P2032 inconsistent
    relation, P1001 database unreachable. *)
Module prisma.

Definition with_carts (cs : list Cart.t) (n : nat) (d : Db) : Db :=
  {| users := users d; products := products d; carts := cs;
     cartItems := cartItems d; issued := n; outages := outages d |}.

Definition with_items (rows : list CartItem.t) (n : nat) (d : Db) : Db :=
  {| users := users d; products := products d; carts := carts d;
     cartItems := rows; issued := n; outages := outages d |}.

Definition find_product (pid : string) (d : Db) : option Product.t :=
  find (fun p => (Product.id p =? pid)%string) (products d).

Definition find_cart (uid : string) (d : Db) : option Cart.t :=
  find (fun c => (Cart.userId c =? uid)%string) (carts d).

Definition find_item (cid pid : string) (d : Db) : option CartItem.t :=
  find (CartItem.has_key cid pid) (cartItems d).

Definition items_of (cid : string) (d : Db) : list CartItem.t :=
  filter (fun i => (CartItem.cartId i =? cid)%string) (cartItems d).

(** [include: { product: true }] on a list of items. *)
Fixpoint include_product (d : Db) (rows : list CartItem.t)
  : option (list (CartItem.t * Product.t)) :=
  match rows with
  | [] => Some []
  | i :: rest =>
      match find_product (CartItem.productId i) d, include_product d rest with
      | Some p, Some ps => Some ((i, p) :: ps)
      | _, _ => None
      end
  end.

Module product.
Definition findUnique (pid : string) : M (option Product.t) :=
  query (fun d => (Value (find_product pid d), d)).
End product.

Module cart.
Definition findUnique (uid : string) : M (option Cart.t) :=
  query (fun d => (Value (find_cart uid d), d)).

(** [findUnique] with [include: { items: { include: { product: true } } }]. *)
Definition findUnique_include (uid : string)
  : M (option (Cart.t * list (CartItem.t * Product.t))) :=
  query (fun d =>
    match find_cart uid d with
    | None => (Value None, d)
    | Some c =>
        match include_product d (items_of (Cart.id c) d) with
        | Some rows => (Value (Some (c, rows)), d)
        | None => (Throw (PrismaError "P2032"), d)
        end
    end).

(** [create] with [data: { userId }]; the user id is a foreign key. *)
Definition create (uid : string) : M Cart.t :=
  query (fun d =>
    let c := {| Cart.id := cuid (issued d); Cart.userId := uid |} in
    if mem (Cart.id c) (map Cart.id (carts d))
       || mem uid (map Cart.userId (carts d))
    then (Throw (PrismaError "P2002"), d)
    else if mem uid (map User.id (users d))
    then (Value c, with_carts (carts d ++ [c]) (S (issued d)) d)
    else (Throw (PrismaError "P2003"), d)).
End cart.

Module cartItem.
Definition findUnique (cid pid : string) : M (option CartItem.t) :=
  query (fun d => (Value (find_item cid pid d), d)).

(** [upsert] on the compound key, with [update: { quantity: { increment } }].
    Neither the increment nor the quantity to create, nor the sum the
    increment gives, may leave the range of the column. *)
Definition upsert (cid pid : string) (increment quantity : Z) : M CartItem.t :=
  query (fun d =>
    if negb (int32 increment && int32 quantity)
    then (Throw (PrismaError "P2020"), d)
    else
      match find_item cid pid d with
      | Some i =>
          if negb (int32 (CartItem.quantity i + increment))
          then (Throw (PrismaError "P2020"), d)
          else
            let i' := CartItem.set_quantity (CartItem.quantity i + increment) i in
            (Value i',
             with_items
               (map (fun j => if CartItem.has_key cid pid j
                              then CartItem.set_quantity (CartItem.quantity j + increment) j
                              else j) (cartItems d)) (issued d) d)
      | None =>
          let i := {| CartItem.id := cuid (issued d); CartItem.quantity := quantity;
                      CartItem.productId := pid; CartItem.cartId := cid |} in
          if mem (CartItem.id i) (map CartItem.id (cartItems d))
          then (Throw (PrismaError "P2002"), d)
          else if mem cid (map Cart.id (carts d))
                  && mem pid (map Product.id (products d))
          then (Value i, with_items (cartItems d ++ [i]) (S (issued d)) d)
          else (Throw (PrismaError "P2003"), d)
      end).

(** [update] with [where: { id }] and [data: { quantity }]. *)
Definition update (iid : string) (q : Z) : M unit :=
  query (fun d =>
    if negb (int32 q) then (Throw (PrismaError "P2020"), d)
    else if mem iid (map CartItem.id (cartItems d))
    then (Value tt,
          with_items
            (map (fun j => if (CartItem.id j =? iid)%string
                           then CartItem.set_quantity q j else j) (cartItems d))
            (issued d) d)
    else (Throw (PrismaError "P2025"), d)).

(** [delete] with [where: { id }]. *)
Definition delete (iid : string) : M unit :=
  query (fun d =>
    if mem iid (map CartItem.id (cartItems d))
    then (Value tt,
          with_items
            (filter (fun j => negb (CartItem.id j =? iid)%string) (cartItems d))
            (issued d) d)
    else (Throw (PrismaError "P2025"), d)).

(** [delete] with [where: { cartId_productId }]; like every [delete] of the
    client it throws P2025 when no record matches. *)
Definition delete_key (cid pid : string) : M unit :=
  query (fun d =>
    match find_item cid pid d with
    | Some _ =>
        (Value tt,
         with_items (filter (fun j => negb (CartItem.has_key cid pid j)) (cartItems d))
                    (issued d) d)
    | None => (Throw (PrismaError "P2025"), d)
    end).

(** [deleteMany] with [where: { cartId }]. *)
Definition deleteMany (cid : string) : M unit :=
  query (fun d =>
    (Value tt,
     with_items (filter (fun j => negb (CartItem.cartId j =? cid)%string) (cartItems d))
                (issued d) d)).
End cartItem.

End prisma.

(** ** Requests and responses

    A JSON value as the route receives it.  A string is a sequence of code
    units below 256. *)
#[local] Unset Elimination Schemes.
Inductive JsValue :=
| JsUndefined
| JsNull
| JsBool (b : bool)
| JsNumber (x : Number.t)
| JsString (s : string)
| JsArray (xs : list JsValue)
| JsObject (fields : list (string * JsValue)).
#[local] Set Elimination Schemes.

(** Property read [v.k] on a value that is not [null] or [undefined]. *)
Definition prop (v : JsValue) (k : string) : JsValue :=
  match v with
  | JsObject fields =>
      match find (fun kv => (fst kv =? k)%string) fields with
      | Some kv => snd kv
      | None => JsUndefined
      end
  | _ => JsUndefined
  end.

(** [session] is the id of [session.user] when the request carries a session
    with a user. *)
Record Request := { method : string; session : option string; body : JsValue }.

Inductive Json :=
| JCart (cart : Cart.t) (items : list (CartItem.t * Product.t)) (total : Number.t)
| JOrder (success : bool) (total : Number.t)
| JError (error : string)
| JInvalid (error : string) (details : list Issue).

Record Response := { status : Z; json : Json }.

Definition respond (code : Z) (j : Json) : Response :=
  {| status := code; json := j |}.

(** ** The request schema of the cart route (zod)

    [z.object({ productId: z.string().cuid(), quantity: z.number().int() })].
    The message of an issue is its code. *)

(** The class [0-9a-z]. *)
Definition is_digit_or_lower (a : ascii) : bool :=
  let n := nat_of_ascii a in
  ((48 <=? n) && (n <=? 57) || (97 <=? n) && (n <=? 122))%nat.

(** zod's pattern for [.cuid()]: [/^[cC][0-9a-z]{6,}$/]. *)
Definition is_cuid (s : string) : bool :=
  match s with
  | String c rest =>
      ((c =? "c")%char || (c =? "C")%char)
      && (6 <=? String.length rest)%nat
      && forallb is_digit_or_lower (list_ascii_of_string rest)
  | EmptyString => false
  end.

Definition check_productId (v : JsValue) : list Issue :=
  match v with
  | JsString s =>
      if is_cuid s then []
      else [{| path := ["productId"]; message := "invalid_format" |}]
  | _ => [{| path := ["productId"]; message := "invalid_type" |}]
  end.

(** [int()] asks for a safe integer: an integer beyond 2^53 - 1 in magnitude
    is too big or too small. *)
Definition check_quantity (v : JsValue) : list Issue :=
  match v with
  | JsNumber x =>
      if Number.isInteger x then
        if Number.isSafeInteger x then []
        else [{| path := ["quantity"];
                 message := if Number.ltb x Number.zero
                            then "too_small" else "too_big" |}]
      else [{| path := ["quantity"]; message := "invalid_type" |}]
  | _ => [{| path := ["quantity"]; message := "invalid_type" |}]
  end.

(** [cartItemSchema.parse]: the parsed [productId] and the integer
    [quantity] denotes, or a [ZodError]. *)
Definition cartItemSchema_parse (b : JsValue) : Outcome (string * Z) :=
  match b with
  | JsObject _ =>
      match prop b "productId", prop b "quantity" with
      | JsString s, JsNumber x =>
          if is_cuid s && Number.isSafeInteger x then Value (s, Number.to_Z x)
          else Throw (ZodError (check_productId (JsString s)
                                ++ check_quantity (JsNumber x)))
      | p, q => Throw (ZodError (check_productId p ++ check_quantity q))
      end
  | _ => Throw (ZodError [{| path := []; message := "invalid_type" |}])
  end.

(** ** The total of a list of joined lines

    [items.reduce((sum, item) => sum + item.product.price * item.quantity, 0)]
    and [parseFloat(total.toFixed(2))]. *)
Definition line_amount (item : CartItem.t * Product.t) : Number.t :=
  Number.mul (Product.price (snd item)) (Number.of_Z (CartItem.quantity (fst item))).

Definition reduce_total (items : list (CartItem.t * Product.t)) : Number.t :=
  fold_left (fun sum item => Number.add sum (line_amount item)) items Number.zero.

Definition cart_total (items : list (CartItem.t * Product.t)) : Number.t :=
  Number.toFixed2 (reduce_total items).

(** ** [src/pages/api/cart/index.ts] *)
Module ApiCart.

(** The re-read of the cart and the 200 response that end the two mutating
    handlers; [updatedCart!] throws on [null]. *)
Definition respond_updated (userId : string) : M Response :=
  updatedCart <- prisma.cart.findUnique_include userId ;;
  match updatedCart with
  | None => throw TypeError
  | Some (c, items) => ret (respond 200 (JCart c items (cart_total items)))
  end.

Definition handleGetCart (userId : string) : Db -> Response * Db :=
  try_catch
    (cart <- prisma.cart.findUnique_include userId ;;
     match cart with
     | None => ret (respond 404 (JError "Cart not found"))
     | Some (c, items) => ret (respond 200 (JCart c items (cart_total items)))
     end)
    (fun _ => respond 500 (JError "Failed to fetch cart")).

Definition handleAddToCart (req : Request) (userId : string)
  : Db -> Response * Db :=
  try_catch
    (parsed <- lift (cartItemSchema_parse (body req)) ;;
     let '(productId, quantity) := parsed in
     product <- prisma.product.findUnique productId ;;
     match product with
     | None => ret (respond 404 (JError "Product not found"))
     | Some _ =>
         found <- prisma.cart.findUnique userId ;;
         cart <- match found with
                 | Some c => ret c
                 | None => prisma.cart.create userId
                 end ;;
         if quantity =? 0 then respond_updated userId
         else if 0 <? quantity then
           prisma.cartItem.upsert (Cart.id cart) productId quantity quantity ;;;
           respond_updated userId
         else
           existing <- prisma.cartItem.findUnique (Cart.id cart) productId ;;
           match existing with
           | None => ret (respond 400 (JError "Cart item not found"))
           | Some e =>
               let newQty := CartItem.quantity e + quantity in
               (if 0 <? newQty
                then prisma.cartItem.update (CartItem.id e) newQty
                else prisma.cartItem.delete (CartItem.id e)) ;;;
               respond_updated userId
           end
     end)
    (fun error =>
       match error with
       | ZodError issues => respond 400 (JInvalid "Validation failed" issues)
       | _ => respond 500 (JError "Failed to add to cart")
       end).

Definition handleRemoveFromCart (req : Request) (userId : string)
  : Db -> Response * Db :=
  try_catch
    (match body req with
     | JsUndefined | JsNull => throw TypeError
     | b =>
         match prop b "productId" with
         | JsString (String a s) =>
             let productId := String a s in
             cart <- prisma.cart.findUnique userId ;;
             match cart with
             | None => ret (respond 404 (JError "Cart not found"))
             | Some c =>
                 prisma.cartItem.delete_key (Cart.id c) productId ;;;
                 respond_updated userId
             end
         | _ =>
             ret (respond 400
                    (JInvalid "Validation failed"
                       [{| path := [];
                           message := "productId is required and must be a string" |}]))
         end
     end)
    (fun _ => respond 500 (JError "Failed to remove from cart")).

Definition handler (req : Request) : Db -> Response * Db :=
  match session req with
  | None => fun d => (respond 401 (JError "Unauthorized"), d)
  | Some userId =>
      if (method req =? "GET")%string then handleGetCart userId
      else if (method req =? "POST")%string then handleAddToCart req userId
      else if (method req =? "DELETE")%string then handleRemoveFromCart req userId
      else fun d => (respond 405 (JError "Method not allowed"), d)
  end.

End ApiCart.

(** ** [src/pages/api/orders/index.ts] *)
Module ApiOrders.

Definition handler (req : Request) : Db -> Response * Db :=
  if negb (method req =? "POST")%string
  then fun d => (respond 405 (JError "Method not allowed"), d)
  else
    match session req with
    | None => fun d => (respond 401 (JError "Unauthorized"), d)
    | Some userId =>
        try_catch
          (cart <- prisma.cart.findUnique_include userId ;;
           match cart with
           | None | Some (_, []) => ret (respond 400 (JError "Cart is empty"))
           | Some (c, items) =>
               let total := reduce_total items in
               prisma.cartItem.deleteMany (Cart.id c) ;;;
               ret (respond 200 (JOrder true (Number.toFixed2 total)))
           end)
          (fun _ => respond 500 (JError "Failed to create order"))
    end.

End ApiOrders.

(** ** Sequences of requests *)
Inductive Route := api_cart | api_orders.

Definition serve (rq : Route * Request) : Db -> Response * Db :=
  match fst rq with
  | api_cart => ApiCart.handler (snd rq)
  | api_orders => ApiOrders.handler (snd rq)
  end.

(** The database after each request of a sequence, the first state included. *)
Fixpoint states (rqs : list (Route * Request)) (d : Db) : list Db :=
  match rqs with
  | [] => [d]
  | rq :: rest => d :: states rest (snd (serve rq d))
  end.

(** ** Constraints and invariants of the database *)
Definition healthy (d : Db) : Prop := outages d = [].

(** At most one line per (cart id, product id). *)
Definition unique_lines (d : Db) : Prop :=
  NoDup (map CartItem.key (cartItems d)).

(** Every stored line has quantity at least 1. *)
Definition positive_quantities (d : Db) : Prop :=
  Forall (fun i => 1 <= CartItem.quantity i) (cartItems d).

(** The foreign keys of the lines point at rows that exist. *)
Definition item_fks (d : Db) : Prop :=
  Forall (fun i => In (CartItem.cartId i) (map Cart.id (carts d))
                   /\ In (CartItem.productId i) (map Product.id (products d)))
         (cartItems d).

(** The ids still to be issued are not in use. *)
Definition fresh (d : Db) : Prop :=
  forall n, (issued d <= n)%nat ->
    ~ In (cuid n) (map Cart.id (carts d))
    /\ ~ In (cuid n) (map CartItem.id (cartItems d)).

(** A computation keeps [I]; [I] does not look at the outage schedule. *)
Definition preserves {A} (I : Db -> Prop) (m : M A) : Prop :=
  forall d, I d -> I (snd (m d)).

Definition stable (I : Db -> Prop) : Prop := forall d, I d -> I (tick d).

(** When [m] returns a value from a state where [P] holds, [Q] holds of the
    value and the state reached. *)
Definition ensures {A} (P : Db -> Prop) (m : M A) (Q : A -> Db -> Prop) : Prop :=
  forall d, P d -> forall a d', m d = (Value a, d') -> Q a d'.

(** The rows of the cart and product tables, and of the line table. *)
Definition same_rows (d d' : Db) : Prop :=
  products d' = products d /\ carts d' = carts d /\ cartItems d' = cartItems d.

(** The 200 response with the re-read cart. *)
Definition is_cart_response (r : Response) : Prop :=
  exists c rows, r = respond 200 (JCart c rows (cart_total rows)).

(** The rows after a POST that ends before any line is written: the cart
    rows are as they were when the user had a cart, and one cart row of the
    user has been added when the user had none. *)
Definition cart_resolved (uid : string) (d0 d : Db) : Prop :=
  products d = products d0 /\ cartItems d = cartItems d0
  /\ ((prisma.find_cart uid d0 <> None /\ carts d = carts d0)
      \/ (prisma.find_cart uid d0 = None
          /\ exists c, Cart.userId c = uid /\ carts d = (carts d0 ++ [c])%list)).

(** The lines a cart holds for a product. *)
Definition lines_of (cid pid : string) (d : Db) : list CartItem.t :=
  filter (CartItem.has_key cid pid) (cartItems d).

(** ** The total as the specification words it

    The sum, in exact arithmetic, of price times quantity over the lines, and
    the hundredths nearest to it. *)
Definition scaled (x : Number.t) (k : Z) : Z :=
  match x with
  | S754_finite s m e =>
      let a := Zpos m * 2 ^ (e + k) in if s then - a else a
  | _ => 0
  end.

(** [exact_sum k items] is the exact sum times [2^k]; it is an integer as
    soon as [k] is at least the opposite of every price's exponent. *)
Definition exact_sum (k : Z) (items : list (CartItem.t * Product.t)) : Z :=
  fold_right (fun item acc =>
                scaled (Product.price (snd item)) k * CartItem.quantity (fst item) + acc)
             0 items.

(** [n] hundredths is a nearest amount to the exact sum: [|n/100 - sum|]
    is at most half a hundredth. *)
Definition nearest_hundredth_of_sum (k : Z) (items : list (CartItem.t * Product.t))
           (n : Z) : Prop :=
  Z.abs (2 * (n * 2 ^ k - 100 * exact_sum k items)) <= 2 ^ k.

(** [n] is the integer [toFixed(2)] prints for the magnitude [m * 2^e]. *)
Definition toFixed_digits (m : positive) (e : Z) (n : Z) : Prop :=
  if 0 <=? e then n = 100 * Zpos m * 2 ^ e
  else 2 ^ (- e) * (2 * n - 1) <= 200 * Zpos m < 2 ^ (- e) * (2 * n + 1).

(** "An integer number" and "a CUID-shaped string", as the schema asks of
    the two fields: a number [int()] lets through, and a string [cuid()]
    lets through. *)
Definition integer_number (v : JsValue) : bool :=
  match v with JsNumber x => Number.isSafeInteger x | _ => false end.

Definition cuid_string (v : JsValue) : bool :=
  match v with JsString s => is_cuid s | _ => false end.

(** Not below zero: a NaN, a zero of either sign, or a positive number. *)
Definition not_negative (x : Number.t) : Prop :=
  match x with
  | S754_nan | S754_zero _ => True
  | S754_infinity s | S754_finite s _ _ => s = false
  end.

(** A price or amount that [x >= 0] accepts. *)
Definition non_negative (x : Number.t) : Prop := Number.leb Number.zero x = true.

(** ** Scenario data *)
Definition mk_product (pid : string) (p : Number.t) : Product.t :=
  {| Product.id := pid; Product.name := pid; Product.description := "";
     Product.price := p; Product.imageUrl := "" |}.

Definition mk_item (iid cid pid : string) (q : Z) : CartItem.t :=
  {| CartItem.id := iid; CartItem.quantity := q;
     CartItem.productId := pid; CartItem.cartId := cid |}.

Definition P1 : Product.t := mk_product "cproduct0001" (Number.of_Z 10).
Definition P2 : Product.t := mk_product "cproduct0002" (Number.of_Z 5).

Definition json_body (pid : string) (q : Z) : JsValue :=
  JsObject [("productId", JsString pid); ("quantity", JsNumber (Number.of_Z q))].

Definition request (m : string) (b : JsValue) : Request :=
  {| method := m; session := Some "u1"; body := b |}.

(** The user the seed script creates, and a second one. *)
Definition test_user : User.t :=
  {| User.id := "u1"; User.email := "test.user@example.com";
     User.name := "Test User" |}.

Definition second_user : User.t :=
  {| User.id := "u2"; User.email := "second.user@example.com";
     User.name := "Second User" |}.

(** A seeded catalogue, the user u1 and no cart. *)
Definition db_empty : Db :=
  {| users := [test_user]; products := [P1; P2]; carts := []; cartItems := [];
     issued := 0; outages := [] |}.

(** User u1 has a cart with three of P1. *)
Definition db_three : Db :=
  {| users := [test_user]; products := [P1; P2];
     carts := [{| Cart.id := "c0"; Cart.userId := "u1" |}];
     cartItems := [mk_item "c1" "c0" "cproduct0001" 3];
     issued := 2; outages := [] |}.

(** User u1 has a cart with one of P1 and three of P2. *)
Definition db_two_lines : Db :=
  {| users := [test_user]; products := [P1; P2];
     carts := [{| Cart.id := "c0"; Cart.userId := "u1" |}];
     cartItems := [mk_item "c1" "c0" "cproduct0001" 1;
                   mk_item "c2" "c0" "cproduct0002" 3];
     issued := 3; outages := [] |}.

(** The joined lines of [db_two_lines]. *)
Definition two_rows : list (CartItem.t * Product.t) :=
  [(mk_item "c1" "c0" "cproduct0001" 1, P1);
   (mk_item "c2" "c0" "cproduct0002" 3, P2)].

(** A product priced 19999.99 (the binary64 value nearest to it, as the
    price column holds it) and a line of 2000000003 of it. *)
Definition n_19999_99 : Number.t := Number.of_cents false 1999999.

Definition large_line : list (CartItem.t * Product.t) :=
  [(mk_item "c1" "c0" "cproduct0003" 2000000003,
    mk_product "cproduct0003" n_19999_99)].

(** ** Further notions for the routes *)

(** [I] looks at the product and cart tables only. *)
Definition on_catalogue_and_carts (I : Db -> Prop) : Prop :=
  forall d d', products d' = products d -> carts d' = carts d -> I d -> I d'.

(** At most one cart row per user id. *)
Definition one_cart_per_user (d : Db) : Prop :=
  NoDup (map Cart.userId (carts d)).

(** The cart rows of [d0] are still there, in place, in [d]. *)
Definition carts_extend (d0 d : Db) : Prop :=
  exists more, carts d = (carts d0 ++ more)%list.

(** No two lines share an id. *)
Definition unique_line_ids (d : Db) : Prop :=
  NoDup (map CartItem.id (cartItems d)).

(** From a state where [P] holds, [m] returns a value and a state that
    satisfy [Q], or throws in a state that satisfies [E]. *)
Definition hoare {A} (P : Db -> Prop) (m : M A) (Q : A -> Db -> Prop)
           (E : Db -> Prop) : Prop :=
  forall d, P d ->
    match m d with
    | (Value a, d') => Q a d'
    | (Throw _, d') => E d'
    end.

(** The lines other than those of the pair (cart [cid], product [pid]). *)
Definition other_lines (cid pid : string) (d : Db) : list CartItem.t :=
  filter (fun i => negb (CartItem.has_key cid pid i)) (cartItems d).

(** The cart rows of [d0] as they were, or followed by one new row, a cart
    of [uid], who had none. *)
Definition own_cart_added (uid : string) (d0 d : Db) : Prop :=
  carts d = carts d0
  \/ (prisma.find_cart uid d0 = None
      /\ exists c, Cart.userId c = uid /\ carts d = (carts d0 ++ [c])%list).

(** What a POST by [uid] leaves of the state [d0] it started from: the
    catalogue, the cart rows (at most one has been added, a cart of the
    user), and every line, except possibly the lines of one product in the
    user's cart. *)
Definition only_own_line_changed (uid : string) (d0 d : Db) : Prop :=
  products d = products d0
  /\ own_cart_added uid d0 d
  /\ (cartItems d = cartItems d0
      \/ exists c pid,
           prisma.find_cart uid d = Some c
           /\ other_lines (Cart.id c) pid d = other_lines (Cart.id c) pid d0).

(** [null] or [undefined]. *)
Definition nullish (v : JsValue) : bool :=
  match v with JsUndefined | JsNull => true | _ => false end.

(** A non-empty string, as [!productId || typeof productId !== "string"]
    lets through. *)
Definition nonempty_string (v : JsValue) : bool :=
  match v with JsString (String _ _) => true | _ => false end.

(** What a DELETE by [uid] with body [b] leaves of the state [d0]: the
    catalogue, the cart rows, and every line, except possibly the lines of
    the product the body names in the user's cart. *)
Definition only_named_line_removed (uid : string) (b : JsValue) (d0 d : Db) : Prop :=
  products d = products d0
  /\ carts d = carts d0
  /\ (cartItems d = cartItems d0
      \/ exists c pid,
           prop b "productId" = JsString pid
           /\ prisma.find_cart uid d0 = Some c
           /\ cartItems d = other_lines (Cart.id c) pid d0).

(** No two cart rows share an id. *)
Definition unique_cart_ids (d : Db) : Prop :=
  NoDup (map Cart.id (carts d)).

(** What a checkout by [uid] leaves of the state [d0]: the catalogue, the
    cart rows, and every line, except possibly the lines of the user's cart,
    all gone. *)
Definition only_own_cart_cleared (uid : string) (d0 d : Db) : Prop :=
  products d = products d0
  /\ carts d = carts d0
  /\ (cartItems d = cartItems d0
      \/ exists c,
           prisma.find_cart uid d0 = Some c
           /\ cartItems d
              = filter (fun j => negb (CartItem.cartId j =? Cart.id c)%string)
                       (cartItems d0)).

(** Two users, each with a cart and one line. *)
Definition db_two_users : Db :=
  {| users := [test_user; second_user]; products := [P1; P2];
     carts := [{| Cart.id := "c0"; Cart.userId := "u1" |};
               {| Cart.id := "c2"; Cart.userId := "u2" |}];
     cartItems := [mk_item "c1" "c0" "cproduct0001" 3;
                   mk_item "c3" "c2" "cproduct0001" 2];
     issued := 4; outages := [] |}.

(** ** The browser

    [fetch] hands a request with the browser's session to the route and
    waits for the answer: the route receives the body as the value that was
    serialised, and the request itself does not fail on the way. *)
Module Browser.

Definition fetch (session : option string) (route : Route) (method : string)
           (body : JsValue) : Db -> Response * Db :=
  serve (route, {| method := method; session := session; body := body |}).

(** [response.ok]. *)
Definition ok (r : Response) : bool := (200 <=? status r) && (status r <=? 299).

End Browser.

(** ** [src/pages/cart.tsx]: the cart page

    The page keeps the last cart it fetched, two flags and, here, the alerts
    it has shown.  The quantities the page computes with are the integers
    the route sent, so its arithmetic on them is exact. *)
Module CartPage.

Inductive Alert :=
| OrderPlaced (total : option Number.t)
| Message (text : string).

Record t := {
  cart : option Json;
  loading : bool;
  updating : bool;
  alerts : list Alert
}.

Definition setCart (c : option Json) (p : t) : t :=
  {| cart := c; loading := loading p; updating := updating p; alerts := alerts p |}.

Definition setLoading (b : bool) (p : t) : t :=
  {| cart := cart p; loading := b; updating := updating p; alerts := alerts p |}.

Definition setUpdating (b : bool) (p : t) : t :=
  {| cart := cart p; loading := loading p; updating := b; alerts := alerts p |}.

Definition alert (a : Alert) (p : t) : t :=
  {| cart := cart p; loading := loading p; updating := updating p;
     alerts := (alerts p ++ [a])%list |}.

(** The [finally] block of a handler. *)
Definition finally (f : t -> t) (w : t * Db) : t * Db := (f (fst w), snd w).

Definition fetchCart (session : option string) (w : t * Db) : t * Db :=
  let p := setLoading true (fst w) in
  let answer := Browser.fetch session api_cart "GET" JsUndefined (snd w) in
  finally (setLoading false)
    (if Browser.ok (fst answer)
     then (setCart (Some (json (fst answer))) p, snd answer)
     else (p, snd answer)).

Definition handleRemoveItem (session : option string) (productId : string)
           (w : t * Db) : t * Db :=
  let p := setUpdating true (fst w) in
  let answer := Browser.fetch session api_cart "DELETE"
                  (JsObject [("productId", JsString productId)]) (snd w) in
  finally (setUpdating false)
    (if Browser.ok (fst answer)
     then fetchCart session (p, snd answer)
     else (alert (Message "Failed to remove item from cart") p, snd answer)).

(** [cart?.items.find(i => i.product.id === productId)?.quantity || 0]; on a
    stored answer without [items] the call of [find] throws. *)
Definition shown_quantity (productId : string) (c : option Json) : Outcome Z :=
  match c with
  | None => Value 0
  | Some (JCart _ items _) =>
      Value (match find (fun i => (Product.id (snd i) =? productId)%string) items with
             | Some i => CartItem.quantity (fst i)
             | None => 0
             end)
  | Some _ => Throw TypeError
  end.

Definition handleUpdateQuantity (session : option string) (productId : string)
           (quantity : Z) (w : t * Db) : t * Db :=
  if quantity <? 1 then handleRemoveItem session productId w
  else
    let p := setUpdating true (fst w) in
    finally (setUpdating false)
      (match shown_quantity productId (cart p) with
       | Throw _ => (alert (Message "Failed to update cart") p, snd w)
       | Value shown =>
           let answer :=
             Browser.fetch session api_cart "POST"
               (JsObject [("productId", JsString productId);
                          ("quantity", JsNumber (Number.of_Z (Z.max 1 quantity - shown)))])
               (snd w) in
           if Browser.ok (fst answer)
           then fetchCart session (p, snd answer)
           else (alert (Message "Failed to update cart") p, snd answer)
       end).

(** The click handler of "Proceed to Checkout". *)
Definition proceedToCheckout (session : option string) (w : t * Db) : t * Db :=
  let p := setUpdating true (fst w) in
  let answer := Browser.fetch session api_orders "POST" JsUndefined (snd w) in
  finally (setUpdating false)
    (if Browser.ok (fst answer)
     then fetchCart session
            (alert (OrderPlaced (match json (fst answer) with
                                 | JOrder _ total => Some total
                                 | _ => None
                                 end)) p,
             snd answer)
     else (alert (Message "Failed to place order") p, snd answer)).

(** What the visitor does on the page. *)
Inductive Action :=
| UpdateQuantity (productId : string) (quantity : Z)
| RemoveItem (productId : string)
| Checkout
| Reload.

Definition act (session : option string) (a : Action) : t * Db -> t * Db :=
  match a with
  | UpdateQuantity productId quantity => handleUpdateQuantity session productId quantity
  | RemoveItem productId => handleRemoveItem session productId
  | Checkout => proceedToCheckout session
  | Reload => fetchCart session
  end.

(** The page and the database after each action, the first state included. *)
Fixpoint run (session : option string) (acts : list Action) (w : t * Db)
  : list (t * Db) :=
  match acts with
  | [] => [w]
  | a :: rest => w :: run session rest (act session a w)
  end.

End CartPage.

(** ** JavaScript's [parseInt] and the digits of an integer

    Strings are sequences of code units below 256.  [parseInt s] is the
    integer [parseInt] reads in [s], [None] for [NaN]; it is the number
    JavaScript returns as long as it is below 2^53 in magnitude. *)
Module Js.

Definition is_white (c : ascii) : bool :=
  let n := nat_of_ascii c in
  ((9 <=? n) && (n <=? 13) || (n =? 32) || (n =? 160))%nat.

Fixpoint trim_start (s : string) : string :=
  match s with
  | String c rest => if is_white c then trim_start rest else s
  | EmptyString => s
  end.

Definition digit (radix : Z) (c : ascii) : option Z :=
  let n := Z.of_nat (nat_of_ascii c) in
  let v := if (48 <=? n) && (n <=? 57) then Some (n - 48)
           else if (97 <=? n) && (n <=? 122) then Some (n - 87)
           else if (65 <=? n) && (n <=? 90) then Some (n - 55)
           else None in
  match v with
  | Some v => if v <? radix then Some v else None
  | None => None
  end.

(** The value of the longest prefix of digits; [acc] is the value read so
    far, [None] before the first digit. *)
Fixpoint digits (radix : Z) (s : string) (acc : option Z) : option Z :=
  match s with
  | String c rest =>
      match digit radix c with
      | Some v =>
          digits radix rest
            (Some (radix * match acc with Some a => a | None => 0 end + v))
      | None => acc
      end
  | EmptyString => acc
  end.

Definition parseInt (s : string) : option Z :=
  let s := trim_start s in
  let signed := match s with
                | String "-"%char rest => (true, rest)
                | String "+"%char rest => (false, rest)
                | _ => (false, s)
                end in
  let based := match snd signed with
               | String "0"%char (String x rest) =>
                   if (x =? "x")%char || (x =? "X")%char then (16, rest)
                   else (10, snd signed)
               | _ => (10, snd signed)
               end in
  match digits (fst based) (snd based) None with
  | Some n => Some (if fst signed then - n else n)
  | None => None
  end.

(** [parseInt(v) || 1]: [NaN] and 0 give 1. *)
Definition parseInt_or_1 (s : string) : Z :=
  match parseInt s with
  | Some n => if n =? 0 then 1 else n
  | None => 1
  end.

(** What a template literal prints for a non-negative integer (below 10^21):
    its decimal digits. *)
Definition decimal (n : Z) : string :=
  NilEmpty.string_of_uint (Nat.to_uint (Z.to_nat n)).

(** [Math.ceil(n / k)] for integers [n >= 0] and [k > 0]. *)
Definition ceil_quotient (n k : Z) : Z := (n + k - 1) / k.

End Js.

(** ** The product page ([pages/products/[id].tsx]): quantity and "Add to Cart" *)
Module ProductDetail.

Record t := {
  quantity : Z;
  loading : bool;
  alerts : list string;
  location : option string
}.

Definition initial : t :=
  {| quantity := 1; loading := false; alerts := []; location := None |}.

Definition setQuantity (q : Z) (p : t) : t :=
  {| quantity := q; loading := loading p; alerts := alerts p; location := location p |}.

Definition setLoading (b : bool) (p : t) : t :=
  {| quantity := quantity p; loading := b; alerts := alerts p; location := location p |}.

Definition alert (text : string) (p : t) : t :=
  {| quantity := quantity p; loading := loading p;
     alerts := (alerts p ++ [text])%list; location := location p |}.

Definition redirect (href : string) (p : t) : t :=
  {| quantity := quantity p; loading := loading p; alerts := alerts p;
     location := Some href |}.

(** The three controls of the quantity selector. *)
Definition decrement (p : t) : t := setQuantity (Z.max 1 (quantity p - 1)) p.

Definition onChange (value : string) (p : t) : t :=
  setQuantity (Z.max 1 (Js.parseInt_or_1 value)) p.

Definition increment (p : t) : t := setQuantity (quantity p + 1) p.

Definition handleAddToCart (session : option string) (product : Product.t)
           (w : t * Db) : t * Db :=
  match session with
  | None => (redirect "/api/auth/signin" (fst w), snd w)
  | Some _ =>
      let p := setLoading true (fst w) in
      let answer :=
        Browser.fetch session api_cart "POST"
          (JsObject [("productId", JsString (Product.id product));
                     ("quantity", JsNumber (Number.of_Z (quantity p)))])
          (snd w) in
      (setLoading false
         (if Browser.ok (fst answer)
          then setQuantity 1 (alert "Product added to cart!" p)
          else alert "Failed to add to cart" p),
       snd answer)
  end.

Inductive Result :=
| notFound
| props (product : Product.t).

Definition getServerSideProps (id : string) : Db -> Result * Db :=
  try_catch
    (product <- prisma.product.findUnique id ;;
     match product with
     | None => ret notFound
     | Some p => ret (props p)
     end)
    (fun _ => notFound).

(** What the visitor does on the page. *)
Inductive Event :=
| Minus
| Typed (value : string)
| Plus
| AddToCart.

Definition step (session : option string) (product : Product.t) (ev : Event)
           (w : t * Db) : t * Db :=
  match ev with
  | Minus => (decrement (fst w), snd w)
  | Typed value => (onChange value (fst w), snd w)
  | Plus => (increment (fst w), snd w)
  | AddToCart => handleAddToCart session product w
  end.

Fixpoint run (session : option string) (product : Product.t) (evs : list Event)
         (w : t * Db) : list (t * Db) :=
  match evs with
  | [] => [w]
  | ev :: rest => w :: run session product rest (step session product ev w)
  end.

End ProductDetail.

(** ** The catalogue queries of the home page

    Modelled from the spec: the product table also has creation dates, and
    the database decides what [contains] with [mode: "insensitive"] matches;
    neither is among the sources.  [Catalogue.t] holds these two choices of
    the database: which text contains which pattern, and the order
    [orderBy: { createdAt: "desc" }] puts rows in, taken to be the same for
    every query. *)
Module Catalogue.

Record t := {
  contains : string -> string -> bool;
  newest_first : list Product.t -> list Product.t;
  newest_first_permutes : forall rows, Permutation (newest_first rows) rows
}.

(** The [where] clause built from the search query. *)
Definition where_ (e : t) (searchQuery : string) (p : Product.t) : bool :=
  match searchQuery with
  | EmptyString => true
  | _ => contains e (Product.name p) searchQuery
         || contains e (Product.description p) searchQuery
  end.

Definition matching (e : t) (searchQuery : string) (d : Db) : list Product.t :=
  newest_first e (filter (where_ e searchQuery) (products d)).

Definition findMany (e : t) (searchQuery : string) (skip take : Z)
  : M (list Product.t) :=
  query (fun d =>
    (Value (firstn (Z.to_nat take) (skipn (Z.to_nat skip) (matching e searchQuery d))),
     d)).

Definition count (e : t) (searchQuery : string) : M Z :=
  query (fun d =>
    (Value (Z.of_nat (List.length (filter (where_ e searchQuery) (products d)))), d)).

End Catalogue.

(** [Promise.all] of two queries: both are sent, and the result is a pair
    when both succeed. *)
Definition promise_all2 {A B} (m1 : M A) (m2 : M B) : M (A * B) :=
  fun d =>
    let r1 := m1 d in
    let r2 := m2 (snd r1) in
    (match fst r1, fst r2 with
     | Value a, Value b => Value (a, b)
     | Throw e, _ => Throw e
     | _, Throw e => Throw e
     end,
     snd r2).

(** ** The home page ([pages/index.tsx]) *)
Module Home.

Definition PRODUCTS_PER_PAGE : Z := 12.

Record Props := {
  products : list Product.t;
  totalCount : Z;
  currentPage : Z;
  totalPages : Z;
  searchQuery : string
}.

(** [q] and [page] are the two query parameters, each a single string or
    absent ([None]); the page number is taken to be in the range the client
    accepts for [skip]. *)
Definition getServerSideProps (e : Catalogue.t) (q page : option string)
  : Db -> Props * Db :=
  try_catch
    (let page := match page with Some s => s | None => "1" end in
     let currentPage := Z.max 1 (Js.parseInt_or_1 page) in
     let skip := (currentPage - 1) * PRODUCTS_PER_PAGE in
     let searchQuery := match q with Some s => s | None => "" end in
     both <- promise_all2
               (Catalogue.findMany e searchQuery skip PRODUCTS_PER_PAGE)
               (Catalogue.count e searchQuery) ;;
     ret {| products := fst both;
            totalCount := snd both;
            currentPage := currentPage;
            totalPages := Js.ceil_quotient (snd both) PRODUCTS_PER_PAGE;
            searchQuery := searchQuery |})
    (fun _ => {| products := []; totalCount := 0; currentPage := 1;
                 totalPages := 0; searchQuery := "" |}).

(** The page numbers of the pagination bar:
    [Array.from({ length: totalPages }, (_, i) => i + 1)]. *)
Definition page_numbers (p : Props) : list Z :=
  map (fun i => Z.of_nat i + 1) (seq 0 (Z.to_nat (totalPages p))).

(** Following the link [/?page=${page}&q=...] of the bar; the query string
    reaches the server as it was written. *)
Definition follow (e : Catalogue.t) (p : Props) (page : Z) : Db -> Props * Db :=
  getServerSideProps e
    (match searchQuery p with EmptyString => None | s => Some s end)
    (Some (Js.decimal page)).

(** [handleAddToCart], handed to each card as [onAddToCart]: the parsed
    answer, [None] when it throws. *)
Definition handleAddToCart (session : option string) (productId : string)
           (quantity : Z) : Db -> option Json * Db :=
  fun d =>
    let answer :=
      Browser.fetch session api_cart "POST"
        (JsObject [("productId", JsString productId);
                   ("quantity", JsNumber (Number.of_Z quantity))]) d in
    (if Browser.ok (fst answer) then Some (json (fst answer)) else None,
     snd answer).

End Home.

(** ** The product card ([components/ProductCard.tsx]) *)
Module ProductCard.

Record t := {
  quantity : Z;
  loading : bool;
  alerts : list string;
  location : option string
}.

Definition initial : t :=
  {| quantity := 1; loading := false; alerts := []; location := None |}.

Definition setQuantity (q : Z) (p : t) : t :=
  {| quantity := q; loading := loading p; alerts := alerts p; location := location p |}.

Definition setLoading (b : bool) (p : t) : t :=
  {| quantity := quantity p; loading := b; alerts := alerts p; location := location p |}.

Definition alert (text : string) (p : t) : t :=
  {| quantity := quantity p; loading := loading p;
     alerts := (alerts p ++ [text])%list; location := location p |}.

Definition redirect (href : string) (p : t) : t :=
  {| quantity := quantity p; loading := loading p; alerts := alerts p;
     location := Some href |}.

Definition decrement (p : t) : t := setQuantity (Z.max 1 (quantity p - 1)) p.

Definition onChange (value : string) (p : t) : t :=
  setQuantity (Z.max 1 (Js.parseInt_or_1 value)) p.

Definition increment (p : t) : t := setQuantity (quantity p + 1) p.

Definition handleAddToCart
           (onAddToCart : string -> Z -> Db -> option Json * Db)
           (session : option string) (id : string) (w : t * Db) : t * Db :=
  match session with
  | None => (redirect "/api/auth/signin" (fst w), snd w)
  | Some _ =>
      let p := setLoading true (fst w) in
      let result := onAddToCart id (quantity p) (snd w) in
      (setLoading false
         (match fst result with
          | Some _ => alert "Product added to cart!" (setQuantity 1 p)
          | None => alert "Failed to add to cart" p
          end),
       snd result)
  end.

End ProductCard.

(** ** [src/pages/api/auth/[...nextauth].ts]: signing in with credentials

    Modelled from the spec: [user.findUnique] and [user.create] of the Prisma
    client over the user table.  The nested [cart: { create: {} }] writes the
    user row and the cart row of the new user in one query.  The queries go
    to the same database as those of the routes. *)
Module Auth.

Record Credentials := { email : option string; password : option string }.

Definition find_user (email : string) (d : Db) : option User.t :=
  find (fun u => (User.email u =? email)%string) (users d).

Definition user_findUnique (email : string) : M (option User.t) :=
  query (fun d => (Value (find_user email d), d)).

(** [user.create] with [data: { email, name, cart: { create: {} } }]. *)
Definition user_create (email name : string) : M User.t :=
  query (fun d =>
    let u := {| User.id := cuid (issued d); User.email := email; User.name := name |} in
    let c := {| Cart.id := cuid (S (issued d)); Cart.userId := User.id u |} in
    if mem email (map User.email (users d))
       || mem (User.id u) (map User.id (users d))
       || mem (Cart.id c) (map Cart.id (carts d))
       || mem (User.id u) (map Cart.userId (carts d))
    then (Throw (PrismaError "P2002"), d)
    else (Value u,
          {| users := users d ++ [u]; products := products d;
             carts := carts d ++ [c]; cartItems := cartItems d;
             issued := S (S (issued d)); outages := outages d |})).

(** [email.split("@")[0]]. *)
Fixpoint before_at (s : string) : string :=
  match s with
  | String c rest => if (c =? "@")%char then "" else String c (before_at rest)
  | EmptyString => ""
  end.

(** A string that is there and not empty. *)
Definition given (s : option string) : bool :=
  match s with Some (String _ _) => true | _ => false end.

(** [authorize] of the credentials provider: the user signed in, [None] for
    [null]. *)
Definition authorize (credentials : option Credentials)
  : Db -> option User.t * Db :=
  match credentials with
  | Some {| email := Some email; password := password |} =>
      if given (Some email) && given password then
        try_catch
          (found <- user_findUnique email ;;
           match found with
           | Some user => ret (Some user)
           | None =>
               user <- user_create email (before_at email) ;;
               ret (Some user)
           end)
          (fun _ => None)
      else fun d => (None, d)
  | _ => fun d => (None, d)
  end.

(** The [jwt] and [session] callbacks: the session of the requests that
    follow carries the id of the user signed in. *)
Definition session_of (user : option User.t) : option string :=
  match user with Some u => Some (User.id u) | None => None end.

End Auth.

(** ** The seed script ([prisma/seed.ts]): [slugify]

    On strings of code units below 256. *)
Module Seed.

Definition lower (c : ascii) : ascii :=
  let n := nat_of_ascii c in
  if ((65 <=? n) && (n <=? 90)
      || (192 <=? n) && (n <=? 222) && negb (n =? 215))%nat
  then ascii_of_nat (n + 32)
  else c.

Fixpoint toLowerCase (s : string) : string :=
  match s with
  | String c rest => String (lower c) (toLowerCase rest)
  | EmptyString => EmptyString
  end.

(** [replace(/\s+/g, "-")]: every run of white space becomes one dash;
    [in_run] says that the character before was white space. *)
Fixpoint dash_white (in_run : bool) (s : string) : string :=
  match s with
  | String c rest =>
      if Js.is_white c
      then if in_run then dash_white true rest
           else String "-" (dash_white true rest)
      else String c (dash_white false rest)
  | EmptyString => EmptyString
  end.

(** The class [a-z0-9-]. *)
Definition slug_char (c : ascii) : bool :=
  let n := nat_of_ascii c in
  ((97 <=? n) && (n <=? 122) || (48 <=? n) && (n <=? 57) || (n =? 45))%nat.

(** [replace(/[^a-z0-9-]/g, "")]. *)
Fixpoint keep_slug_chars (s : string) : string :=
  match s with
  | String c rest =>
      if slug_char c then String c (keep_slug_chars rest) else keep_slug_chars rest
  | EmptyString => EmptyString
  end.

Definition slugify (name : string) : string :=
  String.substring 0 40 (keep_slug_chars (dash_white false (toLowerCase name))).

End Seed.

(** The store constraints, on a database with no outage ahead. *)
Definition consistent (d : Db) : Prop :=
  healthy d /\ fresh d /\ unique_lines d /\ item_fks d.

(** The page shows the user's cart as the database has it. *)
Definition in_sync (uid : string) (w : CartPage.t * Db) : Prop :=
  exists c rows,
    prisma.find_cart uid (snd w) = Some c
    /\ prisma.include_product (snd w) (prisma.items_of (Cart.id c) (snd w)) = Some rows
    /\ CartPage.cart (fst w) = Some (JCart c rows (cart_total rows)).

(** The quantity the database holds for a product in a cart, 0 without a line. *)
Definition stored_quantity (cid pid : string) (d : Db) : Z :=
  match prisma.find_item cid pid d with
  | Some i => CartItem.quantity i
  | None => 0
  end.

(** The quantity a user's cart holds of a product, 0 without a cart or
    without a line. *)
Definition held (uid pid : string) (d : Db) : Z :=
  match prisma.find_cart uid d with
  | Some c => stored_quantity (Cart.id c) pid d
  | None => 0
  end.

(** The user has a cart, or a row of the user table a new cart can point at. *)
Definition known_user (uid : string) (d : Db) : Prop :=
  prisma.find_cart uid d <> None \/ In uid (map User.id (users d)).

(** Every stored quantity is within the range of the column. *)
Definition quantities_in_range (d : Db) : Prop :=
  Forall (fun i => int32 (CartItem.quantity i) = true) (cartItems d).

(** The store constraints with the user table: no id still to be issued is
    a user's, and every cart belongs to a user. *)
Definition accounts_consistent (d : Db) : Prop :=
  consistent d
  /\ (forall n, (issued d <= n)%nat -> ~ In (cuid n) (map User.id (users d)))
  /\ incl (map Cart.userId (carts d)) (map User.id (users d)).

(** A cart page of user u1 left open while the cart became that of
    [db_three]: it still shows one of P1. *)
Definition page_stale : CartPage.t :=
  {| CartPage.cart :=
       Some (JCart {| Cart.id := "c0"; Cart.userId := "u1" |}
                   [(mk_item "c1" "c0" "cproduct0001" 1, P1)]
                   (cart_total [(mk_item "c1" "c0" "cproduct0001" 1, P1)]));
     CartPage.loading := false; CartPage.updating := false;
     CartPage.alerts := [] |}.

(** The cart page of user u1, showing the cart of [db_three]. *)
Definition page_three : CartPage.t :=
  {| CartPage.cart :=
       Some (JCart {| Cart.id := "c0"; Cart.userId := "u1" |}
                   [(mk_item "c1" "c0" "cproduct0001" 3, P1)]
                   (cart_total [(mk_item "c1" "c0" "cproduct0001" 3, P1)]));
     CartPage.loading := false; CartPage.updating := false;
     CartPage.alerts := [] |}.

(** A database that finds a pattern where it occurs as written, and keeps
    the rows in the order of the table. *)
Definition plain_catalogue : Catalogue.t :=
  {| Catalogue.contains := fun text pattern =>
       match String.index 0 pattern text with Some _ => true | None => false end;
     Catalogue.newest_first := fun rows => rows;
     Catalogue.newest_first_permutes := fun rows => Permutation_refl rows |}.

(** A catalogue of 26 products and no cart. *)
Definition db_catalogue : Db :=
  {| users := [];
     products := map (fun n => mk_product (cuid n) (Number.of_Z 10)) (seq 0 26);
     carts := []; cartItems := []; issued := 26; outages := [] |}.

(** * Properties *)

(** ** The monad and the queries *)
Lemma bind_value {A B} (m : M A) (k : A -> M B) d a d' :
  m d = (Value a, d') -> bind m k d = k a d'.
Proof. unfold bind; intros ->; reflexivity. Qed.

Lemma bind_throw {A B} (m : M A) (k : A -> M B) d e d' :
  m d = (Throw e, d') -> bind m k d = (Throw e, d').
Proof. unfold bind; intros ->; reflexivity. Qed.

Lemma query_healthy {A} (f : M A) d : healthy d -> query f d = f d.
Proof. unfold healthy, query; intros ->; reflexivity. Qed.

Lemma same_rows_refl d : same_rows d d.
Proof. repeat split. Qed.

Lemma same_rows_tick d : same_rows d (tick d).
Proof. repeat split. Qed.

Lemma same_rows_trans d1 d2 d3 :
  same_rows d1 d2 -> same_rows d2 d3 -> same_rows d1 d3.
Proof.
  unfold same_rows; intros (a & b & c) (a' & b' & c'); repeat split; congruence.
Qed.

(** ** The request schema *)
Lemma cartItemSchema_parse_value b pid q :
  cartItemSchema_parse b = Value (pid, q) ->
  prop b "productId" = JsString pid /\ is_cuid pid = true
  /\ exists x, prop b "quantity" = JsNumber x
               /\ Number.isInteger x = true /\ q = Number.to_Z x.
Proof.
  unfold cartItemSchema_parse.
  destruct b; try discriminate.
  destruct (prop (JsObject fields) "productId"); try discriminate;
    destruct (prop (JsObject fields) "quantity"); try discriminate.
  destruct (is_cuid s) eqn:Hc; destruct (Number.isSafeInteger x) eqn:Hi;
    simpl; try discriminate.
  intros [= <- <-]. split; [reflexivity|]. split; [assumption|].
  exists x. unfold Number.isSafeInteger in Hi.
  apply andb_true_iff in Hi. destruct Hi as [Hi _]. auto.
Qed.

Lemma cartItemSchema_parse_safe b pid q :
  cartItemSchema_parse b = Value (pid, q) -> Z.abs q <= 2 ^ 53 - 1.
Proof.
  unfold cartItemSchema_parse.
  destruct b; try discriminate.
  destruct (prop (JsObject fields) "productId"); try discriminate;
    destruct (prop (JsObject fields) "quantity"); try discriminate.
  destruct (is_cuid s) eqn:Hc; destruct (Number.isSafeInteger x) eqn:Hi;
    simpl; try discriminate.
  intros [= <- <-]. unfold Number.isSafeInteger in Hi.
  apply andb_true_iff in Hi. destruct Hi as [_ Hi]. apply Z.leb_le, Hi.
Qed.

Lemma cartItemSchema_parse_throw b :
  integer_number (prop b "quantity") = false
  \/ cuid_string (prop b "productId") = false ->
  exists issues, cartItemSchema_parse b = Throw (ZodError issues).
Proof.
  intros H. unfold cartItemSchema_parse.
  destruct b; try (eexists; reflexivity).
  destruct (prop (JsObject fields) "productId") eqn:Hp;
    destruct (prop (JsObject fields) "quantity") eqn:Hq;
    try (eexists; reflexivity).
  simpl in H.
  destruct (is_cuid s); destruct (Number.isSafeInteger x);
    simpl; try (eexists; reflexivity).
  destruct H; discriminate.
Qed.

(** C10: a POST body whose quantity is not an integer number (a number that
    [int()] accepts: an integer of magnitude at most 2^53 - 1), or whose
    productId is not a CUID-shaped string (one that [cuid()] accepts), is
    answered 400 "Validation failed" with the schema's issues, and the
    database is left exactly as it was: no query has been sent (not even the
    outage schedule has moved). *)
Theorem invalid_body_rejected (req : Request) (userId : string) (d : Db) :
  integer_number (prop (body req) "quantity") = false
  \/ cuid_string (prop (body req) "productId") = false ->
  exists issues,
    ApiCart.handleAddToCart req userId d
    = (respond 400 (JInvalid "Validation failed" issues), d).
Proof.
  intros H. destruct (cartItemSchema_parse_throw _ H) as [issues Hp].
  exists issues. unfold ApiCart.handleAddToCart, try_catch, bind, lift.
  rewrite Hp. reflexivity.
Qed.

Lemma invalid_body_rejected_witness :
  exists issues,
    ApiCart.handleAddToCart (request "POST" (json_body "not-a-cuid" 1)) "u1" db_three
    = (respond 400 (JInvalid "Validation failed" issues), db_three).
Proof.
  apply (invalid_body_rejected (request "POST" (json_body "not-a-cuid" 1)) "u1" db_three).
  right. reflexivity.
Defined.

(** What the schema makes of some bodies: an id of seven characters passes;
    an id of six, an id with a capital after the first character, a
    quantity with a fraction and the integer 2^53 do not. *)
Example cartItemSchema_parse_examples :
  cartItemSchema_parse (json_body "c123456" 1) = Value ("c123456", 1)
  /\ cartItemSchema_parse (json_body "c12345" 1)
     = Throw (ZodError [{| path := ["productId"]; message := "invalid_format" |}])
  /\ cartItemSchema_parse (json_body "cPRODUCT0001" 1)
     = Throw (ZodError [{| path := ["productId"]; message := "invalid_format" |}])
  /\ cartItemSchema_parse
       (JsObject [("productId", JsString "cproduct0001");
                  ("quantity", JsNumber (Number.div (Number.of_Z 3) (Number.of_Z 2)))])
     = Throw (ZodError [{| path := ["quantity"]; message := "invalid_type" |}])
  /\ cartItemSchema_parse (json_body "cproduct0001" (2 ^ 53))
     = Throw (ZodError [{| path := ["quantity"]; message := "too_big" |}])
  /\ cartItemSchema_parse (json_body "cproduct0001" (2 ^ 53 - 1))
     = Value ("cproduct0001", 2 ^ 53 - 1).
Proof. repeat split; vm_compute; reflexivity. Qed.

(** ** Invariants along a computation *)
Lemma preserves_ret {A} I (a : A) : preserves I (ret a).
Proof. intros d H; exact H. Qed.

Lemma preserves_throw {A} I e : preserves I (@throw A e).
Proof. intros d H; exact H. Qed.

Lemma preserves_lift {A} I (o : Outcome A) : preserves I (lift o).
Proof. intros d H; exact H. Qed.

Lemma preserves_bind {A B} I (m : M A) (k : A -> M B) :
  preserves I m -> (forall a, preserves I (k a)) -> preserves I (bind m k).
Proof.
  intros Hm Hk d H. unfold bind. specialize (Hm d H).
  destruct (m d) as [[a|e] d']; simpl in *; [apply Hk; exact Hm | exact Hm].
Qed.

Lemma preserves_query {A} I (f : M A) :
  stable I -> preserves I f -> preserves I (query f).
Proof.
  intros Hs Hf d H. unfold query.
  destruct (outages d) as [|[|] rest]; simpl; auto.
Qed.

(** Opens a proof that a query keeps an invariant [I] with [stable I] proved
    by [Hs]: the state [d] before the query and [H : I d]. *)
Ltac inside_query Hs :=
  apply preserves_query; [apply Hs|]; intros d H; simpl.

Lemma preserves_try_catch {A} I (m : M A) (h : Exn -> A) d :
  preserves I m -> I d -> I (snd (try_catch m h d)).
Proof.
  intros Hm H. unfold try_catch. specialize (Hm d H).
  destruct (m d) as [[a|e] d']; exact Hm.
Qed.

Lemma preserves_read {A} I (g : Db -> Outcome A) :
  stable I -> preserves I (query (fun d => (g d, d))).
Proof. intros Hs; apply preserves_query; [exact Hs | intros d H; exact H]. Qed.

Lemma preserves_findUnique_include I uid :
  stable I -> preserves I (prisma.cart.findUnique_include uid).
Proof.
  intros Hs; apply preserves_query; [exact Hs|]. intros d H.
  destruct (prisma.find_cart uid d); [|exact H].
  destruct (prisma.include_product d _); exact H.
Qed.

(** An invariant every write of the client keeps (a positive quantity being
    written) is kept by every request on either route. *)
Section Invariant.
Variable I : Db -> Prop.
Hypothesis I_stable : stable I.
Hypothesis I_create : forall uid, preserves I (prisma.cart.create uid).
Hypothesis I_upsert : forall cid pid q,
  0 < q -> preserves I (prisma.cartItem.upsert cid pid q q).
Hypothesis I_update : forall iid q,
  0 < q -> preserves I (prisma.cartItem.update iid q).
Hypothesis I_delete : forall iid, preserves I (prisma.cartItem.delete iid).
Hypothesis I_delete_key : forall cid pid,
  preserves I (prisma.cartItem.delete_key cid pid).
Hypothesis I_deleteMany : forall cid, preserves I (prisma.cartItem.deleteMany cid).

Lemma respond_updated_preserves uid : preserves I (ApiCart.respond_updated uid).
Proof.
  apply preserves_bind; [apply preserves_findUnique_include; exact I_stable|].
  intros [[c items]|]; [apply preserves_ret | apply preserves_throw].
Qed.

Lemma handleGetCart_preserves uid d :
  I d -> I (snd (ApiCart.handleGetCart uid d)).
Proof.
  apply preserves_try_catch.
  apply preserves_bind; [apply preserves_findUnique_include; exact I_stable|].
  intros [[c items]|]; apply preserves_ret.
Qed.

Lemma handleAddToCart_preserves req uid d :
  I d -> I (snd (ApiCart.handleAddToCart req uid d)).
Proof.
  apply preserves_try_catch.
  apply preserves_bind; [apply preserves_lift|]. intros [pid q].
  apply preserves_bind; [apply preserves_read; exact I_stable|].
  intros [p|]; [|apply preserves_ret].
  apply preserves_bind; [apply preserves_read; exact I_stable|]. intros found.
  apply preserves_bind.
  { destruct found; [apply preserves_ret | apply I_create]. }
  intros c. destruct (q =? 0); [apply respond_updated_preserves|].
  destruct (0 <? q) eqn:Hq.
  - apply preserves_bind; [apply I_upsert; lia|].
    intros _; apply respond_updated_preserves.
  - apply preserves_bind; [apply preserves_read; exact I_stable|].
    intros [e|]; [|apply preserves_ret].
    apply preserves_bind; [|intros _; apply respond_updated_preserves].
    destruct (0 <? CartItem.quantity e + q) eqn:Hn;
      [apply I_update; lia | apply I_delete].
Qed.

Lemma handleRemoveFromCart_preserves req uid d :
  I d -> I (snd (ApiCart.handleRemoveFromCart req uid d)).
Proof.
  apply preserves_try_catch.
  assert (Hgo : forall b, preserves I
    (match prop b "productId" with
     | JsString (String a s) =>
         cart <- prisma.cart.findUnique uid ;;
         match cart with
         | None => ret (respond 404 (JError "Cart not found"))
         | Some c =>
             prisma.cartItem.delete_key (Cart.id c) (String a s) ;;;
             ApiCart.respond_updated uid
         end
     | _ =>
         ret (respond 400
                (JInvalid "Validation failed"
                   [{| path := [];
                       message := "productId is required and must be a string" |}]))
     end)).
  { intros b. destruct (prop b "productId") as [| | | |[|a s]| |];
      try apply preserves_ret.
    apply preserves_bind; [apply preserves_read; exact I_stable|].
    intros [c|]; [|apply preserves_ret].
    apply preserves_bind; [apply I_delete_key|].
    intros _; apply respond_updated_preserves. }
  destruct (body req); try apply preserves_throw; apply Hgo.
Qed.

Lemma cart_handler_preserves req d : I d -> I (snd (ApiCart.handler req d)).
Proof.
  unfold ApiCart.handler. destruct (session req) as [uid|]; [|auto].
  destruct (method req =? "GET")%string; [apply handleGetCart_preserves|].
  destruct (method req =? "POST")%string; [apply handleAddToCart_preserves|].
  destruct (method req =? "DELETE")%string;
    [apply handleRemoveFromCart_preserves | auto].
Qed.

Lemma orders_handler_preserves req d : I d -> I (snd (ApiOrders.handler req d)).
Proof.
  unfold ApiOrders.handler. destruct (negb _); [auto|].
  destruct (session req) as [uid|]; [|auto].
  apply preserves_try_catch.
  apply preserves_bind; [apply preserves_findUnique_include; exact I_stable|].
  intros [[c [|i items]]|]; try apply preserves_ret.
  apply preserves_bind; [apply I_deleteMany | intros _; apply preserves_ret].
Qed.

Lemma serve_preserves rq d : I d -> I (snd (serve rq d)).
Proof.
  unfold serve. destruct (fst rq);
    [apply cart_handler_preserves | apply orders_handler_preserves].
Qed.

Lemma states_preserve rqs : forall d, I d -> Forall I (states rqs d).
Proof.
  induction rqs as [|rq rest IH]; intros d H; simpl.
  - constructor; [exact H | constructor].
  - constructor; [exact H | apply IH, serve_preserves, H].
Qed.
End Invariant.

(** ** Lists of lines *)
Lemma has_key_iff cid pid i :
  CartItem.has_key cid pid i = true <-> CartItem.key i = (cid, pid).
Proof.
  unfold CartItem.has_key, CartItem.key.
  rewrite andb_true_iff, !String.eqb_eq. split.
  - intros [-> ->]; reflexivity.
  - intros [= -> ->]; auto.
Qed.

Lemma key_set_quantity q i : CartItem.key (CartItem.set_quantity q i) = CartItem.key i.
Proof. reflexivity. Qed.

Lemma has_key_set_quantity cid pid q i :
  CartItem.has_key cid pid (CartItem.set_quantity q i) = CartItem.has_key cid pid i.
Proof. reflexivity. Qed.

Lemma map_key_update (f : CartItem.t -> bool) (g : CartItem.t -> Z) l :
  map CartItem.key
      (map (fun j => if f j then CartItem.set_quantity (g j) j else j) l)
  = map CartItem.key l.
Proof.
  induction l as [|j l IH]; simpl; [reflexivity|].
  rewrite IH. destruct (f j); reflexivity.
Qed.

Lemma NoDup_map_filter {A B} (k : A -> B) (f : A -> bool) l :
  NoDup (map k l) -> NoDup (map k (filter f l)).
Proof.
  induction l as [|a l IH]; simpl; intros H; [constructor|].
  inversion H as [|? ? Hn Hd]; subst.
  destruct (f a); simpl; [constructor|]; auto.
  intros Hin. apply Hn. apply in_map_iff in Hin as (x & <- & Hx).
  apply in_map, (proj1 (filter_In f x l) Hx).
Qed.

Lemma find_none_key cid pid l :
  find (CartItem.has_key cid pid) l = None ->
  ~ In (cid, pid) (map CartItem.key l).
Proof.
  intros Hf Hin. apply in_map_iff in Hin as (i & Hk & Hi).
  apply (find_none _ _ Hf) in Hi. apply has_key_iff in Hk. congruence.
Qed.

Lemma NoDup_snoc {A} (l : list A) a : NoDup l -> ~ In a l -> NoDup (l ++ [a]).
Proof.
  intros Hl Ha. apply NoDup_app; [exact Hl | repeat constructor; intros [] | ].
  intros x Hx [<-|[]]; contradiction.
Qed.

Lemma mem_In x l : mem x l = true <-> In x l.
Proof.
  unfold mem. rewrite existsb_exists. split.
  - intros (y & Hy & He). apply String.eqb_eq in He. subst; exact Hy.
  - intros H; exists x; split; [exact H | apply String.eqb_refl].
Qed.

(** ** Uniqueness of lines is kept by every write *)
Lemma unique_lines_stable : stable unique_lines.
Proof. intros d H; exact H. Qed.

Lemma unique_lines_create uid : preserves unique_lines (prisma.cart.create uid).
Proof.
  inside_query unique_lines_stable.
  destruct (_ || _); [exact H|]. destruct (mem _ _); exact H.
Qed.

Lemma unique_lines_upsert cid pid inc q :
  preserves unique_lines (prisma.cartItem.upsert cid pid inc q).
Proof.
  inside_query unique_lines_stable. unfold unique_lines in *; simpl.
  destruct (negb (int32 inc && int32 q)); simpl; [exact H|].
  destruct (prisma.find_item cid pid d) as [i|] eqn:Hf; simpl.
  - destruct (negb (int32 _)); simpl; [exact H|].
    rewrite map_key_update; exact H.
  - destruct (mem _ _); simpl; [exact H|].
    destruct (_ && _); simpl; [|exact H].
    rewrite map_app; simpl. apply NoDup_snoc; [exact H|].
    apply find_none_key, Hf.
Qed.

Lemma unique_lines_update iid q :
  preserves unique_lines (prisma.cartItem.update iid q).
Proof.
  inside_query unique_lines_stable. unfold unique_lines in *; simpl.
  destruct (negb (int32 q)); simpl; [exact H|].
  destruct (mem _ _); simpl; [|exact H].
  rewrite (map_key_update (fun j => (CartItem.id j =? iid)%string) (fun _ => q)).
  exact H.
Qed.

Lemma unique_lines_delete iid : preserves unique_lines (prisma.cartItem.delete iid).
Proof.
  inside_query unique_lines_stable. unfold unique_lines in *; simpl.
  destruct (mem _ _); simpl; [apply NoDup_map_filter|]; exact H.
Qed.

Lemma unique_lines_delete_key cid pid :
  preserves unique_lines (prisma.cartItem.delete_key cid pid).
Proof.
  inside_query unique_lines_stable. unfold unique_lines in *; simpl.
  destruct (prisma.find_item cid pid d); simpl; [apply NoDup_map_filter|]; exact H.
Qed.

Lemma unique_lines_deleteMany cid :
  preserves unique_lines (prisma.cartItem.deleteMany cid).
Proof.
  inside_query unique_lines_stable. unfold unique_lines in *; simpl.
  apply NoDup_map_filter; exact H.
Qed.

(** ** Positive quantities are kept by every write of a positive quantity *)
Lemma positive_quantities_stable : stable positive_quantities.
Proof. intros d H; exact H. Qed.

Lemma positive_quantities_create uid :
  preserves positive_quantities (prisma.cart.create uid).
Proof.
  inside_query positive_quantities_stable.
  destruct (_ || _); [exact H|]. destruct (mem _ _); exact H.
Qed.

Lemma positive_quantities_upsert cid pid q :
  0 < q -> preserves positive_quantities (prisma.cartItem.upsert cid pid q q).
Proof.
  intros Hq. inside_query positive_quantities_stable. unfold positive_quantities in *; simpl.
  destruct (negb (int32 q && int32 q)); simpl; [exact H|].
  destruct (prisma.find_item cid pid d) as [i|]; simpl.
  - destruct (negb (int32 _)); simpl; [exact H|].
    apply Forall_map. revert H. apply Forall_impl. intros j Hj.
    destruct (CartItem.has_key cid pid j); simpl; lia.
  - destruct (mem _ _); simpl; [exact H|].
    destruct (_ && _); simpl; [|exact H].
    apply Forall_app; split; [exact H|]. repeat constructor; simpl; lia.
Qed.

Lemma positive_quantities_update iid q :
  0 < q -> preserves positive_quantities (prisma.cartItem.update iid q).
Proof.
  intros Hq. inside_query positive_quantities_stable. unfold positive_quantities in *; simpl.
  destruct (negb (int32 q)); simpl; [exact H|].
  destruct (mem _ _); simpl; [|exact H].
  apply Forall_map. revert H. apply Forall_impl. intros j Hj.
  destruct (CartItem.id j =? iid)%string; simpl; lia.
Qed.

Lemma Forall_filter {A} (P : A -> Prop) f l : Forall P l -> Forall P (filter f l).
Proof.
  rewrite !Forall_forall. intros H x Hx. apply H, (proj1 (filter_In f x l) Hx).
Qed.

Lemma positive_quantities_delete iid :
  preserves positive_quantities (prisma.cartItem.delete iid).
Proof.
  inside_query positive_quantities_stable. unfold positive_quantities in *; simpl.
  destruct (mem _ _); simpl; [apply Forall_filter|]; exact H.
Qed.

Lemma positive_quantities_delete_key cid pid :
  preserves positive_quantities (prisma.cartItem.delete_key cid pid).
Proof.
  inside_query positive_quantities_stable. unfold positive_quantities in *; simpl.
  destruct (prisma.find_item cid pid d); simpl; [apply Forall_filter|]; exact H.
Qed.

Lemma positive_quantities_deleteMany cid :
  preserves positive_quantities (prisma.cartItem.deleteMany cid).
Proof.
  inside_query positive_quantities_stable. unfold positive_quantities in *; simpl.
  apply Forall_filter; exact H.
Qed.

(** C3: from a database with at most one line per (cart id, product id),
    every sequence of requests to the two routes (get, add/adjust, remove,
    checkout, and any other request) leaves at most one line per pair after
    each request. *)
Theorem unique_lines_invariant (rqs : list (Route * Request)) (d : Db) :
  unique_lines d -> Forall unique_lines (states rqs d).
Proof.
  apply states_preserve.
  - apply unique_lines_stable.
  - apply unique_lines_create.
  - intros cid pid q _; apply unique_lines_upsert.
  - intros iid q _; apply unique_lines_update.
  - apply unique_lines_delete.
  - apply unique_lines_delete_key.
  - apply unique_lines_deleteMany.
Qed.

(** ** What each query does when the database is reachable *)
Lemma healthy_with_carts cs n d : healthy d -> healthy (prisma.with_carts cs n d).
Proof. intros H; exact H. Qed.

Lemma healthy_with_items l n d : healthy d -> healthy (prisma.with_items l n d).
Proof. intros H; exact H. Qed.

Lemma product_findUnique_run pid d :
  healthy d ->
  prisma.product.findUnique pid d = (Value (prisma.find_product pid d), d).
Proof. intros H; unfold prisma.product.findUnique; rewrite query_healthy; auto. Qed.

Lemma cart_findUnique_run uid d :
  healthy d -> prisma.cart.findUnique uid d = (Value (prisma.find_cart uid d), d).
Proof. intros H; unfold prisma.cart.findUnique; rewrite query_healthy; auto. Qed.

Lemma cartItem_findUnique_run cid pid d :
  healthy d ->
  prisma.cartItem.findUnique cid pid d = (Value (prisma.find_item cid pid d), d).
Proof. intros H; unfold prisma.cartItem.findUnique; rewrite query_healthy; auto. Qed.

Lemma find_cart_none_userId uid d :
  prisma.find_cart uid d = None -> ~ In uid (map Cart.userId (carts d)).
Proof.
  intros Hf Hin. apply in_map_iff in Hin as (c & Hc & Hi).
  apply (find_none _ _ Hf) in Hi. simpl in Hi.
  rewrite Hc, String.eqb_refl in Hi. discriminate.
Qed.

Lemma not_mem x l : ~ In x l -> mem x l = false.
Proof.
  intros H. destruct (mem x l) eqn:E; [|reflexivity].
  apply mem_In in E. contradiction.
Qed.

Lemma cart_create_run uid d :
  healthy d -> fresh d -> prisma.find_cart uid d = None ->
  In uid (map User.id (users d)) ->
  let c := {| Cart.id := cuid (issued d); Cart.userId := uid |} in
  prisma.cart.create uid d
  = (Value c, prisma.with_carts (carts d ++ [c]) (S (issued d)) d).
Proof.
  intros H Hfr Hf Hu c. unfold prisma.cart.create. rewrite query_healthy by exact H.
  simpl. rewrite (not_mem _ _ (proj1 (Hfr _ (le_n _)))).
  rewrite (not_mem _ _ (find_cart_none_userId _ _ Hf)).
  rewrite (proj2 (mem_In _ _) Hu). reflexivity.
Qed.

(** Without a row for the user the foreign key refuses the cart. *)
Lemma cart_create_no_user uid d :
  healthy d -> fresh d -> prisma.find_cart uid d = None ->
  ~ In uid (map User.id (users d)) ->
  prisma.cart.create uid d = (Throw (PrismaError "P2003"), d).
Proof.
  intros H Hfr Hf Hu. unfold prisma.cart.create. rewrite query_healthy by exact H.
  simpl. rewrite (not_mem _ _ (proj1 (Hfr _ (le_n _)))).
  rewrite (not_mem _ _ (find_cart_none_userId _ _ Hf)).
  rewrite (not_mem _ _ Hu). reflexivity.
Qed.

Lemma upsert_run_update cid pid inc q d i :
  healthy d -> prisma.find_item cid pid d = Some i ->
  int32 inc = true -> int32 q = true ->
  int32 (CartItem.quantity i + inc) = true ->
  prisma.cartItem.upsert cid pid inc q d
  = (Value (CartItem.set_quantity (CartItem.quantity i + inc) i),
     prisma.with_items
       (map (fun j => if CartItem.has_key cid pid j
                      then CartItem.set_quantity (CartItem.quantity j + inc) j
                      else j) (cartItems d)) (issued d) d).
Proof.
  intros H Hf Hi Hq Hs. unfold prisma.cartItem.upsert.
  rewrite query_healthy by exact H.
  rewrite Hf, Hi, Hq, Hs. reflexivity.
Qed.

(** An increment, or a quantity to create, outside the column's range. *)
Lemma upsert_run_range cid pid inc q d :
  healthy d -> int32 inc && int32 q = false ->
  prisma.cartItem.upsert cid pid inc q d = (Throw (PrismaError "P2020"), d).
Proof.
  intros H Hr. unfold prisma.cartItem.upsert. rewrite query_healthy by exact H.
  rewrite Hr. reflexivity.
Qed.

(** A sum outside the column's range. *)
Lemma upsert_run_overflow cid pid inc q d i :
  healthy d -> prisma.find_item cid pid d = Some i ->
  int32 (CartItem.quantity i + inc) = false ->
  prisma.cartItem.upsert cid pid inc q d = (Throw (PrismaError "P2020"), d).
Proof.
  intros H Hf Hs. unfold prisma.cartItem.upsert. rewrite query_healthy by exact H.
  rewrite Hf, Hs. destruct (negb _); reflexivity.
Qed.

Lemma upsert_run_create cid pid inc q d :
  healthy d -> fresh d -> prisma.find_item cid pid d = None ->
  In cid (map Cart.id (carts d)) -> In pid (map Product.id (products d)) ->
  int32 inc = true -> int32 q = true ->
  let i := {| CartItem.id := cuid (issued d); CartItem.quantity := q;
              CartItem.productId := pid; CartItem.cartId := cid |} in
  prisma.cartItem.upsert cid pid inc q d
  = (Value i, prisma.with_items (cartItems d ++ [i]) (S (issued d)) d).
Proof.
  intros H Hfr Hf Hc Hp Hi Hq i. unfold prisma.cartItem.upsert.
  rewrite query_healthy by exact H. rewrite Hf, Hi, Hq. simpl.
  rewrite (not_mem _ _ (proj2 (Hfr _ (le_n _)))).
  rewrite (proj2 (mem_In _ _) Hc), (proj2 (mem_In _ _) Hp). reflexivity.
Qed.

Lemma update_run iid q d :
  healthy d -> In iid (map CartItem.id (cartItems d)) -> int32 q = true ->
  prisma.cartItem.update iid q d
  = (Value tt,
     prisma.with_items
       (map (fun j => if (CartItem.id j =? iid)%string
                      then CartItem.set_quantity q j else j) (cartItems d))
       (issued d) d).
Proof.
  intros H Hin Hq. unfold prisma.cartItem.update. rewrite query_healthy by exact H.
  rewrite Hq, (proj2 (mem_In _ _) Hin). reflexivity.
Qed.

Lemma update_run_range iid q d :
  healthy d -> int32 q = false ->
  prisma.cartItem.update iid q d = (Throw (PrismaError "P2020"), d).
Proof.
  intros H Hq. unfold prisma.cartItem.update. rewrite query_healthy by exact H.
  rewrite Hq. reflexivity.
Qed.

Lemma delete_run iid d :
  healthy d -> In iid (map CartItem.id (cartItems d)) ->
  prisma.cartItem.delete iid d
  = (Value tt,
     prisma.with_items
       (filter (fun j => negb (CartItem.id j =? iid)%string) (cartItems d))
       (issued d) d).
Proof.
  intros H Hin. unfold prisma.cartItem.delete. rewrite query_healthy by exact H.
  rewrite (proj2 (mem_In _ _) Hin). reflexivity.
Qed.

Lemma delete_key_run cid pid d i :
  healthy d -> prisma.find_item cid pid d = Some i ->
  prisma.cartItem.delete_key cid pid d
  = (Value tt,
     prisma.with_items
       (filter (fun j => negb (CartItem.has_key cid pid j)) (cartItems d))
       (issued d) d).
Proof.
  intros H Hf. unfold prisma.cartItem.delete_key. rewrite query_healthy by exact H.
  rewrite Hf. reflexivity.
Qed.

Lemma delete_key_missing cid pid d :
  healthy d -> prisma.find_item cid pid d = None ->
  prisma.cartItem.delete_key cid pid d = (Throw (PrismaError "P2025"), d).
Proof.
  intros H Hf. unfold prisma.cartItem.delete_key. rewrite query_healthy by exact H.
  rewrite Hf. reflexivity.
Qed.

Lemma deleteMany_run cid d :
  healthy d ->
  prisma.cartItem.deleteMany cid d
  = (Value tt,
     prisma.with_items
       (filter (fun j => negb (CartItem.cartId j =? cid)%string) (cartItems d))
       (issued d) d).
Proof.
  intros H. unfold prisma.cartItem.deleteMany. rewrite query_healthy by exact H.
  reflexivity.
Qed.

Lemma findUnique_include_run uid d c rows :
  healthy d -> prisma.find_cart uid d = Some c ->
  prisma.include_product d (prisma.items_of (Cart.id c) d) = Some rows ->
  prisma.cart.findUnique_include uid d = (Value (Some (c, rows)), d).
Proof.
  intros H Hc Hr. unfold prisma.cart.findUnique_include.
  rewrite query_healthy by exact H. rewrite Hc, Hr. reflexivity.
Qed.

Lemma findUnique_include_none uid d :
  healthy d -> prisma.find_cart uid d = None ->
  prisma.cart.findUnique_include uid d = (Value None, d).
Proof.
  intros H Hc. unfold prisma.cart.findUnique_include.
  rewrite query_healthy by exact H. rewrite Hc. reflexivity.
Qed.

(** ** The join of lines with their products *)
Lemma find_product_In pid d :
  In pid (map Product.id (products d)) ->
  exists p, prisma.find_product pid d = Some p.
Proof.
  intros Hin. unfold prisma.find_product.
  destruct (find _ (products d)) as [p|] eqn:Hf; [exists p; reflexivity|].
  apply in_map_iff in Hin as (p & Hp & Hi).
  apply (find_none _ _ Hf) in Hi. simpl in Hi.
  rewrite Hp, String.eqb_refl in Hi. discriminate.
Qed.

Lemma find_product_Some pid d p :
  prisma.find_product pid d = Some p -> In pid (map Product.id (products d)).
Proof.
  intros Hf. apply find_some in Hf as [Hi He]. apply String.eqb_eq in He.
  subst pid. apply in_map, Hi.
Qed.

Lemma include_product_total d rows :
  Forall (fun i => In (CartItem.productId i) (map Product.id (products d))) rows ->
  exists ps, prisma.include_product d rows = Some ps /\ map fst ps = rows.
Proof.
  induction 1 as [|i rows Hi _ IH]; simpl.
  - exists []; auto.
  - destruct (find_product_In _ _ Hi) as [p ->]. destruct IH as (ps & -> & Hm).
    exists ((i, p) :: ps); simpl; rewrite Hm; auto.
Qed.

Lemma item_fks_include d cid :
  item_fks d ->
  exists ps, prisma.include_product d (prisma.items_of cid d) = Some ps
             /\ map fst ps = prisma.items_of cid d.
Proof.
  intros H. apply include_product_total. apply Forall_filter.
  revert H. apply Forall_impl. intros i [_ Hp]; exact Hp.
Qed.

Lemma respond_updated_run uid d c :
  healthy d -> item_fks d -> prisma.find_cart uid d = Some c ->
  exists rows,
    map fst rows = prisma.items_of (Cart.id c) d
    /\ ApiCart.respond_updated uid d
       = (Value (respond 200 (JCart c rows (cart_total rows))), d).
Proof.
  intros H Hfk Hc. destruct (item_fks_include (Cart.id c) Hfk) as (rows & Hr & Hm).
  exists rows; split; [exact Hm|]. unfold ApiCart.respond_updated.
  rewrite (bind_value _ _ _ (findUnique_include_run _ H Hc Hr)). reflexivity.
Qed.

(** ** Ids *)
Lemma cuid_inj n m : cuid n = cuid m -> n = m.
Proof.
  unfold cuid. intros [= E].
  apply (f_equal NilEmpty.uint_of_string) in E.
  rewrite !NilEmpty.usu in E. injection E as E.
  apply (f_equal Nat.of_uint) in E. rewrite !Unsigned.of_to in E. exact E.
Qed.

Lemma fresh_with_carts d uid :
  fresh d ->
  fresh (prisma.with_carts
           (carts d ++ [{| Cart.id := cuid (issued d); Cart.userId := uid |}])
           (S (issued d)) d).
Proof.
  intros Hfr n Hn. simpl in *. destruct (Hfr n ltac:(lia)) as [Hc Hi].
  split; [|exact Hi]. rewrite map_app, in_app_iff. simpl.
  intros [Hin|[He|[]]]; [contradiction|]. apply cuid_inj in He. lia.
Qed.

Lemma fresh_with_items_snoc d i :
  fresh d -> CartItem.id i = cuid (issued d) ->
  fresh (prisma.with_items (cartItems d ++ [i]) (S (issued d)) d).
Proof.
  intros Hfr Hid n Hn. simpl in *. destruct (Hfr n ltac:(lia)) as [Hc Hi].
  split; [exact Hc|]. rewrite map_app, in_app_iff. simpl.
  intros [Hin|[He|[]]]; [contradiction|]. rewrite Hid in He.
  apply cuid_inj in He. lia.
Qed.

(** ** Foreign keys under the writes *)
Lemma item_fks_with_carts_snoc d c n :
  item_fks d -> item_fks (prisma.with_carts (carts d ++ [c]) n d).
Proof.
  unfold item_fks; simpl. apply Forall_impl. intros i [Hc Hp].
  split; [|exact Hp]. rewrite map_app, in_app_iff; auto.
Qed.

Lemma item_fks_with_items_update d (f : CartItem.t -> bool) (g : CartItem.t -> Z) n :
  item_fks d ->
  item_fks (prisma.with_items
              (map (fun j => if f j then CartItem.set_quantity (g j) j else j)
                   (cartItems d)) n d).
Proof.
  unfold item_fks; simpl. intros H. apply Forall_map. revert H.
  apply Forall_impl. intros i Hi. destruct (f i); exact Hi.
Qed.

Lemma item_fks_with_items_snoc d i n :
  item_fks d ->
  In (CartItem.cartId i) (map Cart.id (carts d)) ->
  In (CartItem.productId i) (map Product.id (products d)) ->
  item_fks (prisma.with_items (cartItems d ++ [i]) n d).
Proof.
  unfold item_fks; simpl. intros H Hc Hp. apply Forall_app; split; [exact H|].
  repeat constructor; assumption.
Qed.

Lemma item_fks_with_items_filter d f n :
  item_fks d -> item_fks (prisma.with_items (filter f (cartItems d)) n d).
Proof. unfold item_fks; simpl. apply Forall_filter. Qed.

(** ** The lines of one (cart, product) pair *)
Lemma filter_find_none {A} (f : A -> bool) l : find f l = None -> filter f l = [].
Proof.
  induction l as [|a l IH]; simpl; [reflexivity|].
  destruct (f a); [discriminate | exact IH].
Qed.

Lemma lines_of_unique cid pid l i :
  NoDup (map CartItem.key l) ->
  find (CartItem.has_key cid pid) l = Some i ->
  filter (CartItem.has_key cid pid) l = [i].
Proof.
  induction l as [|a l IH]; simpl; [discriminate|]. intros Hn Hf.
  inversion Hn as [|? ? Ha Hl]; subst.
  destruct (CartItem.has_key cid pid a) eqn:Hk.
  - injection Hf as <-. f_equal.
    destruct (filter (CartItem.has_key cid pid) l) as [|x xs] eqn:Hfl; [reflexivity|].
    exfalso. apply Ha.
    assert (Hx : In x (filter (CartItem.has_key cid pid) l)) by (rewrite Hfl; left; reflexivity).
    apply filter_In in Hx as [Hx Hkx].
    apply has_key_iff in Hk, Hkx. rewrite Hk, <- Hkx. apply in_map, Hx.
  - apply IH; assumption.
Qed.

Lemma filter_map_comm {A} (f : A -> bool) (g : A -> A) l :
  (forall x, f (g x) = f x) -> filter f (map g l) = map g (filter f l).
Proof.
  intros H. induction l as [|a l IH]; simpl; [reflexivity|].
  rewrite H. destruct (f a); simpl; rewrite IH; reflexivity.
Qed.

Lemma filter_comm {A} (f g : A -> bool) l :
  filter f (filter g l) = filter g (filter f l).
Proof.
  induction l as [|a l IH]; simpl; [reflexivity|].
  destruct (f a) eqn:Hf; destruct (g a) eqn:Hg; simpl;
    rewrite ?Hf, ?Hg, IH; reflexivity.
Qed.

Lemma find_item_id cid pid d i :
  prisma.find_item cid pid d = Some i ->
  In (CartItem.id i) (map CartItem.id (cartItems d))
  /\ CartItem.has_key cid pid i = true.
Proof.
  intros Hf. apply find_some in Hf as [Hi Hk]. split; [apply in_map, Hi | exact Hk].
Qed.

Lemma find_cart_id uid d c :
  prisma.find_cart uid d = Some c -> In (Cart.id c) (map Cart.id (carts d)).
Proof. intros Hf. apply find_some in Hf as [Hi _]. apply in_map, Hi. Qed.

Lemma items_of_fresh d :
  fresh d -> item_fks d -> prisma.items_of (cuid (issued d)) d = [].
Proof.
  intros Hfr Hfk. unfold prisma.items_of.
  destruct (filter _ (cartItems d)) as [|x xs] eqn:Hfl; [reflexivity|]. exfalso.
  assert (Hx : In x (filter (fun i => (CartItem.cartId i =? cuid (issued d))%string)
                            (cartItems d))) by (rewrite Hfl; left; reflexivity).
  apply filter_In in Hx as [Hx He]. apply String.eqb_eq in He.
  unfold item_fks in Hfk. rewrite Forall_forall in Hfk.
  destruct (Hfk x Hx) as [Hc _]. rewrite He in Hc.
  exact (proj1 (Hfr _ (le_n _)) Hc).
Qed.

Lemma find_item_items_of cid pid d :
  prisma.items_of cid d = [] -> prisma.find_item cid pid d = None.
Proof.
  intros He. unfold prisma.find_item.
  destruct (find _ (cartItems d)) as [i|] eqn:Hf; [|reflexivity]. exfalso.
  apply find_some in Hf as [Hi Hk]. unfold CartItem.has_key in Hk.
  apply andb_true_iff in Hk as [Hk _].
  assert (Hx : In i (prisma.items_of cid d)) by (apply filter_In; auto).
  rewrite He in Hx. exact Hx.
Qed.

(** ** Add or increase, once the cart is resolved *)
Lemma add_positive_resolved uid d c pid q :
  healthy d -> fresh d -> unique_lines d -> item_fks d ->
  prisma.find_cart uid d = Some c ->
  In pid (map Product.id (products d)) -> 0 < q ->
  int32 q = true -> int32 (stored_quantity (Cart.id c) pid d + q) = true ->
  exists rows d' line,
    (prisma.cartItem.upsert (Cart.id c) pid q q ;;; ApiCart.respond_updated uid) d
    = (Value (respond 200 (JCart c rows (cart_total rows))), d')
    /\ carts d' = carts d
    /\ map fst rows = prisma.items_of (Cart.id c) d'
    /\ lines_of (Cart.id c) pid d' = [line]
    /\ CartItem.quantity line
       = match prisma.find_item (Cart.id c) pid d with
         | Some i => CartItem.quantity i + q
         | None => q
         end.
Proof.
  intros H Hfr Hu Hfk Hc Hp Hq Hr1 Hr2.
  pose proof (find_cart_id _ _ Hc) as Hcid.
  unfold stored_quantity in Hr2.
  destruct (prisma.find_item (Cart.id c) pid d) as [i|] eqn:Hf.
  - set (d' := prisma.with_items
       (map (fun j => if CartItem.has_key (Cart.id c) pid j
                      then CartItem.set_quantity (CartItem.quantity j + q) j
                      else j) (cartItems d)) (issued d) d).
    destruct (@respond_updated_run uid d' c) as (rows & Hm & Hr);
      [exact H | apply item_fks_with_items_update, Hfk | exact Hc |].
    exists rows, d', (CartItem.set_quantity (CartItem.quantity i + q) i).
    split; [|split; [reflexivity|split; [exact Hm|split; [|reflexivity]]]].
    + rewrite (bind_value _ _ _ (upsert_run_update _ _ q q H Hf Hr1 Hr1 Hr2)).
      exact Hr.
    + unfold lines_of, d'; simpl.
      rewrite filter_map_comm
        by (intros x; destruct (CartItem.has_key (Cart.id c) pid x) eqn:E;
            [rewrite has_key_set_quantity|]; exact E).
      rewrite (lines_of_unique _ _ _ Hu Hf). simpl.
      rewrite (proj2 (find_item_id _ _ _ Hf)). reflexivity.
  - set (line := {| CartItem.id := cuid (issued d); CartItem.quantity := q;
                    CartItem.productId := pid; CartItem.cartId := Cart.id c |}).
    set (d' := prisma.with_items (cartItems d ++ [line]) (S (issued d)) d).
    destruct (@respond_updated_run uid d' c) as (rows & Hm & Hr);
      [exact H | apply item_fks_with_items_snoc; assumption | exact Hc |].
    exists rows, d', line.
    split; [|split; [reflexivity|split; [exact Hm|split; [|reflexivity]]]].
    + rewrite (bind_value _ _ _ (upsert_run_create _ _ q q H Hfr Hf Hcid Hp Hr1 Hr1)).
      exact Hr.
    + unfold lines_of, d'; simpl. rewrite filter_app.
      rewrite (filter_find_none _ _ Hf). simpl.
      unfold CartItem.has_key; simpl. rewrite !String.eqb_refl. reflexivity.
Qed.

(** ** The cart row, found or created *)
Lemma find_snoc {A} (f : A -> bool) l a :
  find f l = None -> find f (l ++ [a]) = if f a then Some a else None.
Proof.
  induction l as [|b l IH]; simpl; [reflexivity|].
  destruct (f b); [discriminate | exact IH].
Qed.

Lemma created_cart_state d uid :
  healthy d -> fresh d -> unique_lines d -> item_fks d ->
  prisma.find_cart uid d = None ->
  let c := {| Cart.id := cuid (issued d); Cart.userId := uid |} in
  let d1 := prisma.with_carts (carts d ++ [c]) (S (issued d)) d in
  healthy d1 /\ fresh d1 /\ unique_lines d1 /\ item_fks d1
  /\ prisma.find_cart uid d1 = Some c
  /\ prisma.items_of (Cart.id c) d1 = [].
Proof.
  intros H Hfr Hu Hfk Hc c d1.
  split; [exact H|]. split; [apply fresh_with_carts, Hfr|].
  split; [exact Hu|]. split; [apply item_fks_with_carts_snoc, Hfk|]. split.
  - unfold prisma.find_cart, d1; simpl. rewrite (find_snoc _ _ _ Hc). simpl.
    rewrite String.eqb_refl. reflexivity.
  - apply (items_of_fresh Hfr Hfk).
Qed.

(** The claim of C1 fails for the deltas the quantity column cannot hold (it
    has 32 bits).  A delta of 2^31 passes the schema; for a user without a
    cart the POST that carries it is answered 500 and no line is created
    (the new cart row stays); for a user whose cart holds 3 of the product
    it is answered 500 and nothing is written; and so is a delta of
    2^31 - 1, which the column holds but whose sum with the 3 it does not:
    the line keeps its 3. *)
Theorem applyDelta_beyond_int32_counterexample :
  cartItemSchema_parse (json_body "cproduct0001" (2 ^ 31))
  = Value ("cproduct0001", 2 ^ 31)
  /\ ApiCart.handleAddToCart
       (request "POST" (json_body "cproduct0001" (2 ^ 31))) "u1" db_empty
     = (respond 500 (JError "Failed to add to cart"),
        prisma.with_carts [{| Cart.id := "c0"; Cart.userId := "u1" |}] 1 db_empty)
  /\ ApiCart.handleAddToCart
       (request "POST" (json_body "cproduct0001" (2 ^ 31))) "u1" db_three
     = (respond 500 (JError "Failed to add to cart"), db_three)
  /\ ApiCart.handleAddToCart
       (request "POST" (json_body "cproduct0001" (2 ^ 31 - 1))) "u1" db_three
     = (respond 500 (JError "Failed to add to cart"), db_three).
Proof. repeat split; vm_compute; reflexivity. Qed.

(** C1, amended: on a database that satisfies the store constraints, for a
    user who has a cart or a row in the user table, a POST with a valid
    body, an existing product and a positive delta that fits the quantity
    column, as does the quantity held plus the delta, answers 200 with the
    re-read cart; afterwards the user's cart (the one found, or the one
    created when there was none) holds exactly one line for the product,
    whose quantity is the delta when the cart had no line for it and the
    former quantity plus the delta when it had one. *)
Theorem applyDelta_positive (req : Request) (userId : string) (d : Db)
        (pid : string) (q : Z) (p : Product.t) :
  healthy d -> fresh d -> unique_lines d -> item_fks d ->
  known_user userId d ->
  cartItemSchema_parse (body req) = Value (pid, q) ->
  0 < q ->
  int32 q = true -> int32 (held userId pid d + q) = true ->
  prisma.find_product pid d = Some p ->
  exists c rows d' line,
    ApiCart.handleAddToCart req userId d
    = (respond 200 (JCart c rows (cart_total rows)), d')
    /\ prisma.find_cart userId d' = Some c
    /\ (forall c0, prisma.find_cart userId d = Some c0 -> c = c0)
    /\ map fst rows = prisma.items_of (Cart.id c) d'
    /\ lines_of (Cart.id c) pid d' = [line]
    /\ CartItem.quantity line
       = match prisma.find_item (Cart.id c) pid d with
         | Some i => CartItem.quantity i + q
         | None => q
         end.
Proof.
  intros H Hfr Hu Hfk Hknown Hparse Hq Hr1 Hr2 Hprod.
  pose proof (find_product_Some _ _ Hprod) as Hp.
  assert (Hz : (q =? 0) = false) by lia.
  assert (Hpos : (0 <? q) = true) by lia.
  unfold ApiCart.handleAddToCart, try_catch.
  rewrite (bind_value _ _ d (a := (pid, q)) (d' := d))
    by (unfold lift; rewrite Hparse; reflexivity).
  cbv beta iota.
  rewrite (bind_value _ _ _ (product_findUnique_run pid H)), Hprod.
  rewrite (bind_value _ _ _ (cart_findUnique_run userId H)).
  unfold held in Hr2.
  destruct (prisma.find_cart userId d) as [c0|] eqn:Hc.
  - rewrite (bind_value (ret c0) _ d (a := c0) (d' := d) eq_refl).
    rewrite Hz, Hpos.
    edestruct (add_positive_resolved userId) with (d := d) (pid := pid)
      as (rows & d' & line & Hrun & Hcarts & Hm & Hl & Hqty); eauto.
    exists c0, rows, d', line. rewrite Hrun.
    split; [reflexivity|]. split.
    { unfold prisma.find_cart in *. rewrite Hcarts. exact Hc. }
    split; [intros c1 [= <-]; reflexivity|]. auto.
  - destruct Hknown as [Hk|Hk]; [congruence|].
    destruct (created_cart_state userId H Hfr Hu Hfk Hc)
      as (H1 & Hfr1 & Hu1 & Hfk1 & Hc1 & Hnone).
    rewrite (bind_value _ _ _ (cart_create_run userId H Hfr Hc Hk)).
    rewrite Hz, Hpos.
    edestruct (add_positive_resolved userId) with (pid := pid)
      as (rows & d' & line & Hrun & Hcarts & Hm & Hl & Hqty);
      [exact H1 | exact Hfr1 | exact Hu1 | exact Hfk1 | exact Hc1 | exact Hp
       | exact Hq | exact Hr1
       | unfold stored_quantity; rewrite (find_item_items_of _ pid _ Hnone);
         exact Hr2 |].
    rewrite (find_item_items_of _ pid _ Hnone) in Hqty.
    eexists _, rows, d', line. rewrite Hrun.
    split; [reflexivity|]. split.
    { unfold prisma.find_cart in *. rewrite Hcarts. exact Hc1. }
    split; [intros c1 [=]|]. split; [exact Hm|]. split; [exact Hl|].
    rewrite Hqty.
    assert (Hn : prisma.find_item (cuid (issued d)) pid d = None)
      by (apply find_item_items_of, (items_of_fresh Hfr Hfk)).
    simpl. rewrite Hn. reflexivity.
Qed.

(** ** Decrease, once the cart is resolved *)
Lemma add_negative_resolved uid d c pid q :
  healthy d -> unique_lines d -> item_fks d ->
  prisma.find_cart uid d = Some c ->
  (forall i, prisma.find_item (Cart.id c) pid d = Some i ->
     0 < CartItem.quantity i + q -> int32 (CartItem.quantity i + q) = true) ->
  exists r d',
    (existing <- prisma.cartItem.findUnique (Cart.id c) pid ;;
     match existing with
     | None => ret (respond 400 (JError "Cart item not found"))
     | Some e =>
         (if 0 <? CartItem.quantity e + q
          then prisma.cartItem.update (CartItem.id e) (CartItem.quantity e + q)
          else prisma.cartItem.delete (CartItem.id e)) ;;;
         ApiCart.respond_updated uid
     end) d = (Value r, d')
    /\ carts d' = carts d
    /\ match prisma.find_item (Cart.id c) pid d with
       | None =>
           r = respond 400 (JError "Cart item not found") /\ d' = d
       | Some i =>
           (exists rows,
              r = respond 200 (JCart c rows (cart_total rows))
              /\ map fst rows = prisma.items_of (Cart.id c) d')
           /\ lines_of (Cart.id c) pid d'
              = if 0 <? CartItem.quantity i + q
                then [CartItem.set_quantity (CartItem.quantity i + q) i]
                else []
       end.
Proof.
  intros H Hu Hfk Hc Hrange.
  rewrite (bind_value _ _ _ (cartItem_findUnique_run (Cart.id c) pid H)).
  destruct (prisma.find_item (Cart.id c) pid d) as [i|] eqn:Hf.
  2:{ eexists _, d. split; [reflexivity|]. auto. }
  destruct (find_item_id _ _ _ Hf) as [Hid Hk].
  destruct (0 <? CartItem.quantity i + q) eqn:Hn.
  - set (d' := prisma.with_items
       (map (fun j => if (CartItem.id j =? CartItem.id i)%string
                      then CartItem.set_quantity (CartItem.quantity i + q) j
                      else j) (cartItems d)) (issued d) d).
    edestruct (respond_updated_run uid) with (d := d') (c := c)
      as (rows & Hm & Hr);
      [exact H
      | apply (item_fks_with_items_update
                 (fun j => (CartItem.id j =? CartItem.id i)%string)
                 (fun _ => CartItem.quantity i + q)), Hfk
      | exact Hc |].
    eexists _, d'. split.
    { rewrite (bind_value _ _ _
                 (update_run _ (CartItem.quantity i + q) H Hid
                             (Hrange i eq_refl ltac:(lia)))).
      exact Hr. }
    split; [reflexivity|]. split; [exists rows; auto|].
    unfold lines_of, d'; simpl.
    rewrite filter_map_comm
      by (intros x; destruct (CartItem.id x =? CartItem.id i)%string; reflexivity).
    rewrite (lines_of_unique _ _ _ Hu Hf). simpl.
    rewrite String.eqb_refl. reflexivity.
  - set (d' := prisma.with_items
       (filter (fun j => negb (CartItem.id j =? CartItem.id i)%string)
               (cartItems d)) (issued d) d).
    edestruct (respond_updated_run uid) with (d := d') (c := c)
      as (rows & Hm & Hr);
      [exact H | apply item_fks_with_items_filter, Hfk | exact Hc |].
    eexists _, d'. split.
    { rewrite (bind_value _ _ _ (delete_run _ H Hid)). exact Hr. }
    split; [reflexivity|]. split; [exists rows; auto|].
    unfold lines_of, d'; simpl. rewrite filter_comm.
    rewrite (lines_of_unique _ _ _ Hu Hf). simpl.
    rewrite String.eqb_refl. reflexivity.
Qed.

(** A decrease that leaves a positive quantity stays within the column's
    range. *)
Lemma decrease_in_range d cid pid q :
  quantities_in_range d -> q < 0 ->
  forall i, prisma.find_item cid pid d = Some i ->
    0 < CartItem.quantity i + q -> int32 (CartItem.quantity i + q) = true.
Proof.
  intros Hr Hq i Hf Hpos. unfold quantities_in_range in Hr.
  rewrite Forall_forall in Hr. apply find_some in Hf as [Hin _].
  specialize (Hr i Hin). unfold int32 in *.
  apply andb_true_iff in Hr as [_ Hhi]. apply andb_true_iff; split; lia.
Qed.

(** C2: on a database that satisfies the store constraints, for a user who
    has a cart or a row in the user table, a POST with a valid body, an
    existing product and a negative delta answers 400 "Cart item not found"
    when the user's cart has no line for the product and then leaves every
    line as it was; when the cart has a line, it answers 200, and afterwards
    the cart holds for the product that one line, with the same id and with
    the former quantity plus the delta, if that sum is positive, and no line
    otherwise.  Either way no line of the pair is left with a non-positive
    quantity. *)
Theorem applyDelta_negative (req : Request) (userId : string) (d : Db)
        (pid : string) (q : Z) (p : Product.t) :
  healthy d -> fresh d -> unique_lines d -> item_fks d ->
  quantities_in_range d -> known_user userId d ->
  cartItemSchema_parse (body req) = Value (pid, q) ->
  q < 0 ->
  prisma.find_product pid d = Some p ->
  exists c r d',
    ApiCart.handleAddToCart req userId d = (r, d')
    /\ prisma.find_cart userId d' = Some c
    /\ (forall c0, prisma.find_cart userId d = Some c0 -> c = c0)
    /\ match prisma.find_item (Cart.id c) pid d with
       | None =>
           r = respond 400 (JError "Cart item not found")
           /\ cartItems d' = cartItems d
       | Some i =>
           (exists rows,
              r = respond 200 (JCart c rows (cart_total rows))
              /\ map fst rows = prisma.items_of (Cart.id c) d')
           /\ if 0 <? CartItem.quantity i + q
              then exists line,
                     lines_of (Cart.id c) pid d' = [line]
                     /\ CartItem.id line = CartItem.id i
                     /\ CartItem.quantity line = CartItem.quantity i + q
              else lines_of (Cart.id c) pid d' = []
       end
    /\ Forall (fun l => 0 < CartItem.quantity l) (lines_of (Cart.id c) pid d').
Proof.
  intros H Hfr Hu Hfk Hrange Hknown Hparse Hq Hprod.
  assert (Hz : (q =? 0) = false) by lia.
  assert (Hpos : (0 <? q) = false) by lia.
  unfold ApiCart.handleAddToCart, try_catch.
  rewrite (bind_value _ _ d (a := (pid, q)) (d' := d))
    by (unfold lift; rewrite Hparse; reflexivity).
  cbv beta iota.
  rewrite (bind_value _ _ _ (product_findUnique_run pid H)), Hprod.
  rewrite (bind_value _ _ _ (cart_findUnique_run userId H)).
  assert (Hfinal : forall c d1 r d',
    prisma.find_item (Cart.id c) pid d1 = prisma.find_item (Cart.id c) pid d ->
    match prisma.find_item (Cart.id c) pid d1 with
    | None => r = respond 400 (JError "Cart item not found") /\ d' = d1
    | Some i =>
        (exists rows,
           r = respond 200 (JCart c rows (cart_total rows))
           /\ map fst rows = prisma.items_of (Cart.id c) d')
        /\ lines_of (Cart.id c) pid d'
           = if 0 <? CartItem.quantity i + q
             then [CartItem.set_quantity (CartItem.quantity i + q) i]
             else []
    end ->
    cartItems d1 = cartItems d ->
    match prisma.find_item (Cart.id c) pid d with
    | None => r = respond 400 (JError "Cart item not found")
              /\ cartItems d' = cartItems d
    | Some i =>
        (exists rows,
           r = respond 200 (JCart c rows (cart_total rows))
           /\ map fst rows = prisma.items_of (Cart.id c) d')
        /\ if 0 <? CartItem.quantity i + q
           then exists line,
                  lines_of (Cart.id c) pid d' = [line]
                  /\ CartItem.id line = CartItem.id i
                  /\ CartItem.quantity line = CartItem.quantity i + q
           else lines_of (Cart.id c) pid d' = []
    end
    /\ Forall (fun l => 0 < CartItem.quantity l) (lines_of (Cart.id c) pid d')).
  { intros c d1 r d' He Hm Hitems. rewrite He in Hm.
    destruct (prisma.find_item (Cart.id c) pid d) as [i|] eqn:Hf.
    - destruct Hm as [Hrows Hl]. rewrite Hl.
      destruct (0 <? CartItem.quantity i + q) eqn:Hn.
      + split; [split; [exact Hrows|]|].
        * exists (CartItem.set_quantity (CartItem.quantity i + q) i).
          repeat split.
        * repeat constructor. simpl; lia.
      + split; [split; [exact Hrows | reflexivity] | constructor].
    - destruct Hm as [-> ->]. split; [auto|].
      unfold lines_of. rewrite Hitems.
      unfold prisma.find_item in Hf. rewrite (filter_find_none _ _ Hf).
      constructor. }
  destruct (prisma.find_cart userId d) as [c0|] eqn:Hc.
  - rewrite (bind_value (ret c0) _ d (a := c0) (d' := d) eq_refl).
    rewrite Hz, Hpos.
    destruct (add_negative_resolved userId pid q H Hu Hfk Hc
                (decrease_in_range (Cart.id c0) pid Hrange Hq))
      as (r & d' & Hrun & Hcarts & Hm).
    exists c0, r, d'. rewrite Hrun. split; [reflexivity|]. split.
    { unfold prisma.find_cart in *. rewrite Hcarts. exact Hc. }
    split; [intros c1 [= <-]; reflexivity|].
    apply (Hfinal c0 d r d' eq_refl Hm eq_refl).
  - destruct Hknown as [Hk|Hk]; [congruence|].
    destruct (created_cart_state userId H Hfr Hu Hfk Hc)
      as (H1 & Hfr1 & Hu1 & Hfk1 & Hc1 & Hnone).
    rewrite (bind_value _ _ _ (cart_create_run userId H Hfr Hc Hk)).
    rewrite Hz, Hpos.
    destruct (add_negative_resolved userId pid q H1 Hu1 Hfk1 Hc1
                (decrease_in_range _ pid (d := prisma.with_carts _ _ d) Hrange Hq))
      as (r & d' & Hrun & Hcarts & Hm).
    eexists _, r, d'. rewrite Hrun. split; [reflexivity|]. split.
    { unfold prisma.find_cart in *. rewrite Hcarts. exact Hc1. }
    split; [intros c1 [=]|].
    apply (Hfinal _ (prisma.with_carts
                       (carts d ++ [{| Cart.id := cuid (issued d);
                                       Cart.userId := userId |}])
                       (S (issued d)) d) r d' eq_refl Hm eq_refl).
Qed.

(** C4: from a database whose lines all have quantity at least 1, every
    sequence of requests to the two routes leaves every line with quantity
    at least 1 after each request; and a delta that would bring a line of
    such a database to zero or below removes the line. *)
Theorem positive_quantities_invariant :
  (forall (rqs : list (Route * Request)) (d : Db),
     positive_quantities d -> Forall positive_quantities (states rqs d))
  /\ (forall (req : Request) (userId : string) (d : Db) (pid : string) (q : Z)
             (p : Product.t) (c : Cart.t) (i : CartItem.t),
        healthy d -> unique_lines d -> item_fks d -> positive_quantities d ->
        cartItemSchema_parse (body req) = Value (pid, q) ->
        prisma.find_product pid d = Some p ->
        prisma.find_cart userId d = Some c ->
        prisma.find_item (Cart.id c) pid d = Some i ->
        CartItem.quantity i + q <= 0 ->
        lines_of (Cart.id c) pid (snd (ApiCart.handleAddToCart req userId d)) = []).
Proof.
  split.
  - intros rqs d. apply states_preserve.
    + apply positive_quantities_stable.
    + apply positive_quantities_create.
    + apply positive_quantities_upsert.
    + apply positive_quantities_update.
    + apply positive_quantities_delete.
    + apply positive_quantities_delete_key.
    + apply positive_quantities_deleteMany.
  - intros req userId d pid q p c i H Hu Hfk Hpos Hparse Hprod Hc Hf Hle.
    assert (Hi : 1 <= CartItem.quantity i).
    { unfold positive_quantities in Hpos. rewrite Forall_forall in Hpos.
      apply Hpos. apply find_some in Hf as [Hin _]. exact Hin. }
    assert (Hz : (q =? 0) = false) by lia.
    assert (Hq : (0 <? q) = false) by lia.
    unfold ApiCart.handleAddToCart, try_catch.
    rewrite (bind_value _ _ d (a := (pid, q)) (d' := d))
      by (unfold lift; rewrite Hparse; reflexivity).
    cbv beta iota.
    rewrite (bind_value _ _ _ (product_findUnique_run pid H)), Hprod.
    rewrite (bind_value _ _ _ (cart_findUnique_run userId H)), Hc.
    rewrite (bind_value (ret c) _ d (a := c) (d' := d) eq_refl).
    rewrite Hz, Hq.
    assert (Hrange : forall j, prisma.find_item (Cart.id c) pid d = Some j ->
              0 < CartItem.quantity j + q -> int32 (CartItem.quantity j + q) = true)
      by (intros j Hj; rewrite Hf in Hj; injection Hj as <-; lia).
    destruct (add_negative_resolved userId pid q H Hu Hfk Hc Hrange)
      as (r & d' & Hrun & _ & Hm).
    rewrite Hrun. rewrite Hf in Hm. destruct Hm as [_ Hl]. simpl. rewrite Hl.
    replace (0 <? CartItem.quantity i + q) with false by lia. reflexivity.
Qed.

(** ** Checkout *)
Lemma filter_negb_nil {A} (f : A -> bool) l :
  filter f (filter (fun x => negb (f x)) l) = [].
Proof.
  induction l as [|a l IH]; simpl; [reflexivity|].
  destruct (f a) eqn:E; simpl; rewrite ?E; exact IH.
Qed.

Lemma filter_filter_weaken {A} (f g : A -> bool) l :
  (forall x, f x = true -> g x = true) -> filter f (filter g l) = filter f l.
Proof.
  intros H. induction l as [|a l IH]; simpl; [reflexivity|].
  destruct (g a) eqn:Eg; simpl; destruct (f a) eqn:Ef; rewrite ?IH; try reflexivity.
  apply H in Ef. congruence.
Qed.

Lemma map_fst_nil {A B} (l : list (A * B)) : map fst l = [] -> l = [].
Proof. destruct l; [reflexivity | discriminate]. Qed.

(** Each joined row pairs a line with the product row its [productId]
    names. *)
Lemma include_product_joined d l : forall rows,
  prisma.include_product d l = Some rows ->
  Forall (fun row => prisma.find_product (CartItem.productId (fst row)) d
                     = Some (snd row)) rows.
Proof.
  induction l as [|i l IH]; simpl; intros rows Hr.
  - injection Hr as <-. constructor.
  - destruct (prisma.find_product (CartItem.productId i) d) as [p|] eqn:Hp;
      [|discriminate].
    destruct (prisma.include_product d l) as [ps|]; [|discriminate].
    injection Hr as <-. constructor; [exact Hp | apply IH; reflexivity].
Qed.

(** C5: on a database with no outage ahead whose lines point at existing
    rows, checkout answers 400 "Cart is empty" and changes nothing when the
    user's cart has no line (or the user has no cart); when the cart has a
    line it answers 200 with the total of the lines the cart holds at that
    moment (each line joined with its product; the sum, line by line from 0,
    of price times quantity, then rounded by [toFixed(2)]), removes every
    line of that cart and of no other, keeps the cart row, and a get that
    follows shows the cart with no line and total 0. *)
Theorem checkout_clears_cart (req : Request) (userId : string) (d : Db) :
  method req = "POST" -> session req = Some userId ->
  healthy d -> item_fks d ->
  exists r d',
    ApiOrders.handler req d = (r, d')
    /\ match prisma.find_cart userId d with
       | None => r = respond 400 (JError "Cart is empty") /\ d' = d
       | Some c =>
           match prisma.items_of (Cart.id c) d with
           | [] => r = respond 400 (JError "Cart is empty") /\ d' = d
           | _ :: _ =>
               exists rows,
                 map fst rows = prisma.items_of (Cart.id c) d
                 /\ Forall (fun row =>
                              prisma.find_product (CartItem.productId (fst row)) d
                              = Some (snd row)) rows
                 /\ r = respond 200
                          (JOrder true
                             (Number.toFixed2
                                (fold_left
                                   (fun sum row =>
                                      Number.add sum
                                        (Number.mul
                                           (Product.price (snd row))
                                           (Number.of_Z (CartItem.quantity (fst row)))))
                                   rows Number.zero)))
                 /\ prisma.items_of (Cart.id c) d' = []
                 /\ (forall cid, cid <> Cart.id c ->
                       prisma.items_of cid d' = prisma.items_of cid d)
                 /\ carts d' = carts d /\ products d' = products d
                 /\ ApiCart.handleGetCart userId d'
                    = (respond 200 (JCart c [] Number.zero), d')
           end
       end.
Proof.
  intros Hm Hs H Hfk. unfold ApiOrders.handler.
  rewrite Hm, Hs, String.eqb_refl. unfold try_catch.
  change (negb true) with false. cbv beta iota.
  destruct (prisma.find_cart userId d) as [c|] eqn:Hc.
  2:{ rewrite (bind_value _ _ _ (findUnique_include_none userId H Hc)).
      exists (respond 400 (JError "Cart is empty")), d. auto. }
  destruct (item_fks_include (Cart.id c) Hfk) as (rows & Hr & Hmap).
  rewrite (bind_value _ _ _ (findUnique_include_run userId H Hc Hr)).
  pose proof (include_product_joined _ _ Hr) as Hjoin.
  destruct (prisma.items_of (Cart.id c) d) as [|i rest] eqn:Hitems.
  - apply map_fst_nil in Hmap. subst rows.
    exists (respond 400 (JError "Cart is empty")), d. auto.
  - destruct rows as [|row rows']; [discriminate|]. cbv beta iota zeta.
    rewrite (bind_value _ _ _ (deleteMany_run (Cart.id c) H)).
    eexists _, _. split; [reflexivity|].
    exists (row :: rows'). split; [exact Hmap|]. split; [exact Hjoin|].
    split; [reflexivity|]. split.
    { unfold prisma.items_of; simpl. apply filter_negb_nil. }
    split.
    { intros cid Hne. unfold prisma.items_of; simpl.
      apply filter_filter_weaken. intros x Hx. apply String.eqb_eq in Hx.
      apply negb_true_iff, String.eqb_neq. congruence. }
    split; [reflexivity|]. split; [reflexivity|].
    unfold ApiCart.handleGetCart, try_catch.
    erewrite bind_value.
    2:{ apply (findUnique_include_run userId (c := c) (rows := []));
          [exact H | exact Hc |].
        unfold prisma.items_of; simpl.
        rewrite (filter_negb_nil (fun j => (CartItem.cartId j =? Cart.id c)%string)).
        reflexivity. }
    reflexivity.
Qed.

(** ** The scenario databases are well formed *)
Lemma db_empty_ok :
  healthy db_empty /\ fresh db_empty /\ unique_lines db_empty
  /\ item_fks db_empty /\ positive_quantities db_empty.
Proof.
  split; [reflexivity|]. split; [intros n _; split; intros []|].
  repeat split; constructor.
Qed.

Lemma fresh_above (d : Db) :
  (forall x, In x (map Cart.id (carts d) ++ map CartItem.id (cartItems d)) ->
     exists k, (k < issued d)%nat /\ x = cuid k) ->
  fresh d.
Proof.
  intros Hall n Hn.
  split; intros Hin;
    (destruct (Hall (cuid n)) as (k & Hk & He);
     [apply in_app_iff; auto | apply cuid_inj in He; lia]).
Qed.

Lemma db_three_ok :
  healthy db_three /\ fresh db_three /\ unique_lines db_three
  /\ item_fks db_three /\ positive_quantities db_three.
Proof.
  split; [reflexivity|]. split.
  { apply fresh_above. simpl.
    intros x [<-|[<-|[]]]; [exists 0%nat | exists 1%nat]; split; auto. }
  split; [repeat constructor; simpl; intuition discriminate|].
  split; repeat constructor; simpl; auto; lia.
Qed.

Lemma db_two_lines_ok :
  healthy db_two_lines /\ fresh db_two_lines /\ unique_lines db_two_lines
  /\ item_fks db_two_lines /\ positive_quantities db_two_lines.
Proof.
  split; [reflexivity|]. split.
  { apply fresh_above. simpl.
    intros x [<-|[<-|[<-|[]]]];
      [exists 0%nat | exists 1%nat | exists 2%nat]; split; auto. }
  split; [repeat constructor; simpl; intuition discriminate|].
  split; repeat constructor; simpl; auto; lia.
Qed.

Lemma db_three_in_range : quantities_in_range db_three.
Proof. repeat constructor. Qed.

Lemma applyDelta_positive_witness :
  exists rows d' line,
    ApiCart.handleAddToCart (request "POST" (json_body "cproduct0001" 1)) "u1" db_three
    = (respond 200 (JCart {| Cart.id := "c0"; Cart.userId := "u1" |} rows
                          (cart_total rows)), d')
    /\ lines_of "c0" "cproduct0001" d' = [line]
    /\ CartItem.quantity line = 4.
Proof.
  destruct db_three_ok as (H & Hfr & Hu & Hfk & _).
  assert (Hk : known_user "u1" db_three) by (left; discriminate).
  destruct (@applyDelta_positive (request "POST" (json_body "cproduct0001" 1))
              "u1" db_three "cproduct0001" 1 P1 H Hfr Hu Hfk Hk
              eq_refl eq_refl eq_refl eq_refl eq_refl)
    as (c & rows & d' & line & Hrun & _ & Hsame & _ & Hl & Hq).
  specialize (Hsame _ eq_refl). subst c.
  exists rows, d', line. split; [exact Hrun|]. split; [exact Hl | exact Hq].
Defined.

Lemma applyDelta_negative_witness :
  exists rows d' line,
    ApiCart.handleAddToCart (request "POST" (json_body "cproduct0001" (-1))) "u1" db_three
    = (respond 200 (JCart {| Cart.id := "c0"; Cart.userId := "u1" |} rows
                          (cart_total rows)), d')
    /\ lines_of "c0" "cproduct0001" d' = [line]
    /\ CartItem.id line = "c1"
    /\ CartItem.quantity line = 2.
Proof.
  destruct db_three_ok as (H & Hfr & Hu & Hfk & _).
  assert (Hk : known_user "u1" db_three) by (left; discriminate).
  destruct (@applyDelta_negative (request "POST" (json_body "cproduct0001" (-1)))
              "u1" db_three "cproduct0001" (-1) P1 H Hfr Hu Hfk
              db_three_in_range Hk eq_refl eq_refl eq_refl)
    as (c & r & d' & Hrun & _ & Hsame & Hm & _).
  specialize (Hsame _ eq_refl). subst c.
  destruct Hm as [(rows & -> & _) (line & Hl & Hid & Hq)].
  exists rows, d', line. split; [exact Hrun|]. split; [exact Hl|].
  split; [exact Hid | exact Hq].
Defined.

Lemma positive_quantities_invariant_witness :
  Forall positive_quantities
         (states [(api_cart, request "POST" (json_body "cproduct0001" (-5)));
                  (api_orders, request "POST" JsUndefined)] db_three)
  /\ lines_of "c0" "cproduct0001"
       (snd (ApiCart.handleAddToCart
               (request "POST" (json_body "cproduct0001" (-5))) "u1" db_three))
     = [].
Proof.
  destruct db_three_ok as (H & _ & Hu & Hfk & Hpos).
  split.
  - apply (proj1 positive_quantities_invariant _ db_three Hpos).
  - apply (proj2 positive_quantities_invariant
             (request "POST" (json_body "cproduct0001" (-5))) "u1" db_three
             "cproduct0001" (-5) P1 {| Cart.id := "c0"; Cart.userId := "u1" |}
             (mk_item "c1" "c0" "cproduct0001" 3) H Hu Hfk Hpos);
      [reflexivity | reflexivity | reflexivity | reflexivity | simpl; lia].
Defined.

Lemma unique_lines_invariant_witness :
  Forall unique_lines
         (states [(api_cart, request "POST" (json_body "cproduct0002" 2));
                  (api_cart, request "DELETE" (json_body "cproduct0001" 0));
                  (api_orders, request "POST" JsUndefined)] db_three).
Proof.
  apply unique_lines_invariant. exact (proj1 (proj2 (proj2 db_three_ok))).
Defined.

Lemma checkout_clears_cart_witness :
  exists d',
    ApiOrders.handler (request "POST" JsUndefined) db_two_lines
    = (respond 200 (JOrder true (Number.of_Z 25)), d')
    /\ prisma.items_of "c0" d' = []
    /\ carts d' = [{| Cart.id := "c0"; Cart.userId := "u1" |}]
    /\ ApiCart.handleGetCart "u1" d'
       = (respond 200 (JCart {| Cart.id := "c0"; Cart.userId := "u1" |} []
                             Number.zero), d').
Proof.
  destruct db_two_lines_ok as (H & _ & _ & Hfk & _).
  destruct (@checkout_clears_cart (request "POST" JsUndefined) "u1" db_two_lines
              eq_refl eq_refl H Hfk) as (r & d' & Hrun & Hm).
  assert (E1 : prisma.find_cart "u1" db_two_lines
               = Some {| Cart.id := "c0"; Cart.userId := "u1" |}) by reflexivity.
  rewrite E1 in Hm.
  assert (E2 : prisma.items_of "c0" db_two_lines
               = [mk_item "c1" "c0" "cproduct0001" 1;
                  mk_item "c2" "c0" "cproduct0002" 3]) by reflexivity.
  cbn [Cart.id] in Hm. rewrite E2 in Hm.
  destruct Hm as (rows & Hmap & Hjoin & Hr & Hnone & _ & Hcarts & _ & Hget).
  assert (Hrows : rows = two_rows).
  { destruct rows as [|[i1 p1] [|[i2 p2] [|? ?]]]; try discriminate.
    injection Hmap as -> ->.
    inversion Hjoin as [|? ? Hp1 Hj']; subst.
    inversion Hj' as [|? ? Hp2 _]; subst.
    vm_compute in Hp1. vm_compute in Hp2.
    injection Hp1 as <-. injection Hp2 as <-. reflexivity. }
  subst rows. exists d'. split.
  { rewrite Hrun, Hr. f_equal. }
  split; [exact Hnone|]. split; [exact Hcarts | exact Hget].
Defined.

(** ** Removal *)

(** Removing a line that exists deletes it and answers 200. *)
Lemma remove_present (req : Request) (userId pid : string) (d : Db)
      (a : ascii) (s : string) (c : Cart.t) (i : CartItem.t) :
  healthy d -> item_fks d ->
  prop (body req) "productId" = JsString (String a s) ->
  body req <> JsUndefined -> body req <> JsNull ->
  prisma.find_cart userId d = Some c ->
  prisma.find_item (Cart.id c) (String a s) d = Some i ->
  exists rows d',
    ApiCart.handleRemoveFromCart req userId d
    = (respond 200 (JCart c rows (cart_total rows)), d')
    /\ lines_of (Cart.id c) (String a s) d' = [].
Proof.
  intros H Hfk Hp Hu Hn Hc Hf.
  set (d' := prisma.with_items
       (filter (fun j => negb (CartItem.has_key (Cart.id c) (String a s) j))
               (cartItems d)) (issued d) d).
  edestruct (respond_updated_run userId) with (d := d') (c := c)
    as (rows & Hm & Hr);
    [exact H | apply item_fks_with_items_filter, Hfk | exact Hc |].
  exists rows, d'. split.
  - unfold ApiCart.handleRemoveFromCart, try_catch.
    destruct (body req); try congruence; rewrite Hp;
      rewrite (bind_value _ _ _ (cart_findUnique_run userId H)), Hc;
      rewrite (bind_value _ _ _ (delete_key_run _ _ H Hf));
      fold d'; rewrite Hr; reflexivity.
  - unfold lines_of, d'; simpl. apply filter_negb_nil.
Qed.

(** Removing a line that does not exist: the [delete] throws and the catch
    answers 500; no row changes. *)
Lemma remove_absent (req : Request) (userId : string) (d : Db)
      (a : ascii) (s : string) (c : Cart.t) :
  healthy d ->
  prop (body req) "productId" = JsString (String a s) ->
  body req <> JsUndefined -> body req <> JsNull ->
  prisma.find_cart userId d = Some c ->
  prisma.find_item (Cart.id c) (String a s) d = None ->
  ApiCart.handleRemoveFromCart req userId d
  = (respond 500 (JError "Failed to remove from cart"), d).
Proof.
  intros H Hp Hu Hn Hc Hf. unfold ApiCart.handleRemoveFromCart, try_catch.
  destruct (body req); try congruence; rewrite Hp;
    rewrite (bind_value _ _ _ (cart_findUnique_run userId H)), Hc;
    rewrite (bind_throw _ _ _ (delete_key_missing _ _ H Hf)); reflexivity.
Qed.

(** C7 (the code departs from it): user u1 has a cart with a line for P1
    only.  Removing P2, which has no line, is answered 500 "Failed to remove
    from cart"; that is the very response a database outage gets, while the
    decrement path of POST answers the same absence with 400 "Cart item not
    found". *)
Theorem remove_absent_line_is_500 :
  ApiCart.handleRemoveFromCart
    (request "DELETE" (JsObject [("productId", JsString "cproduct0002")]))
    "u1" db_three
  = (respond 500 (JError "Failed to remove from cart"), db_three)
  /\ fst (ApiCart.handleRemoveFromCart
            (request "DELETE" (JsObject [("productId", JsString "cproduct0002")]))
            "u1"
            {| users := users db_three; products := products db_three;
               carts := carts db_three;
               cartItems := cartItems db_three; issued := issued db_three;
               outages := [true] |})
     = respond 500 (JError "Failed to remove from cart")
  /\ fst (ApiCart.handleAddToCart
            (request "POST" (json_body "cproduct0002" (-1))) "u1" db_three)
     = respond 400 (JError "Cart item not found").
Proof.
  split; [vm_compute; reflexivity|]. split; vm_compute; reflexivity.
Qed.

(** ** Reading the cart *)





(** ** What a returned value says about the state reached *)
Lemma ensures_ret {A} (P : Db -> Prop) (a : A) (Q : A -> Db -> Prop) :
  (forall d, P d -> Q a d) -> ensures P (ret a) Q.
Proof. intros H d Hd a' d' [= <- <-]. apply H, Hd. Qed.

Lemma ensures_throw {A} (P : Db -> Prop) e (Q : A -> Db -> Prop) :
  ensures P (throw e) Q.
Proof. intros d _ a d' [=]. Qed.

Lemma ensures_lift {A} (P : Db -> Prop) (o : Outcome A) (Q : A -> Db -> Prop) :
  (forall a d, P d -> o = Value a -> Q a d) -> ensures P (lift o) Q.
Proof. intros H d Hd a d' [= Ho <-]. apply H; assumption. Qed.

Lemma ensures_bind {A B} (P : Db -> Prop) (m : M A) (k : A -> M B)
      (R : A -> Db -> Prop) (Q : B -> Db -> Prop) :
  ensures P m R -> (forall a, ensures (R a) (k a) Q) -> ensures P (bind m k) Q.
Proof.
  intros Hm Hk d Hd b d'. unfold bind.
  destruct (m d) as [[a|e] d1] eqn:E; [|discriminate].
  intros Hrun. exact (Hk a d1 (Hm d Hd a d1 E) b d' Hrun).
Qed.

Lemma ensures_read {A} (P : Db -> Prop) (g : Db -> A) :
  stable P ->
  ensures P (query (fun d => (Value (g d), d))) (fun a d' => P d' /\ a = g d').
Proof.
  intros Hs d Hd a d'. unfold query.
  destruct (outages d) as [|[|] rest]; intros [= <- <-]; auto.
Qed.

Lemma ensures_weaken {A} (P : Db -> Prop) (m : M A) (R Q : A -> Db -> Prop) :
  ensures P m R -> (forall a d, R a d -> Q a d) -> ensures P m Q.
Proof. intros Hm H d Hd a d' Hrun. apply H, (Hm d Hd a d' Hrun). Qed.

Lemma ensures_strengthen {A} (P P' : Db -> Prop) (m : M A) (Q : A -> Db -> Prop) :
  ensures P' m Q -> (forall d, P d -> P' d) -> ensures P m Q.
Proof. intros Hm H d Hd. apply Hm, H, Hd. Qed.

Lemma same_rows_stable d0 : stable (same_rows d0).
Proof. intros d H. exact (same_rows_trans H (same_rows_tick d)). Qed.

Lemma ensures_respond_updated (P : Db -> Prop) uid :
  ensures P (ApiCart.respond_updated uid) (fun r _ => is_cart_response r).
Proof.
  intros d _ r d'. unfold ApiCart.respond_updated, bind.
  destruct (prisma.cart.findUnique_include uid d) as [[[[c rows]|]|e] d1];
    try discriminate.
  intros [= <- <-]. exists c, rows. reflexivity.
Qed.

Lemma ensures_then_respond_updated {A} (P : Db -> Prop) (m : M A) uid :
  ensures P (m ;;; ApiCart.respond_updated uid) (fun r _ => is_cart_response r).
Proof.
  apply ensures_bind with (R := fun _ _ => True).
  - intros d _ a d' _. exact I.
  - intros _. apply ensures_respond_updated.
Qed.

(** ** Failed deltas *)

(** The claim of C9 fails: a decrease for a user who has no cart row is
    answered 400 "Cart item not found" after the cart row was created. *)
Lemma failed_delta_creates_cart_counterexample :
  fst (ApiCart.handleAddToCart
         (request "POST" (json_body "cproduct0001" (-1))) "u1" db_empty)
  = respond 400 (JError "Cart item not found")
  /\ carts db_empty = []
  /\ carts (snd (ApiCart.handleAddToCart
                   (request "POST" (json_body "cproduct0001" (-1))) "u1" db_empty))
     = [{| Cart.id := "c0"; Cart.userId := "u1" |}].
Proof.
  split; [vm_compute; reflexivity|]. split; vm_compute; reflexivity.
Qed.

Lemma cart_resolved_stable uid d0 : stable (cart_resolved uid d0).
Proof. intros d H; exact H. Qed.

Lemma ensures_create uid d0 :
  ensures (fun d => same_rows d0 d /\ prisma.find_cart uid d = None)
          (prisma.cart.create uid) (fun _ d => cart_resolved uid d0 d).
Proof.
  intros d [(Hp & Hc & Hi) Hnone] c d'. unfold prisma.cart.create, query.
  assert (Hn0 : prisma.find_cart uid d0 = None)
    by (unfold prisma.find_cart in *; rewrite <- Hc; exact Hnone).
  destruct (outages d) as [|[|] rest]; simpl; try discriminate;
    (destruct (_ || _); [discriminate|];
     destruct (mem uid _); [|discriminate]; intros [= <- <-]; simpl;
     split; [exact Hp|]; split; [exact Hi|]; right; split; [exact Hn0|];
     eexists; split; [|rewrite Hc; reflexivity]; reflexivity).
Qed.

(** C9, amended: whatever the outage schedule, a POST answered 404 "Product
    not found" leaves every row of every table as it was; a POST answered
    400 "Cart item not found" leaves the products and every line as they
    were; it leaves the cart rows as they were when the user had a cart, and
    when the user had none it has added one cart row, the user's, after
    those that were there. *)
Theorem failed_delta_effects (req : Request) (userId : string) (d : Db) :
  exists r d',
    ApiCart.handleAddToCart req userId d = (r, d')
    /\ (r = respond 404 (JError "Product not found") -> same_rows d d')
    /\ (r = respond 400 (JError "Cart item not found") ->
        products d' = products d /\ cartItems d' = cartItems d
        /\ ((prisma.find_cart userId d <> None /\ carts d' = carts d)
            \/ (prisma.find_cart userId d = None
                /\ exists c, Cart.userId c = userId
                           /\ carts d' = (carts d ++ [c])%list))).
Proof.
  eexists _, _. split; [apply surjective_pairing|].
  set (Q := fun (r : Response) (d' : Db) =>
    (r = respond 404 (JError "Product not found") -> same_rows d d')
    /\ (r = respond 400 (JError "Cart item not found") -> cart_resolved userId d d')).
  assert (Hcart : forall r d', is_cart_response r -> Q r d').
  { intros r d' (c & rows & ->). split; discriminate. }
  assert (Hbody : ensures (same_rows d)
    (parsed <- lift (cartItemSchema_parse (body req)) ;;
     let '(productId, quantity) := parsed in
     product <- prisma.product.findUnique productId ;;
     match product with
     | None => ret (respond 404 (JError "Product not found"))
     | Some _ =>
         found <- prisma.cart.findUnique userId ;;
         cart <- match found with
                 | Some c => ret c
                 | None => prisma.cart.create userId
                 end ;;
         if quantity =? 0 then ApiCart.respond_updated userId
         else if 0 <? quantity then
           prisma.cartItem.upsert (Cart.id cart) productId quantity quantity ;;;
           ApiCart.respond_updated userId
         else
           existing <- prisma.cartItem.findUnique (Cart.id cart) productId ;;
           match existing with
           | None => ret (respond 400 (JError "Cart item not found"))
           | Some e =>
               let newQty := CartItem.quantity e + quantity in
               (if 0 <? newQty
                then prisma.cartItem.update (CartItem.id e) newQty
                else prisma.cartItem.delete (CartItem.id e)) ;;;
               ApiCart.respond_updated userId
           end
     end) Q).
  { apply ensures_bind with (R := fun _ d' => same_rows d d').
    { apply ensures_lift; auto. }
    intros [pid q].
    apply ensures_bind with (R := fun _ d' => same_rows d d').
    { eapply ensures_weaken;
        [apply (ensures_read (prisma.find_product pid)), same_rows_stable|].
      intros a d' [Hd _]; exact Hd. }
    intros [p|].
    2:{ apply ensures_ret. intros d1 H1. split; [auto | discriminate]. }
    apply ensures_bind
      with (R := fun found d' => same_rows d d' /\ found = prisma.find_cart userId d').
    { apply (ensures_read (prisma.find_cart userId)), same_rows_stable. }
    intros found.
    apply ensures_bind with (R := fun _ d' => cart_resolved userId d d').
    { destruct found as [c|].
      - apply ensures_ret. intros d1 [(Hp & Hc & Hi) Hfound].
        split; [exact Hp|]. split; [exact Hi|]. left. split; [|exact Hc].
        unfold prisma.find_cart in *. rewrite <- Hc, <- Hfound. discriminate.
      - eapply ensures_strengthen; [apply (@ensures_create userId d)|].
        intros d1 [H1 Hn]; auto. }
    intros c. destruct (q =? 0).
    { eapply ensures_weaken; [apply ensures_respond_updated|].
      intros r d'; apply Hcart. }
    destruct (0 <? q).
    { eapply ensures_weaken; [apply ensures_then_respond_updated|].
      intros r d'; apply Hcart. }
    apply ensures_bind with (R := fun _ d' => cart_resolved userId d d').
    { eapply ensures_weaken;
        [apply (ensures_read (prisma.find_item (Cart.id c) pid)),
           cart_resolved_stable|].
      intros a d' [Hd _]; exact Hd. }
    intros [e|].
    - eapply ensures_weaken; [apply ensures_then_respond_updated|].
      intros r d'; apply Hcart.
    - apply ensures_ret. intros d1 H1. split; [discriminate | auto]. }
  unfold ApiCart.handleAddToCart, try_catch.
  specialize (Hbody d (same_rows_refl d)).
  match goal with
  | |- context [let (o, d'0) := ?m d in _] =>
      destruct (m d) as [[r|e] d1] eqn:E
  end.
  - destruct (Hbody r d1 eq_refl) as [H404 H400]. simpl. split; [exact H404|].
    intros Hr. exact (H400 Hr).
  - simpl. destruct e; split; discriminate.
Qed.

Lemma failed_delta_effects_witness :
  exists r d',
    ApiCart.handleAddToCart (request "POST" (json_body "cproduct0002" (-1))) "u1" db_three
    = (r, d')
    /\ r = respond 400 (JError "Cart item not found")
    /\ products d' = products db_three /\ cartItems d' = cartItems db_three
    /\ carts d' = carts db_three.
Proof.
  destruct (failed_delta_effects
              (request "POST" (json_body "cproduct0002" (-1))) "u1" db_three)
    as (r & d' & Hrun & _ & H400).
  exists r, d'. split; [exact Hrun|].
  assert (Hr : r = respond 400 (JError "Cart item not found")).
  { pose proof Hrun as E. vm_compute in E. injection E as <- _.
    vm_compute; reflexivity. }
  split; [exact Hr|].
  destruct (H400 Hr) as (Hp & Hi & [[_ Hc]|[Hn _]]); [auto | discriminate].
Defined.

(** ** Signs in binary64 arithmetic *)
Lemma binary_round_aux_sign s m e l :
  match binary_round_aux Number.prec Number.emax s m e l with
  | S754_zero s' | S754_infinity s' | S754_finite s' _ _ => s' = s
  | S754_nan => True
  end.
Proof.
  unfold binary_round_aux.
  destruct (shr_fexp Number.prec Number.emax m e l) as [mrs' e'].
  destruct (shr_fexp Number.prec Number.emax _ e' loc_Exact) as [mrs'' e''].
  destruct (shr_m mrs''); [reflexivity | | exact I].
  destruct (Z.leb _ _); reflexivity.
Qed.

Lemma not_negative_round_aux m e l :
  not_negative (binary_round_aux Number.prec Number.emax false m e l).
Proof.
  pose proof (binary_round_aux_sign false m e l) as H.
  destruct (binary_round_aux _ _ false m e l); simpl; auto.
Qed.

Lemma not_negative_round m e :
  not_negative (binary_round Number.prec Number.emax false m e).
Proof.
  unfold binary_round. destruct (shl_align _ _ _) as [mz ez].
  apply not_negative_round_aux.
Qed.

Lemma not_negative_of_Z z : 0 <= z -> not_negative (Number.of_Z z).
Proof.
  intros Hz. unfold Number.of_Z, binary_normalize.
  destruct z as [|p|p]; [exact I | apply not_negative_round | lia].
Qed.

Lemma not_negative_mul x y :
  not_negative x -> not_negative y -> not_negative (Number.mul x y).
Proof.
  unfold Number.mul, SFmul.
  destruct x as [sx|sx| |sx mx ex]; destruct y as [sy|sy| |sy my ey];
    simpl; intros Hx Hy; subst; auto.
  apply not_negative_round_aux.
Qed.

Lemma not_negative_add x y :
  not_negative x -> not_negative y -> not_negative (Number.add x y).
Proof.
  unfold Number.add, SFadd.
  destruct x as [sx|sx| |sx mx ex]; destruct y as [sy|sy| |sy my ey];
    simpl; intros Hx Hy; subst; auto.
  - destruct sx, sy; exact I.
  - reflexivity.
  - unfold cond_Zopp. simpl Z.add. apply not_negative_round.
Qed.

Lemma not_negative_of_cents n : not_negative (Number.of_cents false n).
Proof.
  unfold Number.of_cents. destruct n; try exact I.
  unfold Number.div, SFdiv.
  destruct (SFdiv_core_binary _ _ _ _ _ _) as [[mz ez] lz].
  apply not_negative_round_aux.
Qed.

Lemma not_negative_toFixed2 x : not_negative x -> not_negative (Number.toFixed2 x).
Proof.
  destruct x as [s|s| |s m e]; simpl; auto.
  intros ->. destruct (Number.ge_1e21 m e); [reflexivity|].
  apply not_negative_of_cents.
Qed.

Lemma non_negative_not_negative x : non_negative x -> not_negative x.
Proof.
  unfold non_negative, Number.leb, SFleb, Number.zero.
  destruct x as [s|[|]| |[|] m e]; simpl; auto; discriminate.
Qed.

Lemma not_negative_ltb x : not_negative x -> Number.ltb x Number.zero = false.
Proof.
  unfold Number.ltb, SFltb, Number.zero.
  destruct x as [s|s| |s m e]; simpl; auto; intros ->; reflexivity.
Qed.

Create HintDb sign discriminated.
#[local] Hint Resolve not_negative_of_Z not_negative_mul not_negative_add
  not_negative_toFixed2 non_negative_not_negative : sign.

Lemma not_negative_reduce items acc :
  Forall (fun item => non_negative (Product.price (snd item))
                      /\ 0 <= CartItem.quantity (fst item)) items ->
  not_negative acc ->
  not_negative
    (fold_left (fun sum item => Number.add sum (line_amount item)) items acc).
Proof.
  intros H. revert acc. induction H as [|item items [Hp Hq] _ IH]; intros acc Ha.
  - exact Ha.
  - simpl. apply IH. unfold line_amount. auto with sign.
Qed.

(** ** The digits [toFixed] prints *)
Lemma cents_toFixed_digits m e : toFixed_digits m e (Number.cents m e).
Proof.
  unfold toFixed_digits, Number.cents.
  destruct (0 <=? e) eqn:He; [reflexivity|].
  assert (HD : 0 < 2 ^ (- e)) by (apply Z.pow_pos_nonneg; lia).
  set (D := 2 ^ (- e)) in *.
  pose proof (Z.div_mod (200 * Zpos m + D) (2 * D) ltac:(lia)) as Hdm.
  pose proof (Z.mod_pos_bound (200 * Zpos m + D) (2 * D) ltac:(lia)) as Hb.
  set (n := (200 * Zpos m + D) / (2 * D)) in *.
  set (r := (200 * Zpos m + D) mod (2 * D)) in *.
  replace (D * (2 * n - 1)) with (2 * D * n - D) by ring.
  replace (D * (2 * n + 1)) with (2 * D * n + D) by ring.
  lia.
Qed.

Lemma cents_nonneg m e : 0 <= Number.cents m e.
Proof.
  unfold Number.cents. destruct (0 <=? e) eqn:He.
  - apply Z.mul_nonneg_nonneg; [lia|]. apply Z.pow_nonneg; lia.
  - apply Z.div_pos.
    + assert (0 < 2 ^ (- e)) by (apply Z.pow_pos_nonneg; lia). lia.
    + assert (0 < 2 ^ (- e)) by (apply Z.pow_pos_nonneg; lia). lia.
Qed.

(** ** The total *)




(** ** The store constraints along request sequences

    The hypotheses of the theorems on POST and checkout (fresh ids, foreign
    keys) hold in every state reached from a state where they hold. *)
Lemma item_fks_stable : stable item_fks.
Proof. intros d H; exact H. Qed.

Lemma item_fks_create uid : preserves item_fks (prisma.cart.create uid).
Proof.
  inside_query item_fks_stable.
  destruct (_ || _); [exact H|].
  destruct (mem _ _); [apply item_fks_with_carts_snoc, H | exact H].
Qed.

Lemma item_fks_upsert cid pid inc q :
  preserves item_fks (prisma.cartItem.upsert cid pid inc q).
Proof.
  inside_query item_fks_stable.
  destruct (negb (int32 inc && int32 q)); simpl; [exact H|].
  destruct (prisma.find_item cid pid d) as [i|]; simpl.
  - destruct (negb (int32 _)); simpl; [exact H|].
    apply (item_fks_with_items_update
             (CartItem.has_key cid pid) (fun j => CartItem.quantity j + inc)), H.
  - destruct (mem _ _); simpl; [exact H|].
    destruct (mem cid _) eqn:Hc; destruct (mem pid _) eqn:Hp; simpl; try exact H.
    apply item_fks_with_items_snoc; [exact H | |]; apply mem_In; assumption.
Qed.

Lemma item_fks_update iid q : preserves item_fks (prisma.cartItem.update iid q).
Proof.
  inside_query item_fks_stable.
  destruct (negb (int32 q)); simpl; [exact H|].
  destruct (mem _ _); simpl; [|exact H].
  apply (item_fks_with_items_update
           (fun j => (CartItem.id j =? iid)%string) (fun _ => q)), H.
Qed.

Lemma item_fks_delete iid : preserves item_fks (prisma.cartItem.delete iid).
Proof.
  inside_query item_fks_stable.
  destruct (mem _ _); simpl; [apply item_fks_with_items_filter|]; exact H.
Qed.

Lemma item_fks_delete_key cid pid :
  preserves item_fks (prisma.cartItem.delete_key cid pid).
Proof.
  inside_query item_fks_stable.
  destruct (prisma.find_item cid pid d); simpl;
    [apply item_fks_with_items_filter|]; exact H.
Qed.

Lemma item_fks_deleteMany cid : preserves item_fks (prisma.cartItem.deleteMany cid).
Proof.
  inside_query item_fks_stable.
  apply item_fks_with_items_filter, H.
Qed.

Lemma item_fks_invariant (rqs : list (Route * Request)) (d : Db) :
  item_fks d -> Forall item_fks (states rqs d).
Proof.
  apply states_preserve.
  - apply item_fks_stable.
  - apply item_fks_create.
  - intros cid pid q _; apply item_fks_upsert.
  - intros iid q _; apply item_fks_update.
  - apply item_fks_delete.
  - apply item_fks_delete_key.
  - apply item_fks_deleteMany.
Qed.

Lemma fresh_stable : stable fresh.
Proof. intros d H; exact H. Qed.

Lemma fresh_with_items_sub d l :
  fresh d -> incl (map CartItem.id l) (map CartItem.id (cartItems d)) ->
  fresh (prisma.with_items l (issued d) d).
Proof.
  intros Hfr Hsub n Hn. destruct (Hfr n Hn) as [Hc Hi].
  split; [exact Hc|]. simpl. intros Hin. apply Hi, Hsub, Hin.
Qed.

Lemma map_id_update (f : CartItem.t -> bool) (g : CartItem.t -> Z) l :
  map CartItem.id
      (map (fun j => if f j then CartItem.set_quantity (g j) j else j) l)
  = map CartItem.id l.
Proof.
  induction l as [|j l IH]; simpl; [reflexivity|].
  rewrite IH. destruct (f j); reflexivity.
Qed.

Lemma incl_map_filter {A B} (k : A -> B) (f : A -> bool) l :
  incl (map k (filter f l)) (map k l).
Proof.
  intros x Hx. apply in_map_iff in Hx as (a & <- & Ha).
  apply in_map, (proj1 (filter_In f a l) Ha).
Qed.

Lemma fresh_create uid : preserves fresh (prisma.cart.create uid).
Proof.
  inside_query fresh_stable.
  destruct (_ || _); [exact H|].
  destruct (mem _ _); [apply fresh_with_carts, H | exact H].
Qed.

Lemma fresh_upsert cid pid inc q :
  preserves fresh (prisma.cartItem.upsert cid pid inc q).
Proof.
  inside_query fresh_stable.
  destruct (negb (int32 inc && int32 q)); simpl; [exact H|].
  destruct (prisma.find_item cid pid d) as [i|]; simpl.
  - destruct (negb (int32 _)); simpl; [exact H|].
    apply fresh_with_items_sub; [exact H|]. rewrite map_id_update. apply incl_refl.
  - destruct (mem _ _); simpl; [exact H|].
    destruct (_ && _); simpl; [|exact H].
    apply fresh_with_items_snoc; [exact H | reflexivity].
Qed.

Lemma fresh_update iid q : preserves fresh (prisma.cartItem.update iid q).
Proof.
  inside_query fresh_stable.
  destruct (negb (int32 q)); simpl; [exact H|].
  destruct (mem _ _); simpl; [|exact H].
  apply fresh_with_items_sub; [exact H|].
  rewrite (map_id_update (fun j => (CartItem.id j =? iid)%string) (fun _ => q)).
  apply incl_refl.
Qed.

Lemma fresh_delete iid : preserves fresh (prisma.cartItem.delete iid).
Proof.
  inside_query fresh_stable.
  destruct (mem _ _); simpl; [|exact H].
  apply fresh_with_items_sub; [exact H | apply incl_map_filter].
Qed.

Lemma fresh_delete_key cid pid : preserves fresh (prisma.cartItem.delete_key cid pid).
Proof.
  inside_query fresh_stable.
  destruct (prisma.find_item cid pid d); simpl; [|exact H].
  apply fresh_with_items_sub; [exact H | apply incl_map_filter].
Qed.

Lemma fresh_deleteMany cid : preserves fresh (prisma.cartItem.deleteMany cid).
Proof.
  inside_query fresh_stable.
  apply fresh_with_items_sub; [exact H | apply incl_map_filter].
Qed.

Lemma fresh_invariant (rqs : list (Route * Request)) (d : Db) :
  fresh d -> Forall fresh (states rqs d).
Proof.
  apply states_preserve.
  - apply fresh_stable.
  - apply fresh_create.
  - intros cid pid q _; apply fresh_upsert.
  - intros iid q _; apply fresh_update.
  - apply fresh_delete.
  - apply fresh_delete_key.
  - apply fresh_deleteMany.
Qed.

(** ** The scenarios of the specification, run on the model *)

(** A: empty cart, add P1 (price 10.00) with delta +2: one line of 2, total 20. *)
Example scenario_A :
  ApiCart.handleAddToCart (request "POST" (json_body "cproduct0001" 2)) "u1" db_empty
  = (respond 200
       (JCart {| Cart.id := "c0"; Cart.userId := "u1" |}
              [(mk_item "c1" "c0" "cproduct0001" 2, P1)] (Number.of_Z 20)),
     {| users := [test_user]; products := [P1; P2];
        carts := [{| Cart.id := "c0"; Cart.userId := "u1" |}];
        cartItems := [mk_item "c1" "c0" "cproduct0001" 2];
        issued := 2; outages := [] |}).
Proof. vm_compute; reflexivity. Qed.

(** B and C: from three of P1, delta -5 deletes the line; total 0. *)
Example scenario_C :
  fst (ApiCart.handleAddToCart
         (request "POST" (json_body "cproduct0001" (-5))) "u1" db_three)
  = respond 200
      (JCart {| Cart.id := "c0"; Cart.userId := "u1" |} [] Number.zero).
Proof. vm_compute; reflexivity. Qed.

(** E: checkout on a user without lines. *)
Example scenario_E :
  fst (ApiOrders.handler (request "POST" JsUndefined) db_empty)
  = respond 400 (JError "Cart is empty").
Proof. vm_compute; reflexivity. Qed.

(** F: lines of 1 x 10.00 and 3 x 5.00: checkout returns 25.00. *)
Example scenario_F :
  fst (ApiOrders.handler (request "POST" JsUndefined) db_two_lines)
  = respond 200 (JOrder true (Number.of_Z 25)).
Proof. vm_compute; reflexivity. Qed.

(** Two of a product priced 199.99 (the seed's first price): 399.98. *)
Example total_of_seed_price :
  cart_total [(mk_item "c1" "c0" "cproduct0005" 2,
               mk_product "cproduct0005"
                          (S754_finite false 7036522574045512 (-45)))]
  = Number.of_cents false 39998.
Proof. vm_compute; reflexivity. Qed.

(** * Further properties of the routes *)

(** ** The catalogue and the cart rows along request sequences *)
Lemma on_catalogue_and_carts_stable I : on_catalogue_and_carts I -> stable I.
Proof. intros HI d H. exact (HI d (tick d) eq_refl eq_refl H). Qed.

Lemma on_catalogue_and_carts_items I l n :
  on_catalogue_and_carts I -> forall d, I d -> I (prisma.with_items l n d).
Proof.
  intros HI d H. exact (HI d (prisma.with_items l n d) eq_refl eq_refl H).
Qed.

Lemma states_preserve_on_carts I :
  on_catalogue_and_carts I ->
  (forall uid, preserves I (prisma.cart.create uid)) ->
  forall rqs d, I d -> Forall I (states rqs d).
Proof.
  intros HI Hcreate rqs d0.
  pose proof (on_catalogue_and_carts_stable HI) as Hs.
  apply states_preserve; try assumption.
  - intros cid pid q _. inside_query Hs.
    destruct (negb (int32 q && int32 q)); simpl; [exact H|].
    destruct (prisma.find_item cid pid d); simpl;
      [destruct (negb (int32 _)); simpl;
         [exact H | apply on_catalogue_and_carts_items; assumption]|].
    destruct (mem _ _); simpl; [exact H|].
    destruct (_ && _); simpl;
      [apply on_catalogue_and_carts_items; assumption | exact H].
  - intros iid q _. inside_query Hs.
    destruct (negb (int32 q)); simpl; [exact H|].
    destruct (mem _ _); simpl;
      [apply on_catalogue_and_carts_items; assumption | exact H].
  - intros iid. inside_query Hs.
    destruct (mem _ _); simpl;
      [apply on_catalogue_and_carts_items; assumption | exact H].
  - intros cid pid. inside_query Hs.
    destruct (prisma.find_item cid pid d); simpl;
      [apply on_catalogue_and_carts_items; assumption | exact H].
  - intros cid. inside_query Hs.
    apply on_catalogue_and_carts_items; assumption.
Qed.

(** X1: no sequence of requests to the two routes, whatever it holds and
    whatever the outage schedule, changes the product table. *)
Theorem catalogue_is_read_only (rqs : list (Route * Request)) (d : Db) :
  Forall (fun d' => products d' = products d) (states rqs d).
Proof.
  apply (@states_preserve_on_carts (fun d' => products d' = products d)).
  - intros d1 d2 Hp _ H. congruence.
  - intros uid. apply preserves_query; [intros x Hx; exact Hx|].
    intros d1 H; simpl. destruct (_ || _); [exact H|].
    destruct (mem _ _); exact H.
  - reflexivity.
Qed.

Lemma one_cart_per_user_create uid :
  preserves one_cart_per_user (prisma.cart.create uid).
Proof.
  apply preserves_query; [intros x Hx; exact Hx|].
  intros d H; unfold one_cart_per_user in *; simpl.
  destruct (mem (cuid (issued d)) _); simpl; [exact H|].
  destruct (mem uid (map Cart.userId (carts d))) eqn:Hm; simpl; [exact H|].
  destruct (mem uid (map User.id _)); simpl; [|exact H].
  rewrite map_app; simpl. apply NoDup_snoc; [exact H|].
  intros Hin. apply mem_In in Hin. congruence.
Qed.

(** X2: from a state with at most one cart row per user, every sequence of
    requests leaves at most one cart row per user after each request (the
    first POST of a user creates the row, no later request a second one). *)
Theorem one_cart_per_user_invariant (rqs : list (Route * Request)) (d : Db) :
  one_cart_per_user d -> Forall one_cart_per_user (states rqs d).
Proof.
  apply states_preserve_on_carts.
  - intros d1 d2 _ Hc. unfold one_cart_per_user. rewrite Hc. auto.
  - apply one_cart_per_user_create.
Qed.

Lemma one_cart_per_user_invariant_witness :
  Forall one_cart_per_user
         (states [(api_cart, request "POST" (json_body "cproduct0001" 2));
                  (api_cart, request "POST" (json_body "cproduct0002" 1));
                  (api_orders, request "POST" JsUndefined)] db_empty).
Proof.
  apply one_cart_per_user_invariant. constructor.
Defined.

Lemma carts_extend_refl d : carts_extend d d.
Proof. exists []. symmetry; apply app_nil_r. Qed.

Lemma carts_extend_states (rqs : list (Route * Request)) (d : Db) :
  Forall (carts_extend d) (states rqs d).
Proof.
  apply (@states_preserve_on_carts (carts_extend d)).
  - intros d1 d2 _ Hc [more H]. exists more. congruence.
  - intros uid. apply preserves_query; [intros x Hx; exact Hx|].
    intros d1 [more H]; simpl. destruct (_ || _); simpl; [exists more; exact H|].
    destruct (mem _ _); simpl; [|exists more; exact H].
    exists (more ++ [{| Cart.id := cuid (issued d1); Cart.userId := uid |}])%list.
    rewrite H, app_assoc. reflexivity.
  - apply carts_extend_refl.
Qed.

Lemma cart_rows_kept_step (rq : Route * Request) (d : Db) :
  carts_extend d (snd (serve rq d)).
Proof.
  pose proof (carts_extend_states [rq] d) as H. simpl in H.
  inversion H as [|? ? _ H']; subst. inversion H' as [|? ? Hd _]; subst. exact Hd.
Qed.

(** X3: cart rows are never deleted, changed or reordered: after each
    request of any sequence the cart table is the one before with rows
    appended (checkout too keeps the cart row). *)
Theorem cart_rows_are_kept (rqs : list (Route * Request)) (d : Db) :
  Forall (carts_extend d) (states rqs d).
Proof. apply carts_extend_states. Qed.

(** X4: referential integrity.  From a state where every line points at an
    existing cart row and an existing product, every sequence of requests
    leaves such a state after each request. *)
Theorem lines_reference_existing_rows (rqs : list (Route * Request)) (d : Db) :
  item_fks d -> Forall item_fks (states rqs d).
Proof. apply item_fks_invariant. Qed.

Lemma lines_reference_existing_rows_witness :
  Forall item_fks
         (states [(api_cart, request "POST" (json_body "cproduct0002" 2));
                  (api_cart, request "DELETE" (json_body "cproduct0001" 0))]
                 db_three).
Proof.
  apply lines_reference_existing_rows.
  exact (proj1 (proj2 (proj2 (proj2 db_three_ok)))).
Defined.

(** ** The status codes of the two routes *)
Lemma ensures_trivial {A} (P : Db -> Prop) (m : M A) : ensures P m (fun _ _ => True).
Proof. intros d _ a d' _. exact I. Qed.

Lemma try_catch_result {A} (m : M A) (h : Exn -> A) (P : A -> Prop) d :
  ensures (fun _ => True) m (fun a _ => P a) -> (forall e, P (h e)) ->
  P (fst (try_catch m h d)).
Proof.
  intros Hm Hh. unfold try_catch. specialize (Hm d I).
  destruct (m d) as [[a|e] d']; simpl; [exact (Hm a d' eq_refl) | apply Hh].
Qed.

Lemma ensures_skip {A B} (P : Db -> Prop) (m : M A) (k : A -> M B)
      (Q : B -> Db -> Prop) :
  (forall a, ensures (fun _ => True) (k a) Q) -> ensures P (bind m k) Q.
Proof.
  intros Hk. apply ensures_bind with (R := fun _ _ => True);
    [apply ensures_trivial | exact Hk].
Qed.

Lemma is_cart_response_status r : is_cart_response r -> status r = 200.
Proof. intros (c & rows & ->). reflexivity. Qed.

Lemma handleGetCart_status uid d :
  In (status (fst (ApiCart.handleGetCart uid d))) [200; 404; 500].
Proof.
  apply try_catch_result with (P := fun r => In (status r) [200; 404; 500]).
  - apply ensures_skip. intros [[c items]|]; apply ensures_ret; simpl; auto.
  - simpl; auto.
Qed.

Lemma handleAddToCart_status req uid d :
  In (status (fst (ApiCart.handleAddToCart req uid d))) [200; 400; 404; 500].
Proof.
  set (P := fun r => In (status r) [200; 400; 404; 500]).
  assert (Hr : forall A (m : M A),
             ensures (fun _ => True) (m ;;; ApiCart.respond_updated uid)
                     (fun r _ => P r)).
  { intros A m. eapply ensures_weaken; [apply ensures_then_respond_updated|].
    intros r d' Hc. unfold P. rewrite (is_cart_response_status Hc). simpl; auto. }
  apply try_catch_result with (P := P).
  - apply ensures_skip. intros [pid q].
    apply ensures_skip. intros [p|]; [|apply ensures_ret; unfold P; simpl; auto].
    apply ensures_skip. intros found. apply ensures_skip. intros c.
    destruct (q =? 0).
    { eapply ensures_weaken; [apply ensures_respond_updated|].
      intros r d' Hc. unfold P. rewrite (is_cart_response_status Hc). simpl; auto. }
    destruct (0 <? q); [apply Hr|].
    apply ensures_skip. intros [e|]; [apply Hr|].
    apply ensures_ret; unfold P; simpl; auto.
  - intros []; unfold P; simpl; auto.
Qed.

Lemma handleRemoveFromCart_status req uid d :
  In (status (fst (ApiCart.handleRemoveFromCart req uid d))) [200; 400; 404; 500].
Proof.
  set (P := fun r => In (status r) [200; 400; 404; 500]).
  apply try_catch_result with (P := P); [|intros e; unfold P; simpl; auto].
  assert (Hgo : forall b, ensures (fun _ => True)
    (match prop b "productId" with
     | JsString (String a s) =>
         cart <- prisma.cart.findUnique uid ;;
         match cart with
         | None => ret (respond 404 (JError "Cart not found"))
         | Some c =>
             prisma.cartItem.delete_key (Cart.id c) (String a s) ;;;
             ApiCart.respond_updated uid
         end
     | _ =>
         ret (respond 400
                (JInvalid "Validation failed"
                   [{| path := [];
                       message := "productId is required and must be a string" |}]))
     end) (fun r _ => P r)).
  { intros b. destruct (prop b "productId") as [| | | |[|a s]| |];
      try (apply ensures_ret; unfold P; simpl; auto).
    apply ensures_skip. intros [c|]; [|apply ensures_ret; unfold P; simpl; auto].
    eapply ensures_weaken; [apply ensures_then_respond_updated|].
    intros r d' Hc. unfold P. rewrite (is_cart_response_status Hc). simpl; auto. }
  destruct (body req); try apply ensures_throw; apply Hgo.
Qed.

(** X5: the cart route answers with status 200, 400, 401, 404, 405 or 500
    and no other, whatever the request and the outage schedule; it answers
    401 exactly when the request has no session (before it looks at the
    method), and with a session 405 exactly when the method is not GET, POST
    or DELETE. *)
Theorem cart_route_statuses (req : Request) (d : Db) :
  let r := fst (ApiCart.handler req d) in
  In (status r) [200; 400; 401; 404; 405; 500]
  /\ (status r = 401 <-> session req = None)
  /\ (session req <> None ->
      (status r = 405 <->
       method req <> "GET" /\ method req <> "POST" /\ method req <> "DELETE")).
Proof.
  unfold ApiCart.handler. destruct (session req) as [uid|]; simpl.
  2:{ split; [auto 10|]. split; [tauto|]. intros H; congruence. }
  destruct (String.eqb_spec (method req) "GET") as [Hg|Hg].
  { pose proof (handleGetCart_status uid d) as H. simpl in H.
    repeat split; try congruence; try tauto;
      intuition (try congruence; try lia). }
  destruct (String.eqb_spec (method req) "POST") as [Hp|Hp].
  { pose proof (handleAddToCart_status req uid d) as H. simpl in H.
    repeat split; try congruence; try tauto;
      intuition (try congruence; try lia). }
  destruct (String.eqb_spec (method req) "DELETE") as [Hd|Hd].
  { pose proof (handleRemoveFromCart_status req uid d) as H. simpl in H.
    repeat split; try congruence; try tauto;
      intuition (try congruence; try lia). }
  simpl. repeat split; try congruence; try tauto; auto 10; intros; lia.
Qed.

(** X6: the orders route answers with status 200, 400, 401, 405 or 500 and
    no other; it answers 405 exactly when the method is not POST (before it
    looks at the session), and to a POST 401 exactly when there is no
    session. *)
Theorem orders_route_statuses (req : Request) (d : Db) :
  let r := fst (ApiOrders.handler req d) in
  In (status r) [200; 400; 401; 405; 500]
  /\ (status r = 405 <-> method req <> "POST")
  /\ (method req = "POST" -> (status r = 401 <-> session req = None)).
Proof.
  unfold ApiOrders.handler.
  destruct (String.eqb_spec (method req) "POST") as [Hp|Hp]; simpl.
  2:{ split; [auto 10|]. split; [tauto|]. intros; contradiction. }
  destruct (session req) as [uid|]; simpl.
  2:{ split; [auto 10|]. split; [split; [discriminate | contradiction]|].
      intros _; tauto. }
  assert (H : In (status (fst (try_catch
            (cart <- prisma.cart.findUnique_include uid ;;
             match cart with
             | None | Some (_, []) => ret (respond 400 (JError "Cart is empty"))
             | Some (c, items) =>
                 let total := reduce_total items in
                 prisma.cartItem.deleteMany (Cart.id c) ;;;
                 ret (respond 200 (JOrder true (Number.toFixed2 total)))
             end)
            (fun _ => respond 500 (JError "Failed to create order")) d)))
            [200; 400; 500]).
  { apply try_catch_result with (P := fun r => In (status r) [200; 400; 500]);
      [|simpl; auto].
    apply ensures_skip. intros [[c [|i items]]|];
      try (apply ensures_ret; simpl; auto).
    apply ensures_skip. intros _. apply ensures_ret; simpl; auto. }
  simpl in H.
  repeat split; try congruence; try tauto;
    intuition (try congruence; try lia).
Qed.

(** ** Values and exceptions along a computation *)
Lemma hoare_ret {A} (P : Db -> Prop) (a : A) (Q : A -> Db -> Prop) E :
  (forall d, P d -> Q a d) -> hoare P (ret a) Q E.
Proof. intros H d Hd. apply H, Hd. Qed.

Lemma hoare_throw {A} (P : Db -> Prop) e (Q : A -> Db -> Prop) (E : Db -> Prop) :
  (forall d, P d -> E d) -> hoare P (throw e) Q E.
Proof. intros H d Hd. apply H, Hd. Qed.

Lemma hoare_lift {A} (P : Db -> Prop) (o : Outcome A) (Q : A -> Db -> Prop)
      (E : Db -> Prop) :
  (forall d, P d -> match o with Value a => Q a d | Throw _ => E d end) ->
  hoare P (lift o) Q E.
Proof. intros H d Hd. specialize (H d Hd). unfold lift. destruct o; exact H. Qed.

Lemma hoare_bind {A B} (P : Db -> Prop) (m : M A) (k : A -> M B)
      (R : A -> Db -> Prop) (Q : B -> Db -> Prop) (E : Db -> Prop) :
  hoare P m R E -> (forall a, hoare (R a) (k a) Q E) -> hoare P (bind m k) Q E.
Proof.
  intros Hm Hk d Hd. unfold bind. specialize (Hm d Hd).
  destruct (m d) as [[a|e] d1]; [exact (Hk a d1 Hm) | exact Hm].
Qed.

Lemma hoare_conseq {A} (P P' : Db -> Prop) (m : M A) (Q Q' : A -> Db -> Prop)
      (E E' : Db -> Prop) :
  hoare P' m Q' E' ->
  (forall d, P d -> P' d) -> (forall a d, Q' a d -> Q a d) ->
  (forall d, E' d -> E d) -> hoare P m Q E.
Proof.
  intros Hm HP HQ HE d Hd. specialize (Hm d (HP d Hd)).
  destruct (m d) as [[a|e] d1]; auto.
Qed.

Lemma hoare_read {A} (P : Db -> Prop) (g : Db -> A) :
  stable P ->
  hoare P (query (fun d => (Value (g d), d))) (fun a d' => P d' /\ a = g d') P.
Proof.
  intros Hs d Hd. unfold query.
  destruct (outages d) as [|[|] rest]; simpl; auto.
Qed.

Lemma hoare_preserves {A} (I : Db -> Prop) (m : M A) :
  preserves I m -> hoare I m (fun _ => I) I.
Proof.
  intros Hm d Hd. specialize (Hm d Hd). destruct (m d) as [[a|e] d1]; exact Hm.
Qed.

Lemma hoare_try_catch {A} (P : Db -> Prop) (m : M A) (h : Exn -> A)
      (F : Db -> Prop) d :
  hoare P m (fun _ => F) F -> P d -> F (snd (try_catch m h d)).
Proof.
  intros Hm Hd. unfold try_catch. specialize (Hm d Hd).
  destruct (m d) as [[a|e] d1]; exact Hm.
Qed.

(** ** Removal: validation and frame *)

(** X7: a DELETE whose body carries no non-empty string [productId] sends
    no query and changes nothing: it answers 400 "Validation failed", or
    500 when the body itself is null or undefined. *)
Theorem remove_rejects_without_query (req : Request) (userId : string) (d : Db) :
  nonempty_string (prop (body req) "productId") = false ->
  ApiCart.handleRemoveFromCart req userId d
  = (if nullish (body req)
     then respond 500 (JError "Failed to remove from cart")
     else respond 400
            (JInvalid "Validation failed"
               [{| path := [];
                   message := "productId is required and must be a string" |}]),
     d).
Proof.
  intros H. unfold ApiCart.handleRemoveFromCart, try_catch.
  destruct (body req) eqn:Hb; simpl nullish; cbv iota; try reflexivity;
    destruct (prop _ "productId") as [| | | |[|a s]| |];
    try reflexivity; discriminate.
Qed.

Lemma remove_rejects_without_query_witness :
  ApiCart.handleRemoveFromCart
    (request "DELETE" (JsObject [("productId", JsNumber (Number.of_Z 7))]))
    "u1" db_three
  = (respond 400
       (JInvalid "Validation failed"
          [{| path := [];
              message := "productId is required and must be a string" |}]),
     db_three).
Proof.
  apply (@remove_rejects_without_query
           (request "DELETE" (JsObject [("productId", JsNumber (Number.of_Z 7))]))
           "u1" db_three).
  reflexivity.
Defined.

(** X8: on a reachable database, a DELETE naming a product that has a line
    in the user's cart answers 200 with the re-read cart and removes the
    lines of that product in that cart; every other line, the cart rows and
    the catalogue are as before. *)
Theorem remove_deletes_the_line (req : Request) (userId : string) (d : Db)
        (a : ascii) (s : string) (c : Cart.t) (i : CartItem.t) :
  healthy d -> item_fks d ->
  nullish (body req) = false ->
  prop (body req) "productId" = JsString (String a s) ->
  prisma.find_cart userId d = Some c ->
  prisma.find_item (Cart.id c) (String a s) d = Some i ->
  let d' := prisma.with_items (other_lines (Cart.id c) (String a s) d) (issued d) d in
  exists rows,
    ApiCart.handleRemoveFromCart req userId d
    = (respond 200 (JCart c rows (cart_total rows)), d')
    /\ map fst rows = prisma.items_of (Cart.id c) d'
    /\ lines_of (Cart.id c) (String a s) d' = [].
Proof.
  intros H Hfk Hn Hp Hc Hf d'.
  edestruct (respond_updated_run userId) with (d := d') (c := c)
    as (rows & Hm & Hr);
    [exact H | apply item_fks_with_items_filter, Hfk | exact Hc |].
  exists rows. split; [|split; [exact Hm|]].
  - unfold ApiCart.handleRemoveFromCart, try_catch.
    destruct (body req); try discriminate; rewrite Hp;
      rewrite (bind_value _ _ _ (cart_findUnique_run userId H)), Hc;
      rewrite (bind_value _ _ _ (delete_key_run _ _ H Hf));
      fold (other_lines (Cart.id c) (String a s) d); fold d';
      rewrite Hr; reflexivity.
  - unfold lines_of, d', other_lines; simpl. apply filter_negb_nil.
Qed.

Lemma remove_deletes_the_line_witness :
  exists rows,
    ApiCart.handleRemoveFromCart
      (request "DELETE" (JsObject [("productId", JsString "cproduct0002")]))
      "u1" db_two_lines
    = (respond 200
         (JCart {| Cart.id := "c0"; Cart.userId := "u1" |} rows (cart_total rows)),
       prisma.with_items (other_lines "c0" "cproduct0002" db_two_lines)
                         (issued db_two_lines) db_two_lines)
    /\ map fst rows
       = prisma.items_of "c0"
           (prisma.with_items (other_lines "c0" "cproduct0002" db_two_lines)
                              (issued db_two_lines) db_two_lines)
    /\ lines_of "c0" "cproduct0002"
         (prisma.with_items (other_lines "c0" "cproduct0002" db_two_lines)
                            (issued db_two_lines) db_two_lines) = [].
Proof.
  destruct db_two_lines_ok as (H & _ & _ & Hfk & _).
  apply (@remove_deletes_the_line
           (request "DELETE" (JsObject [("productId", JsString "cproduct0002")]))
           "u1" db_two_lines "c" "product0002"
           {| Cart.id := "c0"; Cart.userId := "u1" |}
           (mk_item "c2" "c0" "cproduct0002" 3) H Hfk);
    reflexivity.
Defined.

Lemma only_named_line_removed_stable uid b d0 :
  stable (only_named_line_removed uid b d0).
Proof. intros d H; exact H. Qed.

(** A DELETE removes at most the lines of the named product in the user's
    cart. *)
Lemma handleRemoveFromCart_frame (req : Request) (userId : string) (d : Db) :
  only_named_line_removed userId (body req) d
    (snd (ApiCart.handleRemoveFromCart req userId d)).
Proof.
  set (F := only_named_line_removed userId (body req) d).
  assert (HF0 : forall x, same_rows d x -> F x).
  { intros x (Hp & Hc & Hi). split; [exact Hp|]. split; [exact Hc|]. left; exact Hi. }
  assert (Hgo : hoare (same_rows d)
    (match prop (body req) "productId" with
     | JsString (String a s) =>
         cart <- prisma.cart.findUnique userId ;;
         match cart with
         | None => ret (respond 404 (JError "Cart not found"))
         | Some c =>
             prisma.cartItem.delete_key (Cart.id c) (String a s) ;;;
             ApiCart.respond_updated userId
         end
     | _ =>
         ret (respond 400
                (JInvalid "Validation failed"
                   [{| path := [];
                       message := "productId is required and must be a string" |}]))
     end) (fun _ => F) F).
  { destruct (prop (body req) "productId") as [| | | |[|a s]| |] eqn:Hp;
      try (apply hoare_ret; exact HF0).
    apply hoare_bind
      with (R := fun cart x => same_rows d x /\ cart = prisma.find_cart userId x).
    { eapply hoare_conseq;
        [apply (hoare_read (prisma.find_cart userId)), same_rows_stable
        | intros ? Hx; exact Hx | intros ? ? Hx; exact Hx | exact HF0]. }
    intros [c|]; [|apply hoare_ret; intros x [Hx _]; exact (HF0 x Hx)].
    apply hoare_bind with (R := fun _ => F).
    2:{ intros _. apply hoare_preserves, respond_updated_preserves.
        apply only_named_line_removed_stable. }
    intros x [(Hpx & Hcx & Hix) Hfind].
    unfold prisma.cartItem.delete_key, query.
    assert (Hc0 : prisma.find_cart userId d = Some c)
      by (unfold prisma.find_cart in *; rewrite <- Hcx; auto).
    assert (Hdel : forall n o,
      F {| users := users x; products := products x; carts := carts x;
           cartItems := filter (fun j => negb (CartItem.has_key (Cart.id c)
                                                 (String a s) j)) (cartItems x);
           issued := n; outages := o |}).
    { intros n o. split; [exact Hpx|]. split; [exact Hcx|]. right.
      exists c, (String a s). split; [exact Hp|]. split; [exact Hc0|].
      unfold other_lines; simpl. rewrite Hix. reflexivity. }
    destruct (outages x) as [|[|] rest]; simpl;
      try (apply HF0; repeat split; assumption);
      (match goal with
       | |- context [prisma.find_item ?k1 ?k2 ?y] =>
           destruct (prisma.find_item k1 k2 y)
       end; simpl; [apply Hdel | apply HF0; repeat split; assumption]). }
  unfold ApiCart.handleRemoveFromCart.
  apply hoare_try_catch with (P := same_rows d); [|apply same_rows_refl].
  destruct (body req); try (apply hoare_throw; exact HF0); exact Hgo.
Qed.

(** X9: whatever the request body and the outage schedule, a DELETE leaves
    the catalogue and the cart rows as they were, and the line table too,
    unless the user had a cart and the body names a product: then at most
    the lines of that product in that cart are gone. *)
Theorem remove_changes_one_line (req : Request) (userId : string) (d : Db) :
  only_named_line_removed userId (body req) d
    (snd (ApiCart.handleRemoveFromCart req userId d)).
Proof. apply handleRemoveFromCart_frame. Qed.

(** ** POST: frame *)
Lemma NoDup_map_inj {A B} (k : A -> B) l x y :
  NoDup (map k l) -> In x l -> In y l -> k x = k y -> x = y.
Proof.
  induction l as [|a l IH]; simpl; [contradiction|].
  intros Hn Hx Hy He. inversion Hn as [|? ? Ha Hl]; subst.
  destruct Hx as [->|Hx]; destruct Hy as [->|Hy]; auto.
  - exfalso. apply Ha. rewrite He. apply in_map, Hy.
  - exfalso. apply Ha. rewrite <- He. apply in_map, Hx.
Qed.

Lemma filter_map_fixed {A} (f : A -> bool) (g : A -> A) l :
  (forall x, In x l -> f (g x) = f x /\ (f x = true -> g x = x)) ->
  filter f (map g l) = filter f l.
Proof.
  induction l as [|a l IH]; simpl; intros H; [reflexivity|].
  destruct (H a (or_introl eq_refl)) as [H1 H2]. rewrite H1.
  rewrite IH by (intros x Hx; apply H; right; exact Hx).
  destruct (f a) eqn:Hf; [rewrite (H2 eq_refl)|]; reflexivity.
Qed.

Lemma filter_filter_in {A} (f g : A -> bool) l :
  (forall x, In x l -> f x = true -> g x = true) ->
  filter f (filter g l) = filter f l.
Proof.
  induction l as [|a l IH]; simpl; intros H; [reflexivity|].
  rewrite <- IH by (intros x Hx; apply H; right; exact Hx).
  destruct (g a) eqn:Hg; simpl; [reflexivity|].
  destruct (f a) eqn:Hf; [|reflexivity].
  rewrite (H a (or_introl eq_refl) Hf) in Hg. discriminate.
Qed.

Lemma other_lines_increment cid pid inc l :
  filter (fun i => negb (CartItem.has_key cid pid i))
         (map (fun j => if CartItem.has_key cid pid j
                        then CartItem.set_quantity (CartItem.quantity j + inc) j
                        else j) l)
  = filter (fun i => negb (CartItem.has_key cid pid i)) l.
Proof.
  apply filter_map_fixed. intros x _.
  destruct (CartItem.has_key cid pid x) eqn:Hk; simpl.
  - rewrite has_key_set_quantity, Hk. split; [reflexivity | discriminate].
  - rewrite Hk. auto.
Qed.

Lemma other_lines_snoc cid pid l i :
  CartItem.has_key cid pid i = true ->
  filter (fun i => negb (CartItem.has_key cid pid i)) (l ++ [i])
  = filter (fun i => negb (CartItem.has_key cid pid i)) l.
Proof.
  intros Hk. rewrite filter_app. simpl. rewrite Hk. simpl. apply app_nil_r.
Qed.

Lemma other_lines_update cid pid q l e :
  NoDup (map CartItem.id l) ->
  find (CartItem.has_key cid pid) l = Some e ->
  filter (fun i => negb (CartItem.has_key cid pid i))
         (map (fun j => if (CartItem.id j =? CartItem.id e)%string
                        then CartItem.set_quantity q j else j) l)
  = filter (fun i => negb (CartItem.has_key cid pid i)) l.
Proof.
  intros Hn Hf. apply find_some in Hf as [He Hk].
  apply filter_map_fixed. intros x Hx.
  destruct (String.eqb_spec (CartItem.id x) (CartItem.id e)) as [Hid|Hid].
  - rewrite (@NoDup_map_inj _ _ CartItem.id l x e Hn Hx He Hid).
    rewrite has_key_set_quantity, Hk. split; [reflexivity | discriminate].
  - auto.
Qed.

Lemma other_lines_delete cid pid l e :
  NoDup (map CartItem.id l) ->
  find (CartItem.has_key cid pid) l = Some e ->
  filter (fun i => negb (CartItem.has_key cid pid i))
         (filter (fun j => negb (CartItem.id j =? CartItem.id e)%string) l)
  = filter (fun i => negb (CartItem.has_key cid pid i)) l.
Proof.
  intros Hn Hf. apply find_some in Hf as [He Hk].
  apply filter_filter_in. intros x Hx Hnk.
  destruct (String.eqb_spec (CartItem.id x) (CartItem.id e)) as [Hid|Hid];
    [|reflexivity].
  rewrite (@NoDup_map_inj _ _ CartItem.id l x e Hn Hx He Hid), Hk in Hnk. discriminate.
Qed.

Lemma only_own_line_changed_stable uid d0 : stable (only_own_line_changed uid d0).
Proof. intros d H; exact H. Qed.

(** The state once the user's cart [c] is found or created: nothing else has
    changed yet. *)
Lemma hoare_resolve uid d0 (F : Db -> Prop) found :
  (forall x, same_rows d0 x -> F x) ->
  hoare (fun x => same_rows d0 x /\ found = prisma.find_cart uid x)
        (match found with
         | Some c => ret c
         | None => prisma.cart.create uid
         end)
        (fun c x => products x = products d0 /\ cartItems x = cartItems d0
                    /\ own_cart_added uid d0 x /\ prisma.find_cart uid x = Some c)
        F.
Proof.
  intros HF0. destruct found as [c|].
  - apply hoare_ret. intros x [(Hp & Hc & Hi) Hf].
    split; [exact Hp|]. split; [exact Hi|]. split; [left; exact Hc | auto].
  - intros x [(Hp & Hc & Hi) Hf]. unfold prisma.cart.create, query.
    assert (Hn0 : prisma.find_cart uid d0 = None)
      by (unfold prisma.find_cart in *; rewrite <- Hc; symmetry; exact Hf).
    assert (Hgo : forall o,
      match
        (let c := {| Cart.id := cuid (issued x); Cart.userId := uid |} in
         if mem (Cart.id c) (map Cart.id (carts x))
            || mem uid (map Cart.userId (carts x))
         then (Throw (PrismaError "P2002"),
               {| users := users x; products := products x; carts := carts x;
                  cartItems := cartItems x; issued := issued x; outages := o |})
         else if mem uid (map User.id (users x))
         then (Value c,
               prisma.with_carts (carts x ++ [c]) (S (issued x))
                 {| users := users x; products := products x; carts := carts x;
                    cartItems := cartItems x; issued := issued x; outages := o |})
         else (Throw (PrismaError "P2003"),
               {| users := users x; products := products x; carts := carts x;
                  cartItems := cartItems x; issued := issued x; outages := o |}))
      with
      | (Value c, x') =>
          products x' = products d0 /\ cartItems x' = cartItems d0
          /\ own_cart_added uid d0 x' /\ prisma.find_cart uid x' = Some c
      | (Throw _, x') => F x'
      end).
    { intros o. cbv zeta. destruct (_ || _); simpl.
      { apply HF0. repeat split; assumption. }
      destruct (mem uid _); simpl.
      2:{ apply HF0. repeat split; assumption. }
      split; [exact Hp|]. split; [exact Hi|]. split.
      - right. split; [exact Hn0|].
        exists {| Cart.id := cuid (issued x); Cart.userId := uid |}.
        split; [reflexivity | rewrite Hc; reflexivity].
      - unfold prisma.find_cart; simpl.
        rewrite (find_snoc _ _ _ (eq_sym Hf)). simpl.
        rewrite String.eqb_refl. reflexivity. }
    destruct x as [xu xp xc xi xn [|[|] rest]]; simpl in *;
      [apply Hgo | apply HF0; repeat split; assumption | apply Hgo].
Qed.

(** Closes a goal on a state whose rows are those of [x], given [Hx] on [x]
    and the two lemmas [HFR] and [Hkept] of the proof below. *)
Ltac kept c Hx :=
  match goal with
  | HFR : forall c x, _ -> _, Hkept : forall c x o, _ -> _ |- _ =>
      first [apply (HFR c); exact Hx | apply (Hkept c); exact Hx]
  end.

(** A POST changes at most the lines of one product in the user's cart. *)
Lemma handleAddToCart_frame (req : Request) (userId : string) (d : Db) :
  unique_line_ids d ->
  only_own_line_changed userId d (snd (ApiCart.handleAddToCart req userId d)).
Proof.
  intros Hids.
  set (F := only_own_line_changed userId d).
  set (R := fun (c : Cart.t) (x : Db) =>
              products x = products d /\ cartItems x = cartItems d
              /\ own_cart_added userId d x /\ prisma.find_cart userId x = Some c).
  assert (HF0 : forall x, same_rows d x -> F x).
  { intros x (Hp & Hc & Hi). split; [exact Hp|]. split; [|left; exact Hi].
    left; exact Hc. }
  assert (HFR : forall c x, R c x -> F x).
  { intros c x (Hp & Hi & Hc & _). split; [exact Hp|]. split; [exact Hc|].
    left; exact Hi. }
  assert (Hrespond : forall P : Db -> Prop, (forall x, P x -> F x) ->
            hoare P (ApiCart.respond_updated userId) (fun _ => F) F).
  { intros P HP. eapply hoare_conseq;
      [apply hoare_preserves, respond_updated_preserves,
         only_own_line_changed_stable
      | exact HP | intros ? ? Hx; exact Hx | intros ? Hx; exact Hx]. }
  assert (Hwritten : forall c pid x l n o,
            R c x ->
            filter (fun i => negb (CartItem.has_key (Cart.id c) pid i)) l
            = filter (fun i => negb (CartItem.has_key (Cart.id c) pid i))
                     (cartItems x) ->
            F {| users := users x; products := products x; carts := carts x; cartItems := l;
                 issued := n; outages := o |}).
  { intros c pid x l n o (Hp & Hi & Hc & Hf) Hl.
    split; [exact Hp|]. split; [exact Hc|]. right. exists c, pid.
    split; [exact Hf|]. unfold other_lines; simpl. rewrite Hl, Hi. reflexivity. }
  assert (Hkept : forall c x o,
            R c x ->
            F {| users := users x; products := products x; carts := carts x;
                 cartItems := cartItems x; issued := issued x; outages := o |}).
  { intros c x o Hx. apply (HFR c). exact Hx. }
  unfold ApiCart.handleAddToCart.
  apply hoare_try_catch with (P := same_rows d); [|apply same_rows_refl].
  apply hoare_bind with (R := fun _ x => same_rows d x).
  { apply hoare_lift. intros x Hx. destruct (cartItemSchema_parse _); auto. }
  intros [pid q].
  apply hoare_bind with (R := fun _ x => same_rows d x).
  { eapply hoare_conseq;
      [apply (hoare_read (prisma.find_product pid)), same_rows_stable
      | intros ? Hx; exact Hx | intros ? ? [Hx _]; exact Hx | exact HF0]. }
  intros [p|]; [|apply hoare_ret; exact HF0].
  apply hoare_bind
    with (R := fun found x => same_rows d x /\ found = prisma.find_cart userId x).
  { eapply hoare_conseq;
      [apply (hoare_read (prisma.find_cart userId)), same_rows_stable
      | intros ? Hx; exact Hx | intros ? ? Hx; exact Hx | exact HF0]. }
  intros found.
  apply hoare_bind with (R := R); [apply hoare_resolve; exact HF0|].
  intros c. destruct (q =? 0); [apply Hrespond, HFR|].
  destruct (0 <? q).
  - apply hoare_bind with (R := fun _ => F); [|intros _; apply Hrespond; auto].
    intros x Hx. unfold prisma.cartItem.upsert, query.
    destruct (outages x) as [|[|] rest]; simpl; try (kept c Hx);
      (destruct (negb (int32 q && int32 q)); simpl; [kept c Hx|];
       match goal with
       | |- context [prisma.find_item ?k1 ?k2 ?y] =>
           destruct (prisma.find_item k1 k2 y) as [i|]
       end; simpl;
       [destruct (negb (int32 _)); simpl; [kept c Hx|];
        apply (Hwritten c pid); [exact Hx | apply other_lines_increment]|];
       destruct (mem _ _); simpl; [kept c Hx|];
       destruct (_ && _); simpl; [|kept c Hx];
       apply (Hwritten c pid); [exact Hx|]; apply other_lines_snoc;
       unfold CartItem.has_key; simpl; rewrite !String.eqb_refl; reflexivity).
  - apply hoare_bind
      with (R := fun e x => R c x /\ e = prisma.find_item (Cart.id c) pid x).
    { eapply hoare_conseq;
        [apply hoare_read with (P := R c) (g := prisma.find_item (Cart.id c) pid);
         intros x Hx; exact Hx
        | intros ? Hx; exact Hx | intros ? ? Hx; exact Hx | apply HFR]. }
    intros [e|]; [|apply hoare_ret; intros x [Hx _]; exact (HFR c x Hx)].
    apply hoare_bind with (R := fun _ => F); [|intros _; apply Hrespond; auto].
    intros x [Hx He].
    assert (Hn : NoDup (map CartItem.id (cartItems x))).
    { destruct Hx as (_ & Hi & _). rewrite Hi. exact Hids. }
    symmetry in He. unfold prisma.find_item in He.
    destruct (0 <? CartItem.quantity e + q).
    + unfold prisma.cartItem.update, query.
      destruct (outages x) as [|[|] rest]; simpl; try (kept c Hx);
        (destruct (negb (int32 _)); simpl; [kept c Hx|];
         destruct (mem _ _); simpl; [|kept c Hx];
         apply (Hwritten c pid); [exact Hx|];
         apply other_lines_update; assumption).
    + unfold prisma.cartItem.delete, query.
      destruct (outages x) as [|[|] rest]; simpl; try (kept c Hx);
        (destruct (mem _ _); simpl; [|kept c Hx];
         apply (Hwritten c pid); [exact Hx|];
         apply other_lines_delete; assumption).
Qed.

(** X10: whatever the request body and the outage schedule, a POST by a
    user leaves the catalogue as it was, leaves the cart table as it was or
    with one row added after the others, a cart of that user, who had none,
    and changes no line except the lines of one product in that user's cart:
    lines of other products and of other carts are exactly as before.  (Line
    ids are unique, as the primary key makes them.) *)
Theorem post_changes_one_line (req : Request) (userId : string) (d : Db) :
  unique_line_ids d ->
  only_own_line_changed userId d (snd (ApiCart.handleAddToCart req userId d)).
Proof. apply handleAddToCart_frame. Qed.

Lemma post_changes_one_line_witness :
  only_own_line_changed "u1" db_two_lines
    (snd (ApiCart.handleAddToCart
            (request "POST" (json_body "cproduct0002" (-3))) "u1" db_two_lines)).
Proof.
  apply post_changes_one_line.
  repeat constructor; simpl; intuition discriminate.
Defined.

(** ** Checkout: frame *)
Lemma only_own_cart_cleared_stable uid d0 : stable (only_own_cart_cleared uid d0).
Proof. intros d H; exact H. Qed.

Lemma hoare_findUnique_include uid d0 (F : Db -> Prop) :
  (forall x, same_rows d0 x -> F x) ->
  hoare (same_rows d0) (prisma.cart.findUnique_include uid)
        (fun res x => same_rows d0 x
                      /\ forall c rows, res = Some (c, rows) ->
                                        prisma.find_cart uid d0 = Some c)
        F.
Proof.
  intros HF0 x Hx. unfold prisma.cart.findUnique_include, query.
  assert (Hc : forall y, carts y = carts x ->
                 prisma.find_cart uid y = prisma.find_cart uid d0).
  { intros y Hy. unfold prisma.find_cart. rewrite Hy.
    destruct Hx as (_ & -> & _). reflexivity. }
  assert (Hgo : forall y, same_rows d0 y -> carts y = carts x ->
    match
      match prisma.find_cart uid y with
      | Some c =>
          match prisma.include_product y (prisma.items_of (Cart.id c) y) with
          | Some rows => (Value (Some (c, rows)), y)
          | None => (Throw (PrismaError "P2032"), y)
          end
      | None => (Value None, y)
      end
    with
    | (Value res, x') =>
        same_rows d0 x'
        /\ forall c rows, res = Some (c, rows) -> prisma.find_cart uid d0 = Some c
    | (Throw _, x') => F x'
    end).
  { intros y Hy Hcy. rewrite (Hc y Hcy).
    destruct (prisma.find_cart uid d0) as [c|]; [|split; [exact Hy | discriminate]].
    destruct (prisma.include_product y _); [|apply HF0, Hy].
    split; [exact Hy|]. intros c1 rows1 [= <- _]. reflexivity. }
  destruct (outages x) as [|[|] rest]; simpl.
  - apply Hgo; [exact Hx | reflexivity].
  - apply HF0. exact (same_rows_trans Hx (same_rows_tick x)).
  - apply Hgo; [exact (same_rows_trans Hx (same_rows_tick x)) | reflexivity].
Qed.

(** A checkout clears at most the user's own cart. *)
Lemma orders_handler_frame (req : Request) (userId : string) (d : Db) :
  session req = Some userId ->
  only_own_cart_cleared userId d (snd (ApiOrders.handler req d)).
Proof.
  intros Hs.
  set (F := only_own_cart_cleared userId d).
  assert (HF0 : forall x, same_rows d x -> F x).
  { intros x (Hp & Hc & Hi). split; [exact Hp|]. split; [exact Hc|]. left; exact Hi. }
  unfold ApiOrders.handler. destruct (negb _); [apply HF0, same_rows_refl|].
  rewrite Hs.
  apply hoare_try_catch with (P := same_rows d); [|apply same_rows_refl].
  eapply hoare_bind; [apply hoare_findUnique_include; exact HF0|].
  intros [[c [|i items]]|]; try (apply hoare_ret; intros x [Hx _]; exact (HF0 x Hx)).
  cbv zeta. apply hoare_bind with (R := fun _ => F);
    [|intros _; apply hoare_ret; auto].
  intros x [(Hp & Hc & Hi) Hfind]. specialize (Hfind c (i :: items) eq_refl).
  unfold prisma.cartItem.deleteMany, query.
  assert (Hdel : forall n o,
    F {| users := users x; products := products x; carts := carts x;
         cartItems := filter (fun j => negb (CartItem.cartId j =? Cart.id c)%string)
                             (cartItems x);
         issued := n; outages := o |}).
  { intros n o. split; [exact Hp|]. split; [exact Hc|]. right.
    exists c. split; [exact Hfind|]. simpl. rewrite Hi. reflexivity. }
  destruct (outages x) as [|[|] rest]; simpl;
    [apply Hdel | apply HF0; repeat split; assumption | apply Hdel].
Qed.

(** ** Isolation between users *)
Lemma items_of_through_other_lines cid cid' pid l :
  cid' <> cid ->
  filter (fun i => (CartItem.cartId i =? cid')%string)
         (filter (fun i => negb (CartItem.has_key cid pid i)) l)
  = filter (fun i => (CartItem.cartId i =? cid')%string) l.
Proof.
  intros Hne. apply filter_filter_weaken. intros x Hx.
  apply String.eqb_eq in Hx. unfold CartItem.has_key.
  destruct (String.eqb_spec (CartItem.cartId x) cid); [congruence | reflexivity].
Qed.

Lemma items_of_through_cleared cid cid' l :
  cid' <> cid ->
  filter (fun i => (CartItem.cartId i =? cid')%string)
         (filter (fun j => negb (CartItem.cartId j =? cid)%string) l)
  = filter (fun i => (CartItem.cartId i =? cid')%string) l.
Proof.
  intros Hne. apply filter_filter_weaken. intros x Hx.
  apply String.eqb_eq in Hx.
  destruct (String.eqb_spec (CartItem.cartId x) cid); [congruence | reflexivity].
Qed.

Lemma find_cart_owner uid d c :
  prisma.find_cart uid d = Some c -> In c (carts d) /\ Cart.userId c = uid.
Proof.
  intros Hf. apply find_some in Hf as [Hi He]. apply String.eqb_eq in He. auto.
Qed.

Lemma other_owner_other_id d c c' :
  unique_cart_ids d -> In c (carts d) -> In c' (carts d) ->
  Cart.userId c' <> Cart.userId c -> Cart.id c' <> Cart.id c.
Proof.
  intros Hn Hc Hc' Hu He. apply Hu.
  rewrite (@NoDup_map_inj _ _ Cart.id (carts d) c' c Hn Hc' Hc He). reflexivity.
Qed.

Lemma unique_cart_ids_create uid : preserves unique_cart_ids (prisma.cart.create uid).
Proof.
  apply preserves_query; [intros x Hx; exact Hx|].
  intros d H; unfold unique_cart_ids in *; simpl.
  destruct (mem (cuid (issued d)) (map Cart.id (carts d))) eqn:Hm; simpl; [exact H|].
  destruct (mem uid _); simpl; [exact H|].
  destruct (mem uid _); simpl; [|exact H].
  rewrite map_app; simpl. apply NoDup_snoc; [exact H|].
  intros Hin. apply mem_In in Hin. congruence.
Qed.

Lemma unique_cart_ids_invariant (rqs : list (Route * Request)) (d : Db) :
  unique_cart_ids d -> Forall unique_cart_ids (states rqs d).
Proof.
  apply states_preserve_on_carts.
  - intros d1 d2 _ Hc. unfold unique_cart_ids. rewrite Hc. auto.
  - apply unique_cart_ids_create.
Qed.

(** ** The range of the quantity column along request sequences *)
Lemma quantities_in_range_stable : stable quantities_in_range.
Proof. intros d H; exact H. Qed.

Lemma quantities_in_range_create uid :
  preserves quantities_in_range (prisma.cart.create uid).
Proof.
  inside_query quantities_in_range_stable.
  destruct (_ || _); [exact H|]. destruct (mem _ _); exact H.
Qed.

Lemma quantities_in_range_update iid q :
  preserves quantities_in_range (prisma.cartItem.update iid q).
Proof.
  inside_query quantities_in_range_stable. unfold quantities_in_range in *; simpl.
  destruct (int32 q) eqn:Hq; simpl; [|exact H].
  destruct (mem _ _); simpl; [|exact H].
  apply Forall_map. revert H. apply Forall_impl. intros j Hj.
  destruct (CartItem.id j =? iid)%string; [exact Hq | exact Hj].
Qed.

Lemma quantities_in_range_delete iid :
  preserves quantities_in_range (prisma.cartItem.delete iid).
Proof.
  inside_query quantities_in_range_stable. unfold quantities_in_range in *; simpl.
  destruct (mem _ _); simpl; [apply Forall_filter|]; exact H.
Qed.

Lemma quantities_in_range_delete_key cid pid :
  preserves quantities_in_range (prisma.cartItem.delete_key cid pid).
Proof.
  inside_query quantities_in_range_stable. unfold quantities_in_range in *; simpl.
  destruct (prisma.find_item cid pid d); simpl; [apply Forall_filter|]; exact H.
Qed.

Lemma quantities_in_range_deleteMany cid :
  preserves quantities_in_range (prisma.cartItem.deleteMany cid).
Proof.
  inside_query quantities_in_range_stable. unfold quantities_in_range in *; simpl.
  apply Forall_filter; exact H.
Qed.

(** The increment is checked on the line found; the uniqueness of lines
    makes it the only line of the pair. *)
Lemma quantities_in_range_upsert cid pid q d :
  unique_lines d -> quantities_in_range d ->
  quantities_in_range (snd (prisma.cartItem.upsert cid pid q q d)).
Proof.
  intros Hu Hr. unfold prisma.cartItem.upsert, query.
    assert (Hgo : forall o,
      quantities_in_range
        (snd (if negb (int32 q && int32 q)
              then (Throw (PrismaError "P2020"),
                    {| users := users d; products := products d; carts := carts d;
                       cartItems := cartItems d; issued := issued d; outages := o |})
              else
                match find (CartItem.has_key cid pid) (cartItems d) with
                | Some i =>
                    if negb (int32 (CartItem.quantity i + q))
                    then (Throw (PrismaError "P2020"),
                          {| users := users d; products := products d;
                             carts := carts d; cartItems := cartItems d;
                             issued := issued d; outages := o |})
                    else
                      (Value (CartItem.set_quantity (CartItem.quantity i + q) i),
                       {| users := users d; products := products d;
                          carts := carts d;
                          cartItems :=
                            map (fun j => if CartItem.has_key cid pid j
                                          then CartItem.set_quantity
                                                 (CartItem.quantity j + q) j
                                          else j) (cartItems d);
                          issued := issued d; outages := o |})
                | None =>
                    if mem (cuid (issued d)) (map CartItem.id (cartItems d))
                    then (Throw (PrismaError "P2002"),
                          {| users := users d; products := products d;
                             carts := carts d; cartItems := cartItems d;
                             issued := issued d; outages := o |})
                    else if mem cid (map Cart.id (carts d))
                            && mem pid (map Product.id (products d))
                    then (Value {| CartItem.id := cuid (issued d);
                                   CartItem.quantity := q;
                                   CartItem.productId := pid;
                                   CartItem.cartId := cid |},
                          {| users := users d; products := products d;
                             carts := carts d;
                             cartItems :=
                               cartItems d
                               ++ [{| CartItem.id := cuid (issued d);
                                      CartItem.quantity := q;
                                      CartItem.productId := pid;
                                      CartItem.cartId := cid |}];
                             issued := S (issued d); outages := o |})
                    else (Throw (PrismaError "P2003"),
                          {| users := users d; products := products d;
                             carts := carts d; cartItems := cartItems d;
                             issued := issued d; outages := o |})
                end))).
    { intros o. unfold quantities_in_range in *.
      destruct (int32 q) eqn:Hq; simpl; [|exact Hr].
      destruct (find (CartItem.has_key cid pid) (cartItems d)) as [i|] eqn:Hf; simpl.
      - destruct (int32 (CartItem.quantity i + q)) eqn:Hsum; simpl; [|exact Hr].
        apply Forall_map. rewrite Forall_forall in *. intros j Hj.
        destruct (CartItem.has_key cid pid j) eqn:Hk; [|apply Hr, Hj].
        assert (Hin : In j (filter (CartItem.has_key cid pid) (cartItems d)))
          by (apply filter_In; auto).
        rewrite (lines_of_unique _ _ _ Hu Hf) in Hin.
        destruct Hin as [<-|[]]. exact Hsum.
      - destruct (mem _ _); simpl; [exact Hr|].
        destruct (_ && _); simpl; [|exact Hr].
        apply Forall_app. split; [exact Hr|]. constructor; [exact Hq | constructor]. }
    destruct d as [xu xp xc xi xn [|[|] rest]]; simpl in *;
      [apply Hgo | exact Hr | apply Hgo].
Qed.

(** The range of the quantity column is a store constraint too: with the
    uniqueness of lines it holds after each request of every sequence. *)
Lemma quantities_in_range_invariant (rqs : list (Route * Request)) (d0 : Db) :
  unique_lines d0 -> quantities_in_range d0 ->
  Forall (fun d => unique_lines d /\ quantities_in_range d) (states rqs d0).
Proof.
  intros Hu0 Hr0.
  apply (@states_preserve (fun d => unique_lines d /\ quantities_in_range d));
    [intros x Hx; exact Hx | | | | | | | exact (conj Hu0 Hr0)].
  - intros uid d [Hu Hr].
    split; [apply unique_lines_create, Hu | apply quantities_in_range_create, Hr].
  - intros cid pid q _ d [Hu Hr].
    split; [apply unique_lines_upsert, Hu | apply quantities_in_range_upsert; assumption].
  - intros iid q _ d [Hu Hr].
    split; [apply unique_lines_update, Hu | apply quantities_in_range_update, Hr].
  - intros iid d [Hu Hr].
    split; [apply unique_lines_delete, Hu | apply quantities_in_range_delete, Hr].
  - intros cid pid d [Hu Hr].
    split; [apply unique_lines_delete_key, Hu
           | apply quantities_in_range_delete_key, Hr].
  - intros cid d [Hu Hr].
    split; [apply unique_lines_deleteMany, Hu
           | apply quantities_in_range_deleteMany, Hr].
Qed.

Lemma unique_line_ids_invariant (rqs : list (Route * Request)) (d0 : Db) :
  unique_line_ids d0 -> Forall unique_line_ids (states rqs d0).
Proof.
  assert (Hs : stable unique_line_ids) by (intros x Hx; exact Hx).
  apply states_preserve; try exact Hs.
  - intros uid. inside_query Hs. destruct (_ || _); [exact H|].
    destruct (mem _ _); exact H.
  - intros cid pid q _. inside_query Hs. unfold unique_line_ids in *; simpl.
    destruct (negb (int32 q && int32 q)); simpl; [exact H|].
    destruct (prisma.find_item cid pid d) as [i|]; simpl.
    + destruct (negb (int32 _)); simpl; [exact H|].
      rewrite map_id_update. exact H.
    + destruct (mem (cuid (issued d)) _) eqn:Hm; simpl; [exact H|].
      destruct (_ && _); simpl; [|exact H].
      rewrite map_app; simpl. apply NoDup_snoc; [exact H|].
      intros Hin. apply mem_In in Hin. congruence.
  - intros iid q _. inside_query Hs. unfold unique_line_ids in *; simpl.
    destruct (negb (int32 q)); simpl; [exact H|].
    destruct (mem _ _); simpl; [|exact H].
    rewrite (map_id_update (fun j => (CartItem.id j =? iid)%string) (fun _ => q)).
    exact H.
  - intros iid. inside_query Hs. unfold unique_line_ids in *; simpl.
    destruct (mem _ _); simpl; [apply NoDup_map_filter|]; exact H.
  - intros cid pid. inside_query Hs. unfold unique_line_ids in *; simpl.
    destruct (prisma.find_item cid pid d); simpl; [apply NoDup_map_filter|]; exact H.
  - intros cid. inside_query Hs. unfold unique_line_ids in *; simpl.
    apply NoDup_map_filter; exact H.
Qed.

Lemma handleGetCart_same_rows uid d :
  same_rows d (snd (ApiCart.handleGetCart uid d)).
Proof.
  apply (@handleGetCart_preserves (same_rows d) (@same_rows_stable d)).
  apply same_rows_refl.
Qed.

Lemma own_cart_added_extend uid d0 d : own_cart_added uid d0 d -> carts_extend d0 d.
Proof.
  intros [H|(_ & c & _ & H)]; [exists [] | exists [c]]; rewrite H;
    [symmetry; apply app_nil_r | reflexivity].
Qed.

Lemma serve_isolation (rq : Route * Request) (d : Db) (c' : Cart.t) :
  unique_line_ids d -> unique_cart_ids d -> In c' (carts d) ->
  session (snd rq) <> Some (Cart.userId c') ->
  prisma.items_of (Cart.id c') (snd (serve rq d)) = prisma.items_of (Cart.id c') d.
Proof.
  intros Hli Hci Hin Hs.
  pose proof (unique_cart_ids_invariant [rq] Hci) as Hci'.
  simpl in Hci'. inversion Hci' as [|? ? _ Hci'']; subst.
  inversion Hci'' as [|? ? Hu' _]; subst. clear Hci' Hci''.
  assert (Hsame : forall x, same_rows d x ->
            prisma.items_of (Cart.id c') x = prisma.items_of (Cart.id c') d).
  { intros x (_ & _ & Hi). unfold prisma.items_of. rewrite Hi. reflexivity. }
  destruct rq as [[|] req]; unfold serve in *; simpl in *.
  - unfold ApiCart.handler in *.
    destruct (session req) as [u|]; [|apply Hsame, same_rows_refl].
    assert (Hne : Cart.userId c' <> u) by congruence.
    destruct (method req =? "GET")%string; [apply Hsame, handleGetCart_same_rows|].
    destruct (method req =? "POST")%string.
    { destruct (handleAddToCart_frame req u Hli) as (_ & Hadd & [Hi|Hown]);
        apply own_cart_added_extend in Hadd; destruct Hadd as [more Hext].
      - unfold prisma.items_of. rewrite Hi. reflexivity.
      - destruct Hown as (c & pid & Hf & Ho).
        destruct (find_cart_owner _ _ Hf) as [Hc Hcu].
        assert (Hin' : In c' (carts (snd (ApiCart.handleAddToCart req u d))))
          by (rewrite Hext; apply in_or_app; left; exact Hin).
        assert (Hid : Cart.id c' <> Cart.id c)
          by (apply (@other_owner_other_id _ c c' Hu' Hc Hin'); congruence).
        unfold prisma.items_of, other_lines in *.
        rewrite <- (items_of_through_other_lines pid _ Hid), Ho.
        apply items_of_through_other_lines, Hid. }
    destruct (method req =? "DELETE")%string; [|apply Hsame, same_rows_refl].
    destruct (handleRemoveFromCart_frame req u d) as (_ & Hcarts & [Hi|Hrem]).
    + unfold prisma.items_of. rewrite Hi. reflexivity.
    + destruct Hrem as (c & pid & _ & Hf & Ho).
      destruct (find_cart_owner _ _ Hf) as [Hc Hcu].
      assert (Hid : Cart.id c' <> Cart.id c)
        by (apply (@other_owner_other_id d c c' Hci Hc Hin); congruence).
      unfold prisma.items_of, other_lines in *. rewrite Ho.
      apply items_of_through_other_lines, Hid.
  - destruct (session req) as [u|] eqn:Hsess.
    2:{ unfold ApiOrders.handler. rewrite Hsess.
        destruct (negb _); apply Hsame, same_rows_refl. }
    assert (Hne : Cart.userId c' <> u) by congruence.
    destruct (orders_handler_frame req d Hsess) as (_ & _ & [Hi|(c & Hf & Ho)]).
    + unfold prisma.items_of. rewrite Hi. reflexivity.
    + destruct (find_cart_owner _ _ Hf) as [Hc Hcu].
      assert (Hid : Cart.id c' <> Cart.id c)
        by (apply (@other_owner_other_id d c c' Hci Hc Hin); congruence).
      unfold prisma.items_of. rewrite Ho.
      apply items_of_through_cleared, Hid.
Qed.

(** X11: isolation between users.  Line ids and cart ids being unique, the
    lines of a user's cart are exactly the same after each request of any
    sequence of requests of which none carries that user's session, whatever
    those requests hold and whatever the outage schedule. *)
Theorem other_users_lines_untouched (rqs : list (Route * Request)) (d : Db)
        (c' : Cart.t) :
  unique_line_ids d -> unique_cart_ids d -> In c' (carts d) ->
  Forall (fun rq => session (snd rq) <> Some (Cart.userId c')) rqs ->
  Forall (fun d' => prisma.items_of (Cart.id c') d' = prisma.items_of (Cart.id c') d)
         (states rqs d).
Proof.
  intros Hli Hci Hin Hall. revert d Hli Hci Hin.
  induction Hall as [|rq rqs Hrq _ IH]; intros d Hli Hci Hin; simpl.
  - repeat constructor.
  - constructor; [reflexivity|].
    pose proof (unique_line_ids_invariant [rq] Hli) as H1.
    pose proof (unique_cart_ids_invariant [rq] Hci) as H2.
    pose proof (cart_rows_kept_step rq d) as H3.
    simpl in H1, H2.
    inversion H1 as [|? ? _ H1']; subst. inversion H1' as [|? ? Hli' _]; subst.
    inversion H2 as [|? ? _ H2']; subst. inversion H2' as [|? ? Hci' _]; subst.
    assert (Hin' : In c' (carts (snd (serve rq d)))).
    { destruct H3 as [more ->]. apply in_or_app; left; exact Hin. }
    specialize (IH _ Hli' Hci' Hin').
    rewrite (@serve_isolation rq d c' Hli Hci Hin Hrq) in IH. exact IH.
Qed.

Lemma other_users_lines_untouched_witness :
  Forall (fun d' => prisma.items_of "c2" d' = prisma.items_of "c2" db_two_users)
         (states [(api_cart, request "POST" (json_body "cproduct0001" (-5)));
                  (api_cart, request "POST" (json_body "cproduct0002" 4));
                  (api_orders, request "POST" JsUndefined)] db_two_users).
Proof.
  apply (@other_users_lines_untouched
           [(api_cart, request "POST" (json_body "cproduct0001" (-5)));
            (api_cart, request "POST" (json_body "cproduct0002" 4));
            (api_orders, request "POST" JsUndefined)]
           db_two_users {| Cart.id := "c2"; Cart.userId := "u2" |}).
  - repeat constructor; simpl; intuition discriminate.
  - repeat constructor; simpl; intuition discriminate.
  - simpl; auto.
  - repeat constructor; simpl; discriminate.
Defined.

(** ** Integers as JSON numbers *)
Lemma round_aux_exact s m e :
  fexp Number.prec Number.emax (Zpos (digits2_pos m) + e) = e -> e <= 971 ->
  binary_round_aux Number.prec Number.emax s (Zpos m) e loc_Exact
  = S754_finite s m e.
Proof.
  intros H He. unfold binary_round_aux, shr_fexp.
  change (Zdigits2 (Zpos m)) with (Zpos (digits2_pos m)).
  rewrite H, Z.sub_diag.
  cbn [shr shr_record_of_loc loc_of_shr_record shr_m round_nearest_even].
  change (Zdigits2 (Zpos m)) with (Zpos (digits2_pos m)).
  rewrite H, Z.sub_diag. cbn [shr shr_record_of_loc loc_of_shr_record shr_m].
  replace (e <=? Number.emax - Number.prec) with true
    by (symmetry; apply Z.leb_le; unfold Number.emax, Number.prec; lia).
  reflexivity.
Qed.

Lemma digits_iter_xO m k :
  digits2_pos (Pos.iter xO m k) = (digits2_pos m + k)%positive.
Proof.
  induction k as [|k IH] using Pos.peano_ind.
  - simpl. lia.
  - rewrite Pos.iter_succ. simpl. rewrite IH. lia.
Qed.

Lemma Zpos_iter_xO m k : Zpos (Pos.iter xO m k) = Zpos m * 2 ^ Zpos k.
Proof.
  induction k as [|k IH] using Pos.peano_ind.
  - simpl. lia.
  - rewrite Pos.iter_succ, Pos2Z.inj_succ, Z.pow_succ_r by lia.
    rewrite Pos2Z.inj_xO, IH. ring.
Qed.

Lemma digits_lower m : 2 ^ (Zpos (digits2_pos m) - 1) <= Zpos m.
Proof.
  induction m as [m IH|m IH|]; simpl digits2_pos.
  - rewrite Pos2Z.inj_succ.
    replace (Z.succ (Zpos (digits2_pos m)) - 1)
      with (Z.succ (Zpos (digits2_pos m) - 1)) by lia.
    rewrite Z.pow_succ_r by lia. lia.
  - rewrite Pos2Z.inj_succ.
    replace (Z.succ (Zpos (digits2_pos m)) - 1)
      with (Z.succ (Zpos (digits2_pos m) - 1)) by lia.
    rewrite Z.pow_succ_r by lia. lia.
  - simpl. lia.
Qed.

Lemma digits_le_53 m : Zpos m < 2 ^ 53 -> Zpos (digits2_pos m) <= 53.
Proof.
  intros H.
  destruct (Z_le_gt_dec (Zpos (digits2_pos m)) 53) as [|Hgt]; [assumption|].
  pose proof (digits_lower m) as Hl.
  assert (2 ^ 53 <= 2 ^ (Zpos (digits2_pos m) - 1))
    by (apply Z.pow_le_mono_r; lia).
  lia.
Qed.

Lemma round_small s m :
  Zpos m < 2 ^ 53 ->
  exists m' e',
    binary_round Number.prec Number.emax s m 0 = S754_finite s m' e'
    /\ e' <= 0 /\ Zpos m' = Zpos m * 2 ^ (- e').
Proof.
  intros H. pose proof (@digits_le_53 m H) as Hd.
  unfold binary_round.
  assert (Hf : fexp Number.prec Number.emax (Zpos (digits2_pos m) + 0)
               = Zpos (digits2_pos m) - 53).
  { unfold fexp, emin, Number.prec, Number.emax. lia. }
  rewrite Hf. unfold shl_align.
  destruct (Zpos (digits2_pos m) - 53 - 0) as [|k|k] eqn:Hk; [|lia|].
  - exists m, 0. split; [|split; [lia | simpl; lia]].
    apply round_aux_exact; [|lia].
    unfold fexp, emin, Number.prec, Number.emax. lia.
  - exists (Pos.iter xO m k), (Zpos (digits2_pos m) - 53).
    split; [|split; [lia|]].
    + apply round_aux_exact; [|lia]. rewrite digits_iter_xO.
      unfold fexp, emin, Number.prec, Number.emax. lia.
    + rewrite Zpos_iter_xO. f_equal. f_equal. lia.
Qed.

Lemma finite_integer s m m' e' :
  e' <= 0 -> Zpos m' = Zpos m * 2 ^ (- e') ->
  Number.isInteger (S754_finite s m' e') = true
  /\ Number.to_Z (S754_finite s m' e') = if s then - Zpos m else Zpos m.
Proof.
  intros He Hm. unfold Number.isInteger, Number.to_Z.
  assert (Hp : 0 < 2 ^ (- e')) by (apply Z.pow_pos_nonneg; lia).
  destruct (0 <=? e') eqn:E.
  - assert (e' = 0) by lia. subst e'. simpl in Hm. split; [reflexivity|].
    rewrite Hm. simpl. destruct s; lia.
  - rewrite Hm. split.
    + apply Z.eqb_eq. apply Z.mod_mul. lia.
    + rewrite Z.div_mul by lia. reflexivity.
Qed.

(** An integer of magnitude below 2^53 is the number it denotes. *)
Lemma of_Z_exact z :
  Z.abs z < 2 ^ 53 ->
  Number.isInteger (Number.of_Z z) = true /\ Number.to_Z (Number.of_Z z) = z.
Proof.
  intros H. unfold Number.of_Z, binary_normalize. destruct z as [|m|m].
  - split; reflexivity.
  - destruct (@round_small false m H) as (m' & e' & -> & He & Hm).
    exact (@finite_integer false m m' e' He Hm).
  - destruct (@round_small true m H) as (m' & e' & -> & He & Hm).
    exact (@finite_integer true m m' e' He Hm).
Qed.

Lemma of_Z_safe z :
  Z.abs z < 2 ^ 53 -> Number.isSafeInteger (Number.of_Z z) = true.
Proof.
  intros H. destruct (@of_Z_exact z H) as [Hi Ht].
  unfold Number.isSafeInteger. rewrite Hi, Ht. apply Z.leb_le. lia.
Qed.

(** The pattern of [cuid()] on some ids: seven characters are enough, the
    first may be a capital C, and a capital, a dash, a space or a no-break
    space (code unit 160) after it is refused. *)
Example is_cuid_examples :
  is_cuid "c123456" = true /\ is_cuid "C123456" = true
  /\ is_cuid "clh3am1f30000udocl363eofy" = true
  /\ is_cuid "c12345" = false /\ is_cuid "d1234567" = false
  /\ is_cuid "cABCDEFGH" = false /\ is_cuid "c1234-5678" = false
  /\ is_cuid "c1234 5678" = false
  /\ is_cuid (String "c" ("1234567" ++ String (ascii_of_nat 160) "")) = false.
Proof. repeat split. Qed.

(** X12: the request schema accepts every body whose [productId] is a
    CUID-shaped string (a c or C followed by six or more digits or small
    letters) and whose [quantity] is an integer of magnitude below 2^53 (of
    either sign, zero included), and hands the handler that same product id
    and integer. *)
Theorem schema_accepts_cuid_and_integer (b : JsValue) (pid : string) (q : Z) :
  prop b "productId" = JsString pid -> is_cuid pid = true ->
  prop b "quantity" = JsNumber (Number.of_Z q) -> Z.abs q < 2 ^ 53 ->
  cartItemSchema_parse b = Value (pid, q).
Proof.
  intros Hp Hc Hq Hb. destruct (@of_Z_exact q Hb) as [_ Ht].
  pose proof (of_Z_safe q Hb) as Hi.
  unfold cartItemSchema_parse. destruct b; try discriminate.
  rewrite Hp, Hq, Hc, Hi, Ht. reflexivity.
Qed.

Lemma schema_accepts_cuid_and_integer_witness :
  cartItemSchema_parse (json_body "cproduct0001" (-5)) = Value ("cproduct0001", -5).
Proof.
  apply schema_accepts_cuid_and_integer; [reflexivity | reflexivity | reflexivity |].
  vm_compute; reflexivity.
Defined.

(** * The cart page against the routes *)

(** ** The store constraints after a request *)
Lemma healthy_stable : stable healthy.
Proof. intros d H. unfold healthy in *. simpl. rewrite H. reflexivity. Qed.

Lemma healthy_serve rq d0 : healthy d0 -> healthy (snd (serve rq d0)).
Proof.
  apply serve_preserves.
  - apply healthy_stable.
  - intros uid. inside_query healthy_stable. destruct (_ || _); [exact H|].
    destruct (mem _ _); exact H.
  - intros cid pid q _. inside_query healthy_stable.
    destruct (negb (int32 q && int32 q)); simpl; [exact H|].
    destruct (prisma.find_item cid pid d); simpl;
      [destruct (negb (int32 _)); exact H|].
    destruct (mem _ _); simpl; [exact H|]. destruct (_ && _); exact H.
  - intros iid q _. inside_query healthy_stable.
    destruct (negb (int32 q)); simpl; [exact H|]. destruct (mem _ _); exact H.
  - intros iid. inside_query healthy_stable. destruct (mem _ _); exact H.
  - intros cid pid. inside_query healthy_stable.
    destruct (prisma.find_item cid pid d); exact H.
  - intros cid. inside_query healthy_stable. exact H.
Qed.

Lemma consistent_serve rq d : consistent d -> consistent (snd (serve rq d)).
Proof.
  intros (H & Hfr & Hu & Hfk). split; [apply healthy_serve, H|]. split; [|split].
  - revert Hfr. apply serve_preserves;
      [apply fresh_stable | apply fresh_create
      | intros cid pid q _; apply fresh_upsert
      | intros iid q _; apply fresh_update | apply fresh_delete
      | apply fresh_delete_key | apply fresh_deleteMany].
  - revert Hu. apply serve_preserves;
      [apply unique_lines_stable | apply unique_lines_create
      | intros cid pid q _; apply unique_lines_upsert
      | intros iid q _; apply unique_lines_update | apply unique_lines_delete
      | apply unique_lines_delete_key | apply unique_lines_deleteMany].
  - revert Hfk. apply serve_preserves;
      [apply item_fks_stable | apply item_fks_create
      | intros cid pid q _; apply item_fks_upsert
      | intros iid q _; apply item_fks_update | apply item_fks_delete
      | apply item_fks_delete_key | apply item_fks_deleteMany].
Qed.

Lemma find_cart_same_carts uid d d' c :
  carts d' = carts d -> prisma.find_cart uid d = Some c ->
  prisma.find_cart uid d' = Some c.
Proof. unfold prisma.find_cart. intros ->. auto. Qed.

(** ** What each route answers to a user who has a cart *)
Lemma handleGetCart_run uid d c :
  healthy d -> item_fks d -> prisma.find_cart uid d = Some c ->
  exists rows,
    prisma.include_product d (prisma.items_of (Cart.id c) d) = Some rows
    /\ ApiCart.handleGetCart uid d
       = (respond 200 (JCart c rows (cart_total rows)), d).
Proof.
  intros H Hfk Hc. destruct (item_fks_include (Cart.id c) Hfk) as (rows & Hr & _).
  exists rows. split; [exact Hr|]. unfold ApiCart.handleGetCart, try_catch.
  rewrite (bind_value _ _ _ (findUnique_include_run _ H Hc Hr)). reflexivity.
Qed.

(** An increase either goes through or is refused for its range, and then
    nothing is written. *)
Lemma add_positive_outcome uid d c pid q :
  healthy d -> fresh d -> unique_lines d -> item_fks d ->
  prisma.find_cart uid d = Some c ->
  In pid (map Product.id (products d)) -> 0 < q ->
  (exists rows d',
     (prisma.cartItem.upsert (Cart.id c) pid q q ;;; ApiCart.respond_updated uid) d
     = (Value (respond 200 (JCart c rows (cart_total rows))), d')
     /\ carts d' = carts d)
  \/ (prisma.cartItem.upsert (Cart.id c) pid q q ;;; ApiCart.respond_updated uid) d
     = (Throw (PrismaError "P2020"), d).
Proof.
  intros H Hfr Hu Hfk Hc Hp Hq.
  destruct (int32 q) eqn:E1.
  - destruct (int32 (stored_quantity (Cart.id c) pid d + q)) eqn:E2.
    + left.
      destruct (@add_positive_resolved uid d c pid q H Hfr Hu Hfk Hc Hp Hq E1 E2)
        as (rows & d' & line & Hrun & Hcarts & _).
      exists rows, d'. auto.
    + right. unfold stored_quantity in E2.
      destruct (prisma.find_item (Cart.id c) pid d) as [i|] eqn:Hf.
      * rewrite (bind_throw _ _ _ (upsert_run_overflow _ _ q q H Hf E2)).
        reflexivity.
      * rewrite Z.add_0_l in E2. congruence.
  - right.
    assert (E : int32 q && int32 q = false) by (rewrite E1; reflexivity).
    rewrite (bind_throw _ _ _ (upsert_run_range _ _ q q H E)). reflexivity.
Qed.

(** A decrease goes through, is answered 400 without a write, or is refused
    for its range without a write. *)
Lemma add_negative_outcome uid d c pid q :
  healthy d -> unique_lines d -> item_fks d ->
  prisma.find_cart uid d = Some c ->
  let m :=
    existing <- prisma.cartItem.findUnique (Cart.id c) pid ;;
    match existing with
    | None => ret (respond 400 (JError "Cart item not found"))
    | Some e =>
        (if 0 <? CartItem.quantity e + q
         then prisma.cartItem.update (CartItem.id e) (CartItem.quantity e + q)
         else prisma.cartItem.delete (CartItem.id e)) ;;;
        ApiCart.respond_updated uid
    end in
  (exists r d', m d = (Value r, d') /\ carts d' = carts d
                /\ (Browser.ok r = false -> d' = d))
  \/ m d = (Throw (PrismaError "P2020"), d).
Proof.
  intros H Hu Hfk Hc m.
  assert (Hgo : (forall i, prisma.find_item (Cart.id c) pid d = Some i ->
                   0 < CartItem.quantity i + q ->
                   int32 (CartItem.quantity i + q) = true) ->
                exists r d', m d = (Value r, d') /\ carts d' = carts d
                             /\ (Browser.ok r = false -> d' = d)).
  { intros Hrange.
    destruct (@add_negative_resolved uid d c pid q H Hu Hfk Hc Hrange)
      as (r & d' & Hrun & Hcarts & Hres).
    exists r, d'. split; [exact Hrun|]. split; [exact Hcarts|].
    destruct (prisma.find_item (Cart.id c) pid d) as [i|].
    - destruct Hres as ((rows & -> & _) & _). discriminate.
    - destruct Hres as [_ ->]. reflexivity. }
  destruct (prisma.find_item (Cart.id c) pid d) as [i|] eqn:Hf.
  2:{ left. apply Hgo. intros i [=]. }
  destruct (0 <? CartItem.quantity i + q) eqn:Hn.
  2:{ left. apply Hgo. intros j [= <-] Hpos. apply Z.ltb_ge in Hn. lia. }
  destruct (int32 (CartItem.quantity i + q)) eqn:Hr.
  { left. apply Hgo. intros j [= <-] _. exact Hr. }
  right. unfold m.
  rewrite (bind_value _ _ _ (cartItem_findUnique_run (Cart.id c) pid H)), Hf, Hn.
  rewrite (bind_throw _ _ _ (@update_run_range (CartItem.id i) _ d H Hr)).
  reflexivity.
Qed.

Lemma post_sets uid d c pid q p req :
  consistent d -> prisma.find_cart uid d = Some c ->
  cartItemSchema_parse (body req) = Value (pid, q) ->
  prisma.find_product pid d = Some p ->
  0 < stored_quantity (Cart.id c) pid d + q ->
  int32 (stored_quantity (Cart.id c) pid d + q) = true ->
  (0 < q -> int32 q = true) ->
  exists rows d' line,
    ApiCart.handleAddToCart req uid d
    = (respond 200 (JCart c rows (cart_total rows)), d')
    /\ carts d' = carts d
    /\ lines_of (Cart.id c) pid d' = [line]
    /\ CartItem.quantity line = stored_quantity (Cart.id c) pid d + q.
Proof.
  intros (H & Hfr & Hu & Hfk) Hc Hparse Hprod Hpos Hr32 Hq32.
  pose proof (find_product_Some _ _ Hprod) as Hp.
  unfold ApiCart.handleAddToCart, try_catch.
  rewrite (bind_value _ _ d (a := (pid, q)) (d' := d))
    by (unfold lift; rewrite Hparse; reflexivity).
  cbv beta iota.
  rewrite (bind_value _ _ _ (product_findUnique_run pid H)), Hprod.
  rewrite (bind_value _ _ _ (cart_findUnique_run uid H)), Hc.
  rewrite (bind_value (ret c) _ d (a := c) (d' := d) eq_refl).
  destruct (Z.eqb_spec q 0) as [Hz|Hz].
  - subst q. unfold stored_quantity in *.
    destruct (prisma.find_item (Cart.id c) pid d) as [i|] eqn:Hf; [|lia].
    destruct (respond_updated_run uid H Hfk Hc) as (rows & _ & Hr).
    exists rows, d, i. rewrite Hr. split; [reflexivity|]. split; [reflexivity|].
    split; [apply (lines_of_unique _ _ _ Hu Hf) | lia].
  - destruct (Z.ltb_spec 0 q) as [Hq|Hq].
    + destruct (@add_positive_resolved uid d c pid q H Hfr Hu Hfk Hc Hp Hq
                  (Hq32 Hq) Hr32)
        as (rows & d' & line & Hrun & Hcarts & _ & Hl & Hqty).
      exists rows, d', line. rewrite Hrun. split; [reflexivity|].
      split; [exact Hcarts|]. split; [exact Hl|]. rewrite Hqty.
      unfold stored_quantity.
      destruct (prisma.find_item (Cart.id c) pid d); lia.
    + unfold stored_quantity in *.
      assert (Hrange : forall i, prisma.find_item (Cart.id c) pid d = Some i ->
                0 < CartItem.quantity i + q ->
                int32 (CartItem.quantity i + q) = true)
        by (intros i Hi _; rewrite Hi in Hr32; exact Hr32).
      destruct (@add_negative_resolved uid d c pid q H Hu Hfk Hc Hrange)
        as (r & d' & Hrun & Hcarts & Hres).
      destruct (prisma.find_item (Cart.id c) pid d) as [i|] eqn:Hf; [|lia].
      destruct Hres as ((rows & -> & _) & Hl).
      replace (0 <? CartItem.quantity i + q) with true in Hl
        by (symmetry; apply Z.ltb_lt; lia).
      exists rows, d', (CartItem.set_quantity (CartItem.quantity i + q) i).
      rewrite Hrun. split; [reflexivity|]. split; [exact Hcarts|].
      split; [exact Hl | reflexivity].
Qed.

(** X13: on a database with no outage ahead that satisfies the store
    constraints, a POST with quantity 0 for an existing product writes no
    line.  For a user who has a cart it answers 200 with the cart as it is
    and leaves the database as it was.  For a user without a cart who has a
    row in the user table it answers 200 with a new, empty cart, and the
    only change is that cart row.  For a user without a cart and without a
    row in the user table (a session that outlived its user) the foreign key
    refuses the cart: the answer is 500 and nothing has changed. *)
Theorem post_zero_writes_no_line (req : Request) (userId : string) (d : Db)
        (pid : string) (p : Product.t) :
  consistent d ->
  cartItemSchema_parse (body req) = Value (pid, 0) ->
  prisma.find_product pid d = Some p ->
  exists r d',
    ApiCart.handleAddToCart req userId d = (r, d')
    /\ products d' = products d /\ cartItems d' = cartItems d
    /\ match prisma.find_cart userId d with
       | Some c0 =>
           d' = d
           /\ exists rows,
                r = respond 200 (JCart c0 rows (cart_total rows))
                /\ map fst rows = prisma.items_of (Cart.id c0) d
       | None =>
           if mem userId (map User.id (users d))
           then exists c,
                  r = respond 200 (JCart c [] Number.zero)
                  /\ Cart.userId c = userId
                  /\ carts d' = (carts d ++ [c])%list
           else r = respond 500 (JError "Failed to add to cart") /\ d' = d
       end.
Proof.
  intros (H & Hfr & Hu & Hfk) Hparse Hprod.
  unfold ApiCart.handleAddToCart, try_catch.
  rewrite (bind_value _ _ d (a := (pid, 0)) (d' := d))
    by (unfold lift; rewrite Hparse; reflexivity).
  cbv beta iota.
  rewrite (bind_value _ _ _ (product_findUnique_run pid H)), Hprod.
  rewrite (bind_value _ _ _ (cart_findUnique_run userId H)).
  destruct (prisma.find_cart userId d) as [c0|] eqn:Hc.
  - rewrite (bind_value (ret c0) _ d (a := c0) (d' := d) eq_refl).
    change (0 =? 0) with true. cbv iota.
    destruct (respond_updated_run userId H Hfk Hc) as (rows & Hm & Hr).
    eexists _, d. rewrite Hr. split; [reflexivity|].
    split; [reflexivity|]. split; [reflexivity|]. split; [reflexivity|].
    exists rows. auto.
  - destruct (mem userId (map User.id (users d))) eqn:Hmem.
    + apply mem_In in Hmem.
      destruct (created_cart_state userId H Hfr Hu Hfk Hc)
        as (H1 & Hfr1 & Hu1 & Hfk1 & Hc1 & Hnone).
      rewrite (bind_value _ _ _ (cart_create_run userId H Hfr Hc Hmem)).
      change (0 =? 0) with true. cbv iota.
      destruct (respond_updated_run userId H1 Hfk1 Hc1) as (rows & Hm & Hr).
      rewrite Hnone in Hm. apply map_fst_nil in Hm. subst rows.
      eexists _, _. rewrite Hr. split; [reflexivity|].
      split; [reflexivity|]. split; [reflexivity|].
      eexists. split; [reflexivity|]. split; reflexivity.
    + assert (Hno : ~ In userId (map User.id (users d)))
        by (intros Hin; apply mem_In in Hin; congruence).
      rewrite (bind_throw _ _ _ (cart_create_no_user userId H Hfr Hc Hno)).
      eexists _, d. split; [reflexivity|]. auto.
Qed.

Lemma post_zero_writes_no_line_witness :
  exists c d',
    ApiCart.handleAddToCart (request "POST" (json_body "cproduct0002" 0)) "u1" db_empty
    = (respond 200 (JCart c [] Number.zero), d')
    /\ Cart.userId c = "u1"
    /\ carts d' = [c]
    /\ cartItems d' = [].
Proof.
  destruct db_empty_ok as (H1 & H2 & H3 & H4 & _).
  destruct (@post_zero_writes_no_line
              (request "POST" (json_body "cproduct0002" 0)) "u1" db_empty
              "cproduct0002" P2 (conj H1 (conj H2 (conj H3 H4))) eq_refl eq_refl)
    as (r & d' & Hrun & _ & Hi & c & Hr & Hu & Hc).
  subst r. exists c, d'. split; [exact Hrun|]. split; [exact Hu|].
  split; [exact Hc | exact Hi].
Defined.

Lemma post_outcome uid d c req :
  consistent d -> prisma.find_cart uid d = Some c ->
  let w := ApiCart.handleAddToCart req uid d in
  carts (snd w) = carts d /\ (Browser.ok (fst w) = false -> snd w = d).
Proof.
  intros (H & Hfr & Hu & Hfk) Hc. unfold ApiCart.handleAddToCart, try_catch.
  destruct (cartItemSchema_parse (body req)) as [[pid q]|e] eqn:Hparse.
  2:{ rewrite (bind_throw _ _ d (e := e) (d' := d))
        by reflexivity.
      simpl. auto. }
  rewrite (bind_value _ _ d (a := (pid, q)) (d' := d))
    by reflexivity.
  cbv beta iota.
  rewrite (bind_value _ _ _ (product_findUnique_run pid H)).
  destruct (prisma.find_product pid d) as [p|] eqn:Hprod; [|simpl; auto].
  pose proof (find_product_Some _ _ Hprod) as Hp.
  rewrite (bind_value _ _ _ (cart_findUnique_run uid H)), Hc.
  rewrite (bind_value (ret c) _ d (a := c) (d' := d) eq_refl).
  destruct (Z.eqb_spec q 0) as [Hz|Hz].
  - destruct (respond_updated_run uid H Hfk Hc) as (rows & _ & Hr).
    rewrite Hr. simpl. auto.
  - destruct (Z.ltb_spec 0 q) as [Hq|Hq].
    + destruct (@add_positive_outcome uid d c pid q H Hfr Hu Hfk Hc Hp Hq)
        as [(rows & d' & Hrun & Hcarts)|Hrun];
        rewrite Hrun; simpl; [split; [exact Hcarts | discriminate] | auto].
    + destruct (@add_negative_outcome uid d c pid q H Hu Hfk Hc)
        as [(r & d' & Hrun & Hcarts & Hres)|Hrun];
        rewrite Hrun; simpl; auto.
Qed.

Lemma delete_outcome uid d c req :
  consistent d -> prisma.find_cart uid d = Some c ->
  let w := ApiCart.handleRemoveFromCart req uid d in
  carts (snd w) = carts d /\ (Browser.ok (fst w) = false -> snd w = d).
Proof.
  intros (H & Hfr & Hu & Hfk) Hc. split.
  { destruct (handleRemoveFromCart_frame req uid d) as (_ & Hcarts & _).
    exact Hcarts. }
  destruct (prop (body req) "productId") as [| | | |[|a s]| |] eqn:Hp;
    try (unfold ApiCart.handleRemoveFromCart, try_catch;
         destruct (body req); try rewrite Hp; reflexivity).
  assert (Hu' : body req <> JsUndefined)
    by (intros E; rewrite E in Hp; discriminate).
  assert (Hn' : body req <> JsNull)
    by (intros E; rewrite E in Hp; discriminate).
  destruct (prisma.find_item (Cart.id c) (String a s) d) as [i|] eqn:Hf.
  - destruct (@remove_present req uid (String a s) d a s c i H Hfk Hp Hu' Hn' Hc Hf)
      as (rows & d' & Hrun & _).
    rewrite Hrun. discriminate.
  - rewrite (@remove_absent req uid d a s c H Hp Hu' Hn' Hc Hf). reflexivity.
Qed.

Lemma orders_run uid d c rows req :
  healthy d -> prisma.find_cart uid d = Some c ->
  prisma.include_product d (prisma.items_of (Cart.id c) d) = Some rows ->
  method req = "POST" -> session req = Some uid ->
  ApiOrders.handler req d
  = match rows with
    | [] => (respond 400 (JError "Cart is empty"), d)
    | _ :: _ =>
        (respond 200 (JOrder true (cart_total rows)),
         prisma.with_items
           (filter (fun j => negb (CartItem.cartId j =? Cart.id c)%string)
                   (cartItems d)) (issued d) d)
    end.
Proof.
  intros H Hc Hr Hm Hs. unfold ApiOrders.handler.
  rewrite Hm, Hs, String.eqb_refl. change (negb true) with false.
  cbv beta iota. unfold try_catch.
  rewrite (bind_value _ _ _ (findUnique_include_run _ H Hc Hr)).
  destruct rows as [|r rows]; [reflexivity|].
  rewrite (bind_value _ _ _ (deleteMany_run (Cart.id c) H)). reflexivity.
Qed.

(** ** What the page shows *)
Lemma find_filter {A} (f g : A -> bool) l :
  find f (filter g l) = find (fun x => g x && f x) l.
Proof.
  induction l as [|a l IH]; simpl; [reflexivity|].
  destruct (g a); simpl; [destruct (f a); auto | exact IH].
Qed.

Lemma find_product_id pid d p : prisma.find_product pid d = Some p -> Product.id p = pid.
Proof. intros Hf. apply find_some in Hf as [_ He]. apply String.eqb_eq, He. Qed.

Lemma shown_is_stored d l pid : forall rows,
  prisma.include_product d l = Some rows ->
  match find (fun r => (Product.id (snd r) =? pid)%string) rows with
  | Some r => CartItem.quantity (fst r)
  | None => 0
  end
  = match find (fun i => (CartItem.productId i =? pid)%string) l with
    | Some i => CartItem.quantity i
    | None => 0
    end.
Proof.
  induction l as [|i l IH]; simpl; intros rows Hr.
  - injection Hr as <-. reflexivity.
  - destruct (prisma.find_product (CartItem.productId i) d) as [p|] eqn:Hp;
      [|discriminate].
    destruct (prisma.include_product d l) as [ps|]; [|discriminate].
    injection Hr as <-. simpl. rewrite (find_product_id _ _ Hp).
    destruct (CartItem.productId i =? pid)%string;
      [reflexivity | apply IH; reflexivity].
Qed.

Lemma shown_quantity_in_sync d c rows t pid :
  prisma.include_product d (prisma.items_of (Cart.id c) d) = Some rows ->
  CartPage.shown_quantity pid (Some (JCart c rows t))
  = Value (stored_quantity (Cart.id c) pid d).
Proof.
  intros Hr. unfold CartPage.shown_quantity. f_equal.
  rewrite (shown_is_stored _ _ pid Hr). unfold prisma.items_of.
  rewrite find_filter. reflexivity.
Qed.

Lemma fetchCart_in_sync uid p d c :
  healthy d -> item_fks d -> prisma.find_cart uid d = Some c ->
  let w := CartPage.fetchCart (Some uid) (p, d) in
  in_sync uid w /\ snd w = d
  /\ CartPage.alerts (fst w) = CartPage.alerts p
  /\ CartPage.updating (fst w) = CartPage.updating p.
Proof.
  intros H Hfk Hc. destruct (handleGetCart_run uid H Hfk Hc) as (rows & Hr & Hrun).
  unfold CartPage.fetchCart, Browser.fetch, serve. simpl fst. simpl snd.
  change (ApiCart.handler
            {| method := "GET"; session := Some uid; body := JsUndefined |} d)
    with (ApiCart.handleGetCart uid d).
  rewrite Hrun. simpl. split; [|auto]. exists c, rows. auto.
Qed.

Lemma parse_posted pid q :
  is_cuid pid = true -> Z.abs q < 2 ^ 53 ->
  cartItemSchema_parse
    (JsObject [("productId", JsString pid); ("quantity", JsNumber (Number.of_Z q))])
  = Value (pid, q).
Proof.
  intros Hc Hb. destruct (@of_Z_exact q Hb) as [_ Ht].
  pose proof (of_Z_safe q Hb) as Hi.
  set (b := JsObject [("productId", JsString pid);
                      ("quantity", JsNumber (Number.of_Z q))]).
  assert (Hp : prop b "productId" = JsString pid) by reflexivity.
  assert (Hq : prop b "quantity" = JsNumber (Number.of_Z q)) by reflexivity.
  unfold cartItemSchema_parse. rewrite Hp, Hq, Hc, Hi, Ht. reflexivity.
Qed.

(** After a request that either succeeded or left the database alone, the
    page re-reads the cart on success and keeps what it shows otherwise. *)
Lemma settle_in_sync uid p p1 p2 d (answer : Response * Db) (f : CartPage.t -> CartPage.t) :
  (forall x, CartPage.cart (f x) = CartPage.cart x) ->
  in_sync uid (p, d) -> CartPage.cart p2 = CartPage.cart p ->
  consistent (snd answer) -> carts (snd answer) = carts d ->
  (Browser.ok (fst answer) = false -> snd answer = d) ->
  let w := CartPage.finally f
             (if Browser.ok (fst answer)
              then CartPage.fetchCart (Some uid) (p1, snd answer)
              else (p2, snd answer)) in
  in_sync uid w /\ consistent (snd w).
Proof.
  intros Hf (c & rows & Hc & Hr & Hp) Hp2 Hcon Hcarts Hsame. simpl in Hc, Hr, Hp.
  cbv zeta. destruct (Browser.ok (fst answer)).
  - destruct Hcon as (H & Hfr & Hu & Hfk).
    destruct (@fetchCart_in_sync uid p1 (snd answer) c H Hfk
                (@find_cart_same_carts uid d (snd answer) c Hcarts Hc))
      as ((c' & rows' & Hc' & Hr' & Hp') & Hd & _).
    set (w1 := CartPage.fetchCart (Some uid) (p1, snd answer)) in *.
    unfold CartPage.finally. cbn [fst snd]. split.
    + exists c', rows'. cbn [fst snd]. rewrite Hf. auto.
    + rewrite Hd. exact (conj H (conj Hfr (conj Hu Hfk))).
  - rewrite (Hsame eq_refl) in *. unfold CartPage.finally. cbn [fst snd]. split.
    + exists c, rows. cbn [fst snd]. rewrite Hf, Hp2. auto.
    + exact Hcon.
Qed.

Lemma remove_present_state (req : Request) (userId : string) (d : Db)
      (a : ascii) (s : string) (c : Cart.t) (i : CartItem.t) :
  healthy d -> item_fks d ->
  nullish (body req) = false ->
  prop (body req) "productId" = JsString (String a s) ->
  prisma.find_cart userId d = Some c ->
  prisma.find_item (Cart.id c) (String a s) d = Some i ->
  exists rows,
    ApiCart.handleRemoveFromCart req userId d
    = (respond 200 (JCart c rows (cart_total rows)),
       prisma.with_items (other_lines (Cart.id c) (String a s) d) (issued d) d).
Proof.
  intros H Hfk Hn Hp Hc Hf.
  set (d' := prisma.with_items (other_lines (Cart.id c) (String a s) d) (issued d) d).
  edestruct (respond_updated_run userId) with (d := d') (c := c)
    as (rows & Hm & Hr);
    [exact H | apply item_fks_with_items_filter, Hfk | exact Hc |].
  exists rows. unfold ApiCart.handleRemoveFromCart, try_catch.
  destruct (body req); try discriminate; rewrite Hp;
    rewrite (bind_value _ _ _ (cart_findUnique_run userId H)), Hc;
    rewrite (bind_value _ _ _ (delete_key_run _ _ H Hf));
    fold (other_lines (Cart.id c) (String a s) d); fold d';
    rewrite Hr; reflexivity.
Qed.

Lemma find_filter_singleton {A} (f : A -> bool) l x :
  filter f l = [x] -> find f l = Some x.
Proof.
  induction l as [|a l IH]; simpl; [discriminate|].
  destruct (f a); [intros [= -> _]; reflexivity | exact IH].
Qed.

Lemma stored_quantity_line cid pid d line :
  lines_of cid pid d = [line] -> stored_quantity cid pid d = CartItem.quantity line.
Proof.
  intros Hl. unfold stored_quantity, prisma.find_item.
  rewrite (find_filter_singleton _ _ Hl). reflexivity.
Qed.

Lemma fetch_post uid b d :
  Browser.fetch (Some uid) api_cart "POST" b d
  = ApiCart.handleAddToCart
      {| method := "POST"; session := Some uid; body := b |} uid d.
Proof. reflexivity. Qed.

Lemma fetch_delete uid b d :
  Browser.fetch (Some uid) api_cart "DELETE" b d
  = ApiCart.handleRemoveFromCart
      {| method := "DELETE"; session := Some uid; body := b |} uid d.
Proof. reflexivity. Qed.

Lemma consistent_fetch session route m b d :
  consistent d -> consistent (snd (Browser.fetch session route m b d)).
Proof. apply consistent_serve. Qed.

Lemma int32_bounds z : int32 z = true <-> - 2 ^ 31 <= z <= 2 ^ 31 - 1.
Proof. unfold int32. rewrite andb_true_iff, !Z.leb_le. reflexivity. Qed.

(** X14: take a database with no outage ahead that satisfies the store
    constraints (fresh ids, unique lines, foreign keys), a cart page that
    shows the user's cart as the database has it, and a catalogue product of
    which the cart holds between 0 and 2^31 - 1; the visitor asks for a
    quantity between 1 and 2^31 - 1.  Then [handleUpdateQuantity] leaves the
    database with exactly one line for that product in the cart, carrying
    exactly the quantity asked for (whether the line had to be created,
    raised, lowered or left alone), the page shows the cart as the database
    has it again, and no alert is raised. *)
Theorem page_sets_quantity (uid : string) (p : CartPage.t) (d : Db) (c : Cart.t)
        (pid : string) (prod : Product.t) (n : Z) :
  consistent d -> in_sync uid (p, d) -> prisma.find_cart uid d = Some c ->
  is_cuid pid = true -> prisma.find_product pid d = Some prod ->
  1 <= n <= 2 ^ 31 - 1 ->
  0 <= stored_quantity (Cart.id c) pid d <= 2 ^ 31 - 1 ->
  let w := CartPage.handleUpdateQuantity (Some uid) pid n (p, d) in
  (exists line, lines_of (Cart.id c) pid (snd w) = [line]
                /\ CartItem.quantity line = n)
  /\ stored_quantity (Cart.id c) pid (snd w) = n
  /\ in_sync uid w /\ consistent (snd w)
  /\ CartPage.alerts (fst w) = CartPage.alerts p.
Proof.
  intros Hcon (c0 & rows & Hc0 & Hr & Hp) Hc Hcuid Hprod Hn Hst.
  assert (Hb : Z.abs (n - stored_quantity (Cart.id c) pid d) < 2 ^ 53) by lia.
  cbn [fst snd] in Hc0, Hr, Hp. rewrite Hc in Hc0. injection Hc0 as <-.
  unfold CartPage.handleUpdateQuantity.
  replace (n <? 1) with false by (symmetry; apply Z.ltb_ge; lia).
  cbv zeta. cbn [fst snd].
  change (CartPage.cart (CartPage.setUpdating true p)) with (CartPage.cart p).
  rewrite Hp, (@shown_quantity_in_sync d c rows (cart_total rows) pid Hr).
  rewrite Z.max_r by lia.
  set (b := JsObject _).
  pose proof (@consistent_fetch (Some uid) api_cart "POST" b d Hcon) as Hcon'.
  rewrite fetch_post in *.
  set (req := {| method := "POST"; session := Some uid; body := b |}) in *.
  destruct (@post_sets uid d c pid (n - stored_quantity (Cart.id c) pid d) prod req
              Hcon Hc (@parse_posted pid _ Hcuid Hb) Hprod ltac:(lia)
              ltac:(apply int32_bounds; lia)
              ltac:(intros _; apply int32_bounds; lia))
    as (rows' & d' & line & Hrun & Hcarts & Hl & Hq).
  rewrite Hrun in *. cbn [fst snd] in *.
  change (Browser.ok (respond 200 (JCart c rows' (cart_total rows')))) with true.
  cbv iota. destruct Hcon' as (H' & Hfr' & Hu' & Hfk').
  destruct (@fetchCart_in_sync uid (CartPage.setUpdating true p) d' c H' Hfk'
              (@find_cart_same_carts uid d d' c Hcarts Hc))
    as ((c1 & rows1 & Hc1 & Hr1 & Hp1) & Hd & Ha & _).
  set (w1 := CartPage.fetchCart (Some uid) (CartPage.setUpdating true p, d')) in *.
  unfold CartPage.finally. cbn [fst snd]. rewrite Hd.
  split; [exists line; split; [exact Hl | lia]|].
  split; [rewrite (stored_quantity_line _ _ _ Hl); lia|].
  split; [exists c1, rows1; cbn [fst snd]; rewrite <- Hd; auto|].
  split; [exact (conj H' (conj Hfr' (conj Hu' Hfk')))|]. exact Ha.
Qed.

Lemma db_three_consistent : consistent db_three.
Proof.
  destruct db_three_ok as (H1 & H2 & H3 & H4 & _).
  exact (conj H1 (conj H2 (conj H3 H4))).
Qed.

Lemma page_three_in_sync : in_sync "u1" (page_three, db_three).
Proof.
  exists {| Cart.id := "c0"; Cart.userId := "u1" |},
         [(mk_item "c1" "c0" "cproduct0001" 3, P1)].
  split; [reflexivity|]. split; reflexivity.
Qed.

Lemma page_sets_quantity_witness :
  let w := CartPage.handleUpdateQuantity (Some "u1") "cproduct0001" 5
             (page_three, db_three) in
  (exists line, lines_of "c0" "cproduct0001" (snd w) = [line]
                /\ CartItem.quantity line = 5)
  /\ stored_quantity "c0" "cproduct0001" (snd w) = 5
  /\ in_sync "u1" w /\ consistent (snd w)
  /\ CartPage.alerts (fst w) = CartPage.alerts page_three.
Proof.
  apply (@page_sets_quantity "u1" page_three db_three
           {| Cart.id := "c0"; Cart.userId := "u1" |} "cproduct0001" P1 5).
  - exact db_three_consistent.
  - exact page_three_in_sync.
  - reflexivity.
  - reflexivity.
  - reflexivity.
  - lia.
  - vm_compute. split; discriminate.
Defined.

(** X15: on a database with no outage ahead that satisfies the store
    constraints (fresh ids, unique lines, foreign keys), for a user who has
    a cart with a line for the product, [handleRemoveItem] leaves the
    database as it was but for the lines of that product in that cart, which
    are gone; the page then shows the cart as the database has it and raises
    no alert.  [handleUpdateQuantity] with a quantity below 1 does exactly
    the same. *)
Theorem page_removes_line (uid : string) (p : CartPage.t) (d : Db) (c : Cart.t)
        (a : ascii) (s : string) (i : CartItem.t) :
  consistent d -> prisma.find_cart uid d = Some c ->
  prisma.find_item (Cart.id c) (String a s) d = Some i ->
  let w := CartPage.handleRemoveItem (Some uid) (String a s) (p, d) in
  (forall n, n < 1 ->
     CartPage.handleUpdateQuantity (Some uid) (String a s) n (p, d) = w)
  /\ snd w = prisma.with_items (other_lines (Cart.id c) (String a s) d) (issued d) d
  /\ lines_of (Cart.id c) (String a s) (snd w) = []
  /\ in_sync uid w
  /\ CartPage.alerts (fst w) = CartPage.alerts p.
Proof.
  intros Hcon Hc Hf. cbv zeta. split.
  { intros n Hn. unfold CartPage.handleUpdateQuantity.
    replace (n <? 1) with true by (symmetry; apply Z.ltb_lt; lia). reflexivity. }
  unfold CartPage.handleRemoveItem. cbv zeta. cbn [fst snd].
  set (b := JsObject _).
  pose proof (@consistent_fetch (Some uid) api_cart "DELETE" b d Hcon) as Hcon'.
  rewrite fetch_delete in *.
  set (req := {| method := "DELETE"; session := Some uid; body := b |}) in *.
  destruct Hcon as (H & Hfr & Hu & Hfk).
  destruct (@remove_present_state req uid d a s c i H Hfk eq_refl eq_refl Hc Hf)
    as (rows & Hrun).
  rewrite Hrun in *. cbn [fst snd] in *.
  change (Browser.ok (respond 200 (JCart c rows (cart_total rows)))) with true.
  cbv iota. destruct Hcon' as (H' & Hfr' & Hu' & Hfk').
  set (d' := prisma.with_items (other_lines (Cart.id c) (String a s) d) (issued d) d) in *.
  destruct (@fetchCart_in_sync uid (CartPage.setUpdating true p) d' c H' Hfk' Hc)
    as ((c1 & rows1 & Hc1 & Hr1 & Hp1) & Hd & Ha & _).
  set (w1 := CartPage.fetchCart (Some uid) (CartPage.setUpdating true p, d')) in *.
  unfold CartPage.finally. cbn [fst snd]. rewrite Hd.
  split; [reflexivity|].
  split; [unfold lines_of, d', other_lines; simpl; apply filter_negb_nil|].
  split; [exists c1, rows1; cbn [fst snd]; rewrite <- Hd; auto | exact Ha].
Qed.

Lemma page_removes_line_witness :
  let w := CartPage.handleRemoveItem (Some "u1") "cproduct0001" (page_three, db_three) in
  (forall n, n < 1 ->
     CartPage.handleUpdateQuantity (Some "u1") "cproduct0001" n (page_three, db_three) = w)
  /\ snd w = prisma.with_items (other_lines "c0" "cproduct0001" db_three)
                               (issued db_three) db_three
  /\ lines_of "c0" "cproduct0001" (snd w) = []
  /\ in_sync "u1" w
  /\ CartPage.alerts (fst w) = CartPage.alerts page_three.
Proof.
  apply (@page_removes_line "u1" page_three db_three
           {| Cart.id := "c0"; Cart.userId := "u1" |} "c" "product0001"
           (mk_item "c1" "c0" "cproduct0001" 3)).
  - exact db_three_consistent.
  - reflexivity.
  - reflexivity.
Defined.

Lemma fetch_orders uid b d :
  Browser.fetch (Some uid) api_orders "POST" b d
  = ApiOrders.handler {| method := "POST"; session := Some uid; body := b |} d.
Proof. reflexivity. Qed.

(** X16: on a database with no outage ahead that satisfies the store
    constraints (fresh ids, unique lines, foreign keys), the page shows the
    user's cart as the database has it, with at least one line.  "Proceed
    to Checkout" then announces exactly the total the page was showing,
    leaves the cart without any line in the database, and the page shows
    the cart, empty. *)
Theorem page_checkout (uid : string) (p : CartPage.t) (d : Db) (c : Cart.t)
        (rows : list (CartItem.t * Product.t)) (t : Number.t) :
  consistent d -> in_sync uid (p, d) ->
  CartPage.cart p = Some (JCart c rows t) -> rows <> [] ->
  let w := CartPage.proceedToCheckout (Some uid) (p, d) in
  CartPage.alerts (fst w)
  = (CartPage.alerts p ++ [CartPage.OrderPlaced (Some t)])%list
  /\ prisma.items_of (Cart.id c) (snd w) = []
  /\ CartPage.cart (fst w) = Some (JCart c [] (cart_total []))
  /\ in_sync uid w.
Proof.
  intros Hcon (c0 & rows0 & Hc & Hr & Hp) Hshown Hne.
  cbn [fst snd] in Hc, Hr, Hp. rewrite Hp in Hshown.
  injection Hshown as -> -> <-.
  unfold CartPage.proceedToCheckout. cbv zeta. cbn [fst snd].
  pose proof (@consistent_fetch (Some uid) api_orders "POST" JsUndefined d Hcon)
    as Hcon'.
  rewrite fetch_orders in *. destruct Hcon as (H & Hfr & Hu & Hfk).
  rewrite (@orders_run uid d c rows
             {| method := "POST"; session := Some uid; body := JsUndefined |}
             H Hc Hr eq_refl eq_refl) in *.
  destruct rows as [|r rows]; [congruence|]. cbn [fst snd json] in *.
  change (Browser.ok (respond 200 (JOrder true (cart_total (r :: rows)))))
    with true.
  cbv iota. destruct Hcon' as (H' & Hfr' & Hu' & Hfk').
  set (d' := prisma.with_items _ (issued d) d) in *.
  set (p1 := CartPage.alert _ _).
  assert (He : prisma.items_of (Cart.id c) d' = [])
    by (unfold prisma.items_of, d'; simpl; apply filter_negb_nil).
  unfold CartPage.fetchCart, Browser.fetch, serve. cbn [fst snd].
  change (ApiCart.handler
            {| method := "GET"; session := Some uid; body := JsUndefined |} d')
    with (ApiCart.handleGetCart uid d').
  destruct (@handleGetCart_run uid d' c H' Hfk' Hc) as (rows' & Hr' & Hrun).
  rewrite Hrun. rewrite He in Hr'. simpl in Hr'. injection Hr' as <-.
  cbn [fst snd json]. change (Browser.ok (respond 200 _)) with true. cbv iota.
  unfold CartPage.finally. cbn [fst snd]. split; [reflexivity|].
  split; [exact He|]. split; [reflexivity|].
  exists c, []. cbn [fst snd]. rewrite He. auto.
Qed.

Lemma page_checkout_witness :
  let w := CartPage.proceedToCheckout (Some "u1") (page_three, db_three) in
  CartPage.alerts (fst w)
  = (CartPage.alerts page_three
     ++ [CartPage.OrderPlaced
           (Some (cart_total [(mk_item "c1" "c0" "cproduct0001" 3, P1)]))])%list
  /\ prisma.items_of "c0" (snd w) = []
  /\ CartPage.cart (fst w)
     = Some (JCart {| Cart.id := "c0"; Cart.userId := "u1" |} [] (cart_total []))
  /\ in_sync "u1" w.
Proof.
  apply (@page_checkout "u1" page_three db_three
           {| Cart.id := "c0"; Cart.userId := "u1" |}
           [(mk_item "c1" "c0" "cproduct0001" 3, P1)]
           (cart_total [(mk_item "c1" "c0" "cproduct0001" 3, P1)])).
  - exact db_three_consistent.
  - exact page_three_in_sync.
  - reflexivity.
  - discriminate.
Defined.

Lemma orders_outcome uid d c rows (b : JsValue) :
  consistent d -> prisma.find_cart uid d = Some c ->
  prisma.include_product d (prisma.items_of (Cart.id c) d) = Some rows ->
  let w := ApiOrders.handler
             {| method := "POST"; session := Some uid; body := b |} d in
  carts (snd w) = carts d /\ (Browser.ok (fst w) = false -> snd w = d).
Proof.
  intros (H & _) Hc Hr. cbv zeta.
  rewrite (@orders_run uid d c rows
             {| method := "POST"; session := Some uid; body := b |}
             H Hc Hr eq_refl eq_refl).
  destruct rows; simpl; split; auto; discriminate.
Qed.

Lemma setUpdating_cart b x : CartPage.cart (CartPage.setUpdating b x) = CartPage.cart x.
Proof. reflexivity. Qed.

Lemma handleRemoveItem_in_sync uid pid w :
  consistent (snd w) -> in_sync uid w ->
  in_sync uid (CartPage.handleRemoveItem (Some uid) pid w)
  /\ consistent (snd (CartPage.handleRemoveItem (Some uid) pid w)).
Proof.
  destruct w as [p d]. cbn [fst snd]. intros Hcon Hs.
  pose proof Hs as (c & rows & Hc & _). cbn [fst snd] in Hc.
  unfold CartPage.handleRemoveItem. cbn [fst snd].
  set (b := JsObject _).
  pose proof (@consistent_fetch (Some uid) api_cart "DELETE" b d Hcon) as Hcon'.
  rewrite fetch_delete in *.
  destruct (@delete_outcome uid d c
              {| method := "DELETE"; session := Some uid; body := b |} Hcon Hc)
    as [Hcarts Hsame].
  apply settle_in_sync with (p := p) (d := d); auto using setUpdating_cart.
Qed.

Lemma act_in_sync uid a w :
  consistent (snd w) -> in_sync uid w ->
  in_sync uid (CartPage.act (Some uid) a w)
  /\ consistent (snd (CartPage.act (Some uid) a w)).
Proof.
  intros Hcon Hs. destruct a as [pid n|pid| |]; simpl CartPage.act.
  - unfold CartPage.handleUpdateQuantity. destruct (n <? 1).
    { apply handleRemoveItem_in_sync; assumption. }
    destruct w as [p d]. cbn [fst snd] in *.
    pose proof Hs as (c & rows & Hc & Hr & Hp). cbn [fst snd] in Hc, Hr, Hp.
    rewrite setUpdating_cart, Hp.
    rewrite (@shown_quantity_in_sync d c rows (cart_total rows) pid Hr).
    set (b := JsObject _).
    pose proof (@consistent_fetch (Some uid) api_cart "POST" b d Hcon) as Hcon'.
    rewrite fetch_post in *.
    destruct (@post_outcome uid d c
                {| method := "POST"; session := Some uid; body := b |} Hcon Hc)
      as [Hcarts Hsame].
    apply settle_in_sync with (p := p) (d := d); auto using setUpdating_cart.
  - apply handleRemoveItem_in_sync; assumption.
  - destruct w as [p d]. cbn [fst snd] in *.
    pose proof Hs as (c & rows & Hc & Hr & Hp). cbn [fst snd] in Hc, Hr, Hp.
    unfold CartPage.proceedToCheckout. cbn [fst snd].
    pose proof (@consistent_fetch (Some uid) api_orders "POST" JsUndefined d Hcon)
      as Hcon'.
    rewrite fetch_orders in *.
    destruct (@orders_outcome uid d c rows JsUndefined Hcon Hc Hr)
      as [Hcarts Hsame].
    apply settle_in_sync with (p := p) (d := d); auto using setUpdating_cart.
  - destruct w as [p d]. cbn [fst snd] in *.
    pose proof Hs as (c & rows & Hc & _). cbn [fst snd] in Hc.
    pose proof Hcon as (H & Hfr & Hu & Hfk).
    destruct (@fetchCart_in_sync uid p d c H Hfk Hc) as (Hs' & Hd & _).
    split; [exact Hs' | rewrite Hd; exact Hcon].
Qed.

(** X17: on a database with no outage ahead that satisfies the store
    constraints (fresh ids, unique lines, foreign keys), a page that shows
    the user's cart as the database has it keeps doing so, and the database
    keeps having no outage ahead and satisfying the store constraints, after
    each of any sequence of quantity changes, removals, checkouts and
    reloads done on it, whatever the products and quantities asked for. *)
Theorem page_stays_in_sync (uid : string) (acts : list CartPage.Action)
        (w : CartPage.t * Db) :
  consistent (snd w) -> in_sync uid w ->
  Forall (fun w' => in_sync uid w' /\ consistent (snd w'))
         (CartPage.run (Some uid) acts w).
Proof.
  revert w. induction acts as [|a acts IH]; intros w Hcon Hs; cbn [CartPage.run].
  - constructor; [split; assumption | constructor].
  - constructor; [split; assumption|].
    destruct (@act_in_sync uid a w Hcon Hs) as [Hs' Hcon']. apply IH; assumption.
Qed.

Lemma page_stays_in_sync_witness :
  Forall (fun w' => in_sync "u1" w' /\ consistent (snd w'))
         (CartPage.run (Some "u1")
            [CartPage.UpdateQuantity "cproduct0002" 2;
             CartPage.RemoveItem "cproduct0009";
             CartPage.UpdateQuantity "cproduct0001" 0;
             CartPage.Checkout]
            (page_three, db_three)).
Proof.
  apply page_stays_in_sync.
  - exact db_three_consistent.
  - exact page_three_in_sync.
Defined.

(** * The catalogue pages *)

(** ** [parseInt] on the digits a page link carries *)
Ltac digit_case IH :=
  cbn [NilEmpty.string_of_uint Nat.of_uint_acc Js.digits];
  match goal with
  | |- context [Js.digit 10 ?c] =>
      let v := eval vm_compute in (Js.digit 10 c) in
      change (Js.digit 10 c) with v
  end;
  cbv beta iota; rewrite <- IH; f_equal; f_equal; rewrite Nat.tail_mul_spec; lia.

Lemma digits_uint u : forall a,
  Js.digits 10 (NilEmpty.string_of_uint u) (Some (Z.of_nat a))
  = Some (Z.of_nat (Nat.of_uint_acc u a)).
Proof.
  induction u as [|u IH|u IH|u IH|u IH|u IH|u IH|u IH|u IH|u IH|u IH]; intros a;
    [reflexivity | digit_case IH ..].
Qed.

Ltac parse_digits u k :=
  transitivity
    (match Js.digits 10 (NilEmpty.string_of_uint u) (Some (Z.of_nat k)) with
     | Some n => Some n
     | None => None
     end);
  [reflexivity | rewrite digits_uint; reflexivity].

Lemma parseInt_uint u :
  u <> Decimal.Nil ->
  Js.parseInt (NilEmpty.string_of_uint u) = Some (Z.of_nat (Nat.of_uint u)).
Proof.
  intros Hu. unfold Nat.of_uint.
  destruct u as [|u|u|u|u|u|u|u|u|u|u];
    [congruence | | parse_digits u 1%nat | parse_digits u 2%nat
    | parse_digits u 3%nat | parse_digits u 4%nat | parse_digits u 5%nat
    | parse_digits u 6%nat | parse_digits u 7%nat | parse_digits u 8%nat
    | parse_digits u 9%nat].
  destruct u as [|u|u|u|u|u|u|u|u|u|u];
    [reflexivity | parse_digits u 0%nat | parse_digits u 1%nat
    | parse_digits u 2%nat | parse_digits u 3%nat | parse_digits u 4%nat
    | parse_digits u 5%nat | parse_digits u 6%nat | parse_digits u 7%nat
    | parse_digits u 8%nat | parse_digits u 9%nat].
Qed.

Lemma to_uint_not_nil n : Nat.to_uint n <> Decimal.Nil.
Proof.
  intros E. pose proof (Unsigned.of_to n) as H. rewrite E in H. simpl in H.
  subst n. discriminate.
Qed.

Lemma parseInt_decimal n : 0 <= n -> Js.parseInt (Js.decimal n) = Some n.
Proof.
  intros Hn. unfold Js.decimal.
  rewrite (parseInt_uint (@to_uint_not_nil (Z.to_nat n))), Unsigned.of_to.
  f_equal. lia.
Qed.

(** ** Pages of a list *)
Lemma pages_concat {A} (k : nat) : forall (n : nat) (l : list A),
  (List.length l <= n * k)%nat ->
  List.concat (map (fun i => firstn k (skipn (i * k) l)) (seq 0 n)) = l.
Proof.
  induction n as [|n IH]; intros l Hl.
  - destruct l; [reflexivity | simpl in Hl; lia].
  - cbn [seq map List.concat]. rewrite <- seq_shift, map_map.
    rewrite (map_ext _ (fun i => firstn k (skipn (i * k) (skipn k l)))).
    + rewrite IH by (rewrite length_skipn; lia). apply firstn_skipn.
    + intros i. rewrite skipn_skipn. do 2 f_equal. lia.
Qed.

Lemma ceil_quotient_bounds n k :
  0 <= n -> 0 < k ->
  k * (Js.ceil_quotient n k - 1) < n <= k * Js.ceil_quotient n k
  \/ (n = 0 /\ Js.ceil_quotient n k = 0).
Proof.
  intros Hn Hk. unfold Js.ceil_quotient.
  pose proof (Z.div_mod (n + k - 1) k ltac:(lia)) as E.
  pose proof (Z.mod_pos_bound (n + k - 1) k Hk) as B.
  destruct (Z.eq_dec n 0) as [->|Hz].
  - right. split; [reflexivity|]. apply Z.div_small. lia.
  - left. nia.
Qed.

(** ** The home page on a reachable database *)
Lemma home_run e q page d :
  healthy d ->
  Home.getServerSideProps e q page d
  = (let searchQuery := match q with Some s => s | None => "" end in
     let currentPage :=
       Z.max 1 (Js.parseInt_or_1 (match page with Some s => s | None => "1" end)) in
     let totalCount :=
       Z.of_nat (List.length (filter (Catalogue.where_ e searchQuery) (products d))) in
     {| Home.products :=
          firstn 12 (skipn (Z.to_nat ((currentPage - 1) * 12))
                           (Catalogue.matching e searchQuery d));
        Home.totalCount := totalCount;
        Home.currentPage := currentPage;
        Home.totalPages := Js.ceil_quotient totalCount 12;
        Home.searchQuery := searchQuery |},
     d).
Proof.
  intros H. unfold Home.getServerSideProps, try_catch, bind, promise_all2.
  unfold Catalogue.findMany, Catalogue.count.
  rewrite query_healthy by exact H. cbn beta iota. cbn [fst snd].
  rewrite ?query_healthy by exact H. reflexivity.
Qed.

Lemma parseInt_or_1_decimal k : 1 <= k -> Z.max 1 (Js.parseInt_or_1 (Js.decimal k)) = k.
Proof.
  intros Hk. unfold Js.parseInt_or_1. rewrite parseInt_decimal by lia.
  replace (k =? 0) with false by (symmetry; apply Z.eqb_neq; lia). lia.
Qed.

Lemma follow_run e p k d :
  healthy d -> 1 <= k ->
  Home.follow e p k d
  = (let totalCount :=
       Z.of_nat (List.length (filter (Catalogue.where_ e (Home.searchQuery p))
                                     (products d))) in
     {| Home.products :=
          firstn 12 (skipn (Z.to_nat ((k - 1) * 12))
                           (Catalogue.matching e (Home.searchQuery p) d));
        Home.totalCount := totalCount;
        Home.currentPage := k;
        Home.totalPages := Js.ceil_quotient totalCount 12;
        Home.searchQuery := Home.searchQuery p |},
     d).
Proof.
  intros H Hk. unfold Home.follow. rewrite home_run by exact H. cbv zeta.
  rewrite parseInt_or_1_decimal by exact Hk.
  destruct (Home.searchQuery p); reflexivity.
Qed.

Lemma matching_length e sq d :
  List.length (Catalogue.matching e sq d)
  = List.length (filter (Catalogue.where_ e sq) (products d)).
Proof. apply Permutation_length, Catalogue.newest_first_permutes. Qed.

(** X18: on a reachable database, the pages the pagination bar links to,
    taken in order, show the products that match the search, each exactly
    once and in the order of the catalogue: no product is skipped or shown
    twice, whatever the search and the page the bar is on. *)
Theorem pages_partition_the_matches (e : Catalogue.t) (q page : option string)
        (d : Db) :
  healthy d ->
  let p := fst (Home.getServerSideProps e q page d) in
  List.concat (map (fun k => Home.products (fst (Home.follow e p k d)))
                   (Home.page_numbers p))
  = Catalogue.matching e (Home.searchQuery p) d.
Proof.
  intros H. rewrite home_run by exact H. cbv zeta. cbn [fst].
  unfold Home.page_numbers. cbn [Home.totalPages Home.searchQuery].
  set (sq := match q with Some s => s | None => "" end).
  set (c := List.length (filter (Catalogue.where_ e sq) (products d))).
  rewrite map_map.
  rewrite (map_ext _ (fun i => firstn 12 (skipn (i * 12)
                                 (Catalogue.matching e sq d)))).
  - apply pages_concat. rewrite matching_length. fold c.
    destruct (@ceil_quotient_bounds (Z.of_nat c) 12) as [B|[B1 B2]]; lia.
  - intros i. rewrite follow_run by (exact H || lia).
    cbv zeta. cbn [fst Home.products Home.searchQuery]. do 2 f_equal. lia.
Qed.

Lemma pages_partition_the_matches_witness :
  let p := fst (Home.getServerSideProps plain_catalogue (Some "c1") (Some "2")
                  db_catalogue) in
  List.concat (map (fun k => Home.products
                               (fst (Home.follow plain_catalogue p k db_catalogue)))
                   (Home.page_numbers p))
  = Catalogue.matching plain_catalogue (Home.searchQuery p) db_catalogue.
Proof. apply pages_partition_the_matches. reflexivity. Defined.

Lemma page_numbers_range p k :
  In k (Home.page_numbers p) <-> 1 <= k <= Home.totalPages p.
Proof.
  unfold Home.page_numbers. rewrite in_map_iff. split.
  - intros (i & <- & Hi). apply in_seq in Hi. lia.
  - intros Hk. exists (Z.to_nat (k - 1)). split; [lia|]. apply in_seq. lia.
Qed.

(** X19: on a reachable database, every page the pagination bar links to
    reports the page number of the link and the same counts as the page the
    bar is on, and shows at least one product; every linked page but the
    last shows exactly 12, the last the remaining ones. *)
Theorem linked_pages_are_filled (e : Catalogue.t) (q page : option string)
        (d : Db) (k : Z) :
  healthy d ->
  let p := fst (Home.getServerSideProps e q page d) in
  In k (Home.page_numbers p) ->
  let pk := fst (Home.follow e p k d) in
  Home.currentPage pk = k
  /\ Home.totalCount pk = Home.totalCount p
  /\ Home.totalPages pk = Home.totalPages p
  /\ Home.products pk <> []
  /\ (k < Home.totalPages p -> List.length (Home.products pk) = 12%nat)
  /\ (k = Home.totalPages p ->
      Z.of_nat (List.length (Home.products pk)) = Home.totalCount p - 12 * (k - 1)).
Proof.
  intros H p Hk. apply page_numbers_range in Hk. revert Hk. subst p.
  rewrite home_run by exact H. cbv zeta. cbn [fst Home.totalPages].
  intros Hk. rewrite follow_run by (exact H || lia). cbv zeta.
  cbn [fst Home.products Home.totalCount Home.totalPages Home.currentPage
       Home.searchQuery].
  set (sq := match q with Some s => s | None => "" end) in *.
  set (c := List.length (filter (Catalogue.where_ e sq) (products d))) in *.
  pose proof (matching_length e sq d) as Hm. fold c in Hm.
  assert (Hlen : List.length (firstn 12 (skipn (Z.to_nat ((k - 1) * 12))
                                 (Catalogue.matching e sq d)))
                 = Nat.min 12 (c - Z.to_nat ((k - 1) * 12)))
    by (rewrite length_firstn, length_skipn, Hm; reflexivity).
  destruct (@ceil_quotient_bounds (Z.of_nat c) 12) as [B|[B1 B2]]; try lia.
  split; [reflexivity|]. split; [reflexivity|]. split; [reflexivity|].
  split; [|split].
  - intros E. rewrite E in Hlen. cbn [List.length] in Hlen. lia.
  - intros Hlt. rewrite Hlen. lia.
  - intros He. rewrite Hlen. lia.
Qed.

Lemma linked_pages_are_filled_witness :
  let p := fst (Home.getServerSideProps plain_catalogue None None db_catalogue) in
  let pk := fst (Home.follow plain_catalogue p 3 db_catalogue) in
  Home.currentPage pk = 3
  /\ Home.totalCount pk = Home.totalCount p
  /\ Home.totalPages pk = Home.totalPages p
  /\ Home.products pk <> []
  /\ (3 < Home.totalPages p -> List.length (Home.products pk) = 12%nat)
  /\ (3 = Home.totalPages p ->
      Z.of_nat (List.length (Home.products pk)) = Home.totalCount p - 12 * (3 - 1)).
Proof.
  assert (Hin : In 3 (Home.page_numbers
                        (fst (Home.getServerSideProps plain_catalogue None None
                                db_catalogue))))
    by (vm_compute; auto 10).
  exact (@linked_pages_are_filled plain_catalogue None None db_catalogue 3
           eq_refl Hin).
Defined.

Lemma query_outage {A} (f : M A) d rest :
  outages d = true :: rest -> query f d = (Throw (PrismaError "P1001"), tick d).
Proof. unfold query; intros ->; reflexivity. Qed.

Lemma query_reached {A} (f : M A) d rest :
  outages d = false :: rest -> query f d = f (tick d).
Proof. unfold query; intros ->; reflexivity. Qed.

Lemma outages_tick d b rest : outages d = b :: rest -> outages (tick d) = rest.
Proof. simpl; intros ->; reflexivity. Qed.

Lemma home_cases e q page d :
  let p := fst (Home.getServerSideProps e q page d) in
  p = {| Home.products := []; Home.totalCount := 0; Home.currentPage := 1;
         Home.totalPages := 0; Home.searchQuery := "" |}
  \/ exists d0, healthy d0 /\ products d0 = products d
                /\ p = fst (Home.getServerSideProps e q page d0).
Proof.
  cbv zeta.
  set (d0 := {| users := users d; products := products d; carts := carts d;
                cartItems := cartItems d; issued := issued d; outages := [] |}).
  assert (H0 : healthy d0) by reflexivity.
  destruct (outages d) as [|[|] rest] eqn:E.
  - right. exists d. auto.
  - left. unfold Home.getServerSideProps, try_catch, bind, promise_all2.
    unfold Catalogue.findMany, Catalogue.count.
    rewrite (query_outage _ _ E). reflexivity.
  - pose proof (outages_tick _ E) as E1.
    destruct rest as [|[|] rest'].
    + right. exists d0. split; [exact H0|]. split; [reflexivity|].
      rewrite (@home_run e q page d0 H0).
      unfold Home.getServerSideProps, try_catch, bind, promise_all2.
      unfold Catalogue.findMany, Catalogue.count.
      rewrite (query_reached _ _ E). cbn [fst snd].
      rewrite (query_healthy _ E1). reflexivity.
    + left. unfold Home.getServerSideProps, try_catch, bind, promise_all2.
      unfold Catalogue.findMany, Catalogue.count.
      rewrite (query_reached _ _ E). cbn [fst snd].
      rewrite (query_outage _ _ E1). reflexivity.
    + right. exists d0. split; [exact H0|]. split; [reflexivity|].
      rewrite (@home_run e q page d0 H0).
      unfold Home.getServerSideProps, try_catch, bind, promise_all2.
      unfold Catalogue.findMany, Catalogue.count.
      rewrite (query_reached _ _ E). cbn [fst snd].
      rewrite (query_reached _ _ E1). reflexivity.
Qed.

Lemma incl_page {A} (n s : nat) (l : list A) : incl (firstn n (skipn s l)) l.
Proof.
  intros x Hx. rewrite <- (firstn_skipn s l). apply in_or_app; right.
  rewrite <- (firstn_skipn n (skipn s l)). apply in_or_app; left. exact Hx.
Qed.

Lemma shown_products_listed e sq d n s :
  incl (firstn n (skipn s (Catalogue.matching e sq d))) (products d).
Proof.
  intros x Hx. apply incl_page in Hx. unfold Catalogue.matching in Hx.
  apply (Permutation_in _ (Catalogue.newest_first_permutes e _)) in Hx.
  apply filter_In in Hx. tauto.
Qed.

(** X20: whatever the query parameters and the outage schedule, the home
    page reports a current page of at least 1, shows at most 12 products,
    all of them rows of the product table, and reports as number of pages
    the number of matches divided by 12 and rounded up; when the current
    page it reports is beyond the last one, it shows no product. *)
Theorem home_page_bounds (e : Catalogue.t) (q page : option string) (d : Db) :
  let p := fst (Home.getServerSideProps e q page d) in
  1 <= Home.currentPage p
  /\ (List.length (Home.products p) <= 12)%nat
  /\ incl (Home.products p) (products d)
  /\ (12 * (Home.totalPages p - 1) < Home.totalCount p <= 12 * Home.totalPages p
      \/ (Home.totalCount p = 0 /\ Home.totalPages p = 0))
  /\ (Home.totalPages p < Home.currentPage p -> Home.products p = []).
Proof.
  cbv zeta. destruct (home_cases e q page d) as [->|(d0 & H0 & Hp & ->)].
  { cbn. split; [lia|]. split; [lia|]. split; [intros x []|].
    split; [right; split; reflexivity | reflexivity]. }
  rewrite home_run by exact H0. cbv zeta.
  cbn [fst Home.products Home.totalCount Home.totalPages Home.currentPage].
  set (sq := match q with Some s => s | None => "" end).
  set (cp := Z.max 1 _).
  set (c := List.length (filter (Catalogue.where_ e sq) (products d0))).
  pose proof (matching_length e sq d0) as Hm. fold c in Hm.
  split; [lia|]. split; [rewrite length_firstn; lia|].
  split; [rewrite <- Hp; apply shown_products_listed|].
  destruct (@ceil_quotient_bounds (Z.of_nat c) 12) as [B|[B1 B2]]; try lia.
  - split; [left; exact B|]. intros Hlt.
    rewrite skipn_all2 by (rewrite Hm; lia). reflexivity.
  - split; [right; split; assumption|]. intros _.
    assert (Hnil : Catalogue.matching e sq d0 = [])
      by (apply length_zero_iff_nil; lia).
    rewrite Hnil, skipn_nil. reflexivity.
Qed.

(** X21: when either of the two queries of the home page cannot reach the
    database, the page is rendered as an empty first page of an empty
    catalogue, and the search query is dropped from it. *)
Theorem home_page_outage (e : Catalogue.t) (q page : option string) (d : Db) :
  In true (firstn 2 (outages d)) ->
  fst (Home.getServerSideProps e q page d)
  = {| Home.products := []; Home.totalCount := 0; Home.currentPage := 1;
       Home.totalPages := 0; Home.searchQuery := "" |}.
Proof.
  intros Hin. unfold Home.getServerSideProps, try_catch, bind, promise_all2.
  unfold Catalogue.findMany, Catalogue.count.
  destruct (outages d) as [|[|] rest] eqn:E; [destruct Hin | |].
  - rewrite (query_outage _ _ E). reflexivity.
  - pose proof (outages_tick _ E) as E1.
    rewrite (query_reached _ _ E). cbn [fst snd].
    destruct rest as [|[|] rest']; simpl in Hin;
      try (exfalso; intuition discriminate).
    rewrite (query_outage _ _ E1). reflexivity.
Qed.

Lemma home_page_outage_witness :
  fst (Home.getServerSideProps plain_catalogue (Some "c1") (Some "2")
         {| users := [test_user]; products := [P1; P2]; carts := []; cartItems := [];
            issued := 0;
            outages := [false; true] |})
  = {| Home.products := []; Home.totalCount := 0; Home.currentPage := 1;
       Home.totalPages := 0; Home.searchQuery := "" |}.
Proof. apply home_page_outage. simpl. auto. Defined.

(** X22: on a reachable database, every product the home page shows has a
    product page: for its id the product page receives a product with that
    id, and not the not-found page. *)
Theorem listed_product_has_page (e : Catalogue.t) (q page : option string)
        (d : Db) (pr : Product.t) :
  healthy d ->
  In pr (Home.products (fst (Home.getServerSideProps e q page d))) ->
  exists pr',
    ProductDetail.getServerSideProps (Product.id pr) d = (ProductDetail.props pr', d)
    /\ Product.id pr' = Product.id pr.
Proof.
  intros H. rewrite home_run by exact H. cbv zeta. cbn [fst Home.products].
  intros Hin. apply shown_products_listed in Hin.
  destruct (@find_product_In (Product.id pr) d (in_map Product.id _ _ Hin))
    as [pr' Hf].
  exists pr'. split; [|apply (find_product_id _ _ Hf)].
  unfold ProductDetail.getServerSideProps, try_catch.
  rewrite (bind_value _ _ _ (product_findUnique_run (Product.id pr) H)), Hf.
  reflexivity.
Qed.

Lemma listed_product_has_page_witness :
  exists pr',
    ProductDetail.getServerSideProps (Product.id (mk_product (cuid 13) (Number.of_Z 10)))
      db_catalogue
    = (ProductDetail.props pr', db_catalogue)
    /\ Product.id pr' = Product.id (mk_product (cuid 13) (Number.of_Z 10)).
Proof.
  apply (@listed_product_has_page plain_catalogue None (Some "2") db_catalogue
           (mk_product (cuid 13) (Number.of_Z 10))).
  - reflexivity.
  - vm_compute. auto.
Defined.

(** * The quantity selector and "Add to Cart" *)

Lemma post_adds uid d pid q p req :
  consistent d -> known_user uid d ->
  cartItemSchema_parse (body req) = Value (pid, q) ->
  prisma.find_product pid d = Some p -> 0 < q ->
  int32 q = true -> int32 (held uid pid d + q) = true ->
  exists c rows d' line,
    ApiCart.handleAddToCart req uid d
    = (respond 200 (JCart c rows (cart_total rows)), d')
    /\ prisma.find_cart uid d' = Some c
    /\ (forall c0, prisma.find_cart uid d = Some c0 -> c = c0)
    /\ lines_of (Cart.id c) pid d' = [line]
    /\ CartItem.quantity line = stored_quantity (Cart.id c) pid d + q
    /\ CartItem.quantity line = held uid pid d + q.
Proof.
  intros (H & Hfr & Hu & Hfk) Hknown Hparse Hprod Hq Hr1 Hr2.
  pose proof (find_product_Some _ _ Hprod) as Hp.
  assert (Hz : (q =? 0) = false) by lia.
  assert (Hpos : (0 <? q) = true) by lia.
  unfold ApiCart.handleAddToCart, try_catch.
  rewrite (bind_value _ _ d (a := (pid, q)) (d' := d))
    by (unfold lift; rewrite Hparse; reflexivity).
  cbv beta iota.
  rewrite (bind_value _ _ _ (product_findUnique_run pid H)), Hprod.
  rewrite (bind_value _ _ _ (cart_findUnique_run uid H)).
  unfold held in *.
  destruct (prisma.find_cart uid d) as [c0|] eqn:Hc.
  - rewrite (bind_value (ret c0) _ d (a := c0) (d' := d) eq_refl).
    rewrite Hz, Hpos.
    destruct (@add_positive_resolved uid d c0 pid q H Hfr Hu Hfk Hc Hp Hq Hr1 Hr2)
      as (rows & d' & line & Hrun & Hcarts & Hm & Hl & Hqty).
    exists c0, rows, d', line. rewrite Hrun.
    split; [reflexivity|]. split.
    { unfold prisma.find_cart in *. rewrite Hcarts. exact Hc. }
    split; [intros c1 [= <-]; reflexivity|]. split; [exact Hl|].
    rewrite Hqty. unfold stored_quantity.
    destruct (prisma.find_item (Cart.id c0) pid d); split; lia.
  - destruct Hknown as [Hk|Hk]; [congruence|].
    destruct (created_cart_state uid H Hfr Hu Hfk Hc)
      as (H1 & Hfr1 & Hu1 & Hfk1 & Hc1 & Hnone).
    rewrite (bind_value _ _ _ (cart_create_run uid H Hfr Hc Hk)).
    rewrite Hz, Hpos.
    edestruct (add_positive_resolved uid) with (pid := pid)
      as (rows & d' & line & Hrun & Hcarts & Hm & Hl & Hqty);
      [exact H1 | exact Hfr1 | exact Hu1 | exact Hfk1 | exact Hc1 | exact Hp
       | exact Hq | exact Hr1
       | unfold stored_quantity; rewrite (find_item_items_of _ pid _ Hnone);
         exact Hr2 |].
    rewrite (find_item_items_of _ pid _ Hnone) in Hqty.
    eexists _, rows, d', line. rewrite Hrun.
    split; [reflexivity|]. split.
    { unfold prisma.find_cart in *. rewrite Hcarts. exact Hc1. }
    split; [intros c1 [=]|]. split; [exact Hl|].
    rewrite Hqty.
    assert (Hn : prisma.find_item (cuid (issued d)) pid d = None)
      by (apply find_item_items_of, (items_of_fresh Hfr Hfk)).
    unfold stored_quantity. simpl. rewrite Hn. split; lia.
Qed.

(** X23: the quantity a product page or a product card holds never goes
    below 1: not by the minus button, not by typing anything at all into
    the field, and not by adding to the cart, whatever the session, the
    database and the order of the actions. *)
Theorem selector_quantity_at_least_one (session : option string)
        (product : Product.t) (evs : list ProductDetail.Event)
        (w : ProductDetail.t * Db) (card : ProductCard.t) :
  1 <= ProductDetail.quantity (fst w) -> 1 <= ProductCard.quantity card ->
  Forall (fun w' => 1 <= ProductDetail.quantity (fst w'))
         (ProductDetail.run session product evs w)
  /\ 1 <= ProductCard.quantity (ProductCard.decrement card)
  /\ (forall value, 1 <= ProductCard.quantity (ProductCard.onChange value card))
  /\ 1 <= ProductCard.quantity (ProductCard.increment card)
  /\ forall onAddToCart id d,
       1 <= ProductCard.quantity
              (fst (ProductCard.handleAddToCart onAddToCart session id (card, d))).
Proof.
  intros Hw Hc. split.
  - revert w Hw. induction evs as [|ev evs IH]; intros w Hw; cbn [ProductDetail.run].
    + constructor; [exact Hw | constructor].
    + constructor; [exact Hw|]. apply IH.
      destruct ev; unfold ProductDetail.step; cbn [fst snd];
        try (unfold ProductDetail.decrement, ProductDetail.onChange,
             ProductDetail.increment; cbn; lia).
      unfold ProductDetail.handleAddToCart. destruct session; cbn [fst]; [|exact Hw].
      cbv zeta. destruct (Browser.ok _); cbn; lia.
  - split; [unfold ProductCard.decrement; cbn; lia|].
    split; [intros value; unfold ProductCard.onChange; cbn; lia|].
    split; [unfold ProductCard.increment; cbn; lia|].
    intros onAddToCart id d. unfold ProductCard.handleAddToCart.
    destruct session; cbn [fst]; [|exact Hc].
    cbv zeta. destruct (fst (onAddToCart _ _ _)); cbn; lia.
Qed.

Lemma selector_quantity_at_least_one_witness :
  Forall (fun w' => 1 <= ProductDetail.quantity (fst w'))
         (ProductDetail.run (Some "u1") P1
            [ProductDetail.Typed "-7"; ProductDetail.Minus; ProductDetail.AddToCart;
             ProductDetail.Typed "0x1F"; ProductDetail.Plus]
            (ProductDetail.initial, db_three))
  /\ 1 <= ProductCard.quantity (ProductCard.decrement ProductCard.initial)
  /\ (forall value,
        1 <= ProductCard.quantity (ProductCard.onChange value ProductCard.initial))
  /\ 1 <= ProductCard.quantity (ProductCard.increment ProductCard.initial)
  /\ forall onAddToCart id d,
       1 <= ProductCard.quantity
              (fst (ProductCard.handleAddToCart onAddToCart (Some "u1") id
                      (ProductCard.initial, d))).
Proof.
  apply (@selector_quantity_at_least_one (Some "u1") P1
           [ProductDetail.Typed "-7"; ProductDetail.Minus; ProductDetail.AddToCart;
            ProductDetail.Typed "0x1F"; ProductDetail.Plus]
           (ProductDetail.initial, db_three) ProductCard.initial).
  - simpl. lia.
  - simpl. lia.
Defined.

(** X24: take a database with no outage ahead that satisfies the store
    constraints (fresh ids, unique lines, foreign keys), a signed-in visitor
    who has a cart or a row in the user table, and the product page of a
    catalogue product, with a quantity of at least 1 selected; the visitor's
    cart holds at least 0 of the product, and what it holds plus the
    selected quantity is at most 2^31 - 1.  Pressing "Add to Cart", the
    page announces "Product added to cart!" and goes back to quantity 1, and
    the visitor's cart (the one there was, or a new one) holds exactly one
    line for the product, with the selected quantity added to what the cart
    held of it. *)
Theorem product_page_adds_to_cart (uid : string) (product stored : Product.t)
        (page : ProductDetail.t) (d : Db) :
  consistent d -> known_user uid d ->
  is_cuid (Product.id product) = true ->
  prisma.find_product (Product.id product) d = Some stored ->
  1 <= ProductDetail.quantity page ->
  0 <= held uid (Product.id product) d ->
  held uid (Product.id product) d + ProductDetail.quantity page <= 2 ^ 31 - 1 ->
  let w := ProductDetail.handleAddToCart (Some uid) product (page, d) in
  ProductDetail.alerts (fst w)
  = (ProductDetail.alerts page ++ ["Product added to cart!"])%list
  /\ ProductDetail.quantity (fst w) = 1
  /\ exists c line,
       prisma.find_cart uid (snd w) = Some c
       /\ (forall c0, prisma.find_cart uid d = Some c0 -> c = c0)
       /\ lines_of (Cart.id c) (Product.id product) (snd w) = [line]
       /\ CartItem.quantity line
          = stored_quantity (Cart.id c) (Product.id product) d
            + ProductDetail.quantity page
       /\ CartItem.quantity line
          = held uid (Product.id product) d + ProductDetail.quantity page.
Proof.
  intros Hcon Hknown Hcuid Hprod Hq Hheld Hsum.
  unfold ProductDetail.handleAddToCart.
  cbv zeta. cbn [fst snd ProductDetail.setLoading ProductDetail.quantity].
  rewrite fetch_post.
  set (req := {| method := "POST"; session := Some uid; body := _ |}).
  destruct (@post_adds uid d (Product.id product) (ProductDetail.quantity page)
              stored req Hcon Hknown
              (@parse_posted (Product.id product) (ProductDetail.quantity page) Hcuid
                 ltac:(lia)) Hprod
              ltac:(lia) ltac:(apply int32_bounds; lia)
              ltac:(apply int32_bounds; lia))
    as (c & rows & d' & line & Hrun & Hc & Hsame & Hl & Hqty & Hqty').
  rewrite Hrun. cbn [fst snd].
  change (Browser.ok (respond 200 (JCart c rows (cart_total rows)))) with true.
  cbn. split; [reflexivity|]. split; [reflexivity|].
  exists c, line. auto.
Qed.

Lemma product_page_adds_to_cart_witness :
  let w := ProductDetail.handleAddToCart (Some "u1") P1
             (ProductDetail.increment ProductDetail.initial, db_three) in
  ProductDetail.alerts (fst w) = ["Product added to cart!"]
  /\ ProductDetail.quantity (fst w) = 1
  /\ exists line,
       lines_of "c0" "cproduct0001" (snd w) = [line]
       /\ CartItem.quantity line = 5.
Proof.
  assert (Hk : known_user "u1" db_three) by (left; discriminate).
  assert (Hq : 1 <= ProductDetail.quantity (ProductDetail.increment ProductDetail.initial))
    by (vm_compute; discriminate).
  assert (Hh : 0 <= held "u1" (Product.id P1) db_three)
    by (vm_compute; discriminate).
  assert (Hs : held "u1" (Product.id P1) db_three
               + ProductDetail.quantity (ProductDetail.increment ProductDetail.initial)
               <= 2 ^ 31 - 1)
    by (vm_compute; discriminate).
  destruct (@product_page_adds_to_cart "u1" P1 P1
              (ProductDetail.increment ProductDetail.initial) db_three
              db_three_consistent Hk eq_refl eq_refl Hq Hh Hs)
    as (Ha & Hone & c & line & _ & Hsame & Hl & _ & Hqty).
  specialize (Hsame _ eq_refl). subst c.
  split; [exact Ha|]. split; [exact Hone|].
  exists line. split; [exact Hl | exact Hqty].
Defined.

(** X25: the same for a product card of the home page, whose "Add to Cart"
    goes through the home page's [handleAddToCart].  Take a database with no
    outage ahead that satisfies the store constraints, a signed-in visitor
    who has a cart or a row in the user table, a catalogue product and a
    card with a quantity of at least 1 selected; the visitor's cart holds at
    least 0 of the product, and what it holds plus the selected quantity is
    at most 2^31 - 1.  Then the card announces "Product added to cart!",
    goes back to quantity 1, and the cart (the one there was, or a new one)
    holds exactly one line for the product, with the selected quantity
    added to what the cart held of it. *)
Theorem product_card_adds_to_cart (uid id : string) (stored : Product.t)
        (card : ProductCard.t) (d : Db) :
  consistent d -> known_user uid d -> is_cuid id = true ->
  prisma.find_product id d = Some stored ->
  1 <= ProductCard.quantity card ->
  0 <= held uid id d ->
  held uid id d + ProductCard.quantity card <= 2 ^ 31 - 1 ->
  let w := ProductCard.handleAddToCart (Home.handleAddToCart (Some uid))
             (Some uid) id (card, d) in
  ProductCard.alerts (fst w)
  = (ProductCard.alerts card ++ ["Product added to cart!"])%list
  /\ ProductCard.quantity (fst w) = 1
  /\ exists c line,
       prisma.find_cart uid (snd w) = Some c
       /\ (forall c0, prisma.find_cart uid d = Some c0 -> c = c0)
       /\ lines_of (Cart.id c) id (snd w) = [line]
       /\ CartItem.quantity line
          = stored_quantity (Cart.id c) id d + ProductCard.quantity card
       /\ CartItem.quantity line = held uid id d + ProductCard.quantity card.
Proof.
  intros Hcon Hknown Hcuid Hprod Hq Hheld Hsum.
  unfold ProductCard.handleAddToCart, Home.handleAddToCart.
  cbv zeta. cbn [fst snd ProductCard.setLoading ProductCard.quantity].
  rewrite fetch_post.
  set (req := {| method := "POST"; session := Some uid; body := _ |}).
  destruct (@post_adds uid d id (ProductCard.quantity card) stored req Hcon Hknown
              (@parse_posted id (ProductCard.quantity card) Hcuid ltac:(lia)) Hprod
              ltac:(lia) ltac:(apply int32_bounds; lia)
              ltac:(apply int32_bounds; lia))
    as (c & rows & d' & line & Hrun & Hc & Hsame & Hl & Hqty & Hqty').
  rewrite Hrun. cbn [fst snd].
  change (Browser.ok (respond 200 (JCart c rows (cart_total rows)))) with true.
  cbn. split; [reflexivity|]. split; [reflexivity|].
  exists c, line. auto.
Qed.

Lemma product_card_adds_to_cart_witness :
  let w := ProductCard.handleAddToCart (Home.handleAddToCart (Some "u1"))
             (Some "u1") "cproduct0002" (ProductCard.initial, db_empty) in
  ProductCard.alerts (fst w) = ["Product added to cart!"]
  /\ ProductCard.quantity (fst w) = 1
  /\ exists c line,
       prisma.find_cart "u1" (snd w) = Some c
       /\ lines_of (Cart.id c) "cproduct0002" (snd w) = [line]
       /\ CartItem.quantity line = 1.
Proof.
  destruct db_empty_ok as (H1 & H2 & H3 & H4 & _).
  assert (Hk : known_user "u1" db_empty) by (right; left; reflexivity).
  assert (Hq : 1 <= ProductCard.quantity ProductCard.initial)
    by (vm_compute; discriminate).
  assert (Hh : 0 <= held "u1" "cproduct0002" db_empty)
    by (vm_compute; discriminate).
  assert (Hs : held "u1" "cproduct0002" db_empty
               + ProductCard.quantity ProductCard.initial <= 2 ^ 31 - 1)
    by (vm_compute; discriminate).
  destruct (@product_card_adds_to_cart "u1" "cproduct0002" P2
              ProductCard.initial db_empty (conj H1 (conj H2 (conj H3 H4)))
              Hk eq_refl eq_refl Hq Hh Hs)
    as (Ha & Hone & c & line & Hc & _ & Hl & _ & Hqty).
  split; [exact Ha|]. split; [exact Hone|].
  exists c, line. split; [exact Hc|]. split; [exact Hl | exact Hqty].
Defined.

(** * Signing in *)

Lemma authorize_found d email pw u :
  healthy d -> Auth.find_user email d = Some u ->
  Auth.given (Some email) = true -> Auth.given pw = true ->
  Auth.authorize (Some {| Auth.email := Some email; Auth.password := pw |}) d
  = (Some u, d).
Proof.
  intros H Hf He Hp. unfold Auth.authorize. rewrite He, Hp. cbn [andb].
  unfold try_catch, Auth.user_findUnique.
  erewrite bind_value by (rewrite query_healthy by exact H; reflexivity).
  rewrite Hf. reflexivity.
Qed.

(** X26: signing in with the email of an existing user returns that user
    (and so the session carries that user's id) whatever the password, as
    long as one is given; nothing is written. *)
Theorem authorize_ignores_the_password (d : Db) (email : string)
        (password : option string) (u : User.t) :
  healthy d -> Auth.find_user email d = Some u ->
  email <> "" -> Auth.given password = true ->
  Auth.authorize (Some {| Auth.email := Some email; Auth.password := password |}) d
  = (Some u, d)
  /\ Auth.session_of (Some u) = Some (User.id u).
Proof.
  intros H Hf He Hp. split; [|reflexivity].
  apply authorize_found; try assumption. destruct email; [congruence | reflexivity].
Qed.

Lemma authorize_ignores_the_password_witness :
  Auth.authorize (Some {| Auth.email := Some "test.user@example.com";
                          Auth.password := Some "not the password" |})
                 db_three
  = (Some {| User.id := "u1"; User.email := "test.user@example.com";
             User.name := "Test User" |}, db_three)
  /\ Auth.session_of (Some {| User.id := "u1"; User.email := "test.user@example.com";
                              User.name := "Test User" |})
     = Some (User.id {| User.id := "u1"; User.email := "test.user@example.com";
                        User.name := "Test User" |}).
Proof.
  apply authorize_ignores_the_password.
  - reflexivity.
  - reflexivity.
  - discriminate.
  - reflexivity.
Defined.

Lemma items_of_unissued d n :
  fresh d -> item_fks d -> (issued d <= n)%nat -> prisma.items_of (cuid n) d = [].
Proof.
  intros Hfr Hfk Hn. unfold prisma.items_of.
  destruct (filter _ (cartItems d)) as [|x xs] eqn:Hfl; [reflexivity|]. exfalso.
  assert (Hx : In x (filter (fun i => (CartItem.cartId i =? cuid n)%string)
                            (cartItems d))) by (rewrite Hfl; left; reflexivity).
  apply filter_In in Hx as [Hx He]. apply String.eqb_eq in He.
  unfold item_fks in Hfk. rewrite Forall_forall in Hfk.
  destruct (Hfk x Hx) as [Hc _]. rewrite He in Hc.
  exact (proj1 (Hfr _ Hn) Hc).
Qed.

Lemma find_user_none_email email d :
  Auth.find_user email d = None -> ~ In email (map User.email (users d)).
Proof.
  intros Hf Hin. apply in_map_iff in Hin as (u & Hu & Hi).
  apply (find_none _ _ Hf) in Hi. simpl in Hi.
  rewrite Hu, String.eqb_refl in Hi. discriminate.
Qed.

Lemma find_none_not_in {A} (f : A -> bool) l :
  (forall x, In x l -> f x = false) -> find f l = None.
Proof.
  induction l as [|a l IH]; simpl; intros H; [reflexivity|].
  rewrite (H a) by auto. apply IH. auto.
Qed.

(** X27: signing in with an email no user has, on a reachable database that
    satisfies the store constraints, creates the user, named after the part
    of the email before the first "@", together with an empty cart.  From
    then on GET /api/cart with the session of that user answers 200 with
    the empty cart, and signing in again with that email (and any password)
    returns the same user and writes nothing. *)
Theorem authorize_creates_user_and_cart (d : Db) (email : string)
        (password : option string) :
  accounts_consistent d -> Auth.find_user email d = None ->
  email <> "" -> Auth.given password = true ->
  let u := {| User.id := cuid (issued d); User.email := email;
              User.name := Auth.before_at email |} in
  let c := {| Cart.id := cuid (S (issued d)); Cart.userId := User.id u |} in
  let d' := {| users := users d ++ [u]; products := products d;
               carts := carts d ++ [c]; cartItems := cartItems d;
               issued := S (S (issued d)); outages := outages d |} in
  Auth.authorize (Some {| Auth.email := Some email; Auth.password := password |}) d
  = (Some u, d')
  /\ accounts_consistent d'
  /\ ApiCart.handler {| method := "GET"; session := Auth.session_of (Some u);
                        body := JsUndefined |} d'
     = (respond 200 (JCart c [] (cart_total [])), d')
  /\ forall password',
       Auth.given password' = true ->
       Auth.authorize
         (Some {| Auth.email := Some email; Auth.password := password' |}) d'
       = (Some u, d').
Proof.
  intros ((H & Hfr & Hu & Hfk) & Hids & Hown) Hf He Hp u c d'.
  assert (Hg : Auth.given (Some email) = true)
    by (destruct email; [congruence | reflexivity]).
  assert (Hn1 : ~ In (User.id u) (map User.id (users d))) by (apply Hids, le_n).
  assert (Hn2 : ~ In (Cart.id c) (map Cart.id (carts d)))
    by (apply (Hfr (S (issued d))); lia).
  assert (Hn3 : ~ In (User.id u) (map Cart.userId (carts d)))
    by (intros Hin; apply Hn1, Hown, Hin).
  assert (Hrun : Auth.authorize
            (Some {| Auth.email := Some email; Auth.password := password |}) d
          = (Some u, d')).
  { unfold Auth.authorize. rewrite Hg, Hp. cbn [andb].
    unfold try_catch, Auth.user_findUnique.
    erewrite bind_value by (rewrite query_healthy by exact H; reflexivity).
    rewrite Hf.
    erewrite bind_value.
    2:{ unfold Auth.user_create. rewrite query_healthy by exact H. cbv zeta.
        rewrite (not_mem _ _ (find_user_none_email _ _ Hf)).
        fold u. fold c.
        rewrite (not_mem _ _ Hn1), (not_mem _ _ Hn2), (not_mem _ _ Hn3).
        reflexivity. }
    reflexivity. }
  assert (H' : healthy d') by exact H.
  assert (Hfk' : item_fks d').
  { unfold item_fks in *. cbn [d' cartItems carts products].
    revert Hfk. apply Forall_impl. intros i [Hi1 Hi2]. split; [|exact Hi2].
    rewrite map_app. apply in_or_app. left; exact Hi1. }
  assert (Hc' : prisma.find_cart (User.id u) d' = Some c).
  { unfold prisma.find_cart, d'. cbn [carts].
    rewrite find_snoc.
    - cbn [Cart.userId c]. rewrite String.eqb_refl. reflexivity.
    - apply find_none_not_in. intros x Hx. apply String.eqb_neq. intros E.
      apply Hn3. rewrite <- E. apply in_map, Hx. }
  assert (Hempty : prisma.items_of (Cart.id c) d' = []).
  { change (prisma.items_of (Cart.id c) d')
      with (prisma.items_of (cuid (S (issued d))) d).
    apply items_of_unissued; auto. }
  split; [exact Hrun|]. split; [|split].
  - split; [|split].
    + split; [exact H'|]. split; [|split; [exact Hu | exact Hfk']].
      intros n Hn. cbn [d' issued] in Hn.
      destruct (Hfr n ltac:(lia)) as [Hc Hi]. split; [|exact Hi].
      cbn [d' carts]. rewrite map_app, in_app_iff.
      intros [Hin|[E|[]]]; [contradiction|]. apply cuid_inj in E. lia.
    + intros n Hn. cbn [d' issued] in Hn.
      cbn [d' users]. rewrite map_app, in_app_iff.
      intros [Hin|[E|[]]]; [apply (Hids n ltac:(lia)), Hin|].
      apply cuid_inj in E. lia.
    + cbn [d' carts users]. rewrite !map_app.
      apply incl_app; [apply incl_appl, Hown | apply incl_appr, incl_refl].
  - change (ApiCart.handler _ d')
      with (ApiCart.handleGetCart (User.id u) d').
    destruct (@handleGetCart_run (User.id u) d' c H' Hfk' Hc')
      as (rows & Hr & Hget).
    rewrite Hempty in Hr. injection Hr as <-. exact Hget.
  - intros password' Hp'. apply authorize_found; try assumption.
    unfold Auth.find_user, d'. cbn [users]. rewrite find_snoc by exact Hf.
    cbn [User.email u]. rewrite String.eqb_refl. reflexivity.
Qed.

Lemma db_three_accounts_consistent : accounts_consistent db_three.
Proof.
  split; [exact db_three_consistent|]. split.
  - intros n _ [E|[]]. unfold cuid in E. discriminate.
  - intros x Hx. exact Hx.
Qed.

Lemma authorize_creates_user_and_cart_witness :
  let u := {| User.id := cuid (issued db_three);
              User.email := "ada@example.com";
              User.name := Auth.before_at "ada@example.com" |} in
  let c := {| Cart.id := cuid (S (issued db_three));
              Cart.userId := User.id u |} in
  let d' := {| users := users db_three ++ [u]; products := products db_three;
               carts := carts db_three ++ [c]; cartItems := cartItems db_three;
               issued := S (S (issued db_three)); outages := outages db_three |} in
  Auth.authorize (Some {| Auth.email := Some "ada@example.com";
                          Auth.password := Some "x" |}) db_three
  = (Some u, d')
  /\ accounts_consistent d'
  /\ ApiCart.handler {| method := "GET"; session := Auth.session_of (Some u);
                        body := JsUndefined |} d'
     = (respond 200 (JCart c [] (cart_total [])), d')
  /\ forall password',
       Auth.given password' = true ->
       Auth.authorize
         (Some {| Auth.email := Some "ada@example.com"; Auth.password := password' |})
         d'
       = (Some u, d').
Proof.
  apply (@authorize_creates_user_and_cart db_three "ada@example.com" (Some "x")).
  - exact db_three_accounts_consistent.
  - reflexivity.
  - discriminate.
  - reflexivity.
Defined.

(** * The slugs of the seed script *)
Lemma substring_length n s : (String.length (String.substring 0 n s) <= n)%nat.
Proof.
  revert s. induction n as [|n IH]; intros [|c s]; simpl; try lia.
  specialize (IH s). lia.
Qed.

Lemma substring_all n s : (String.length s <= n)%nat -> String.substring 0 n s = s.
Proof.
  revert s. induction n as [|n IH]; intros [|c s]; simpl; intros H;
    try reflexivity; try lia.
  f_equal. apply IH. lia.
Qed.

Lemma substring_chars (P : ascii -> Prop) n s :
  Forall P (list_ascii_of_string s) ->
  Forall P (list_ascii_of_string (String.substring 0 n s)).
Proof.
  revert s. induction n as [|n IH]; intros [|c s]; simpl; intros H;
    try constructor; inversion H; subst; auto.
Qed.

Lemma keep_slug_chars_chars s :
  Forall (fun c => Seed.slug_char c = true)
         (list_ascii_of_string (Seed.keep_slug_chars s)).
Proof.
  induction s as [|c s IH]; simpl; [constructor|].
  destruct (Seed.slug_char c) eqn:E; [constructor; assumption | exact IH].
Qed.

Lemma slug_char_plain c :
  Seed.slug_char c = true -> Seed.lower c = c /\ Js.is_white c = false.
Proof.
  destruct c as [[|] [|] [|] [|] [|] [|] [|] [|]]; intros H;
    try discriminate H; split; reflexivity.
Qed.

Lemma slug_fixed s :
  Forall (fun c => Seed.slug_char c = true) (list_ascii_of_string s) ->
  Seed.keep_slug_chars (Seed.dash_white false (Seed.toLowerCase s)) = s.
Proof.
  induction s as [|c s IH]; simpl; intros H; [reflexivity|].
  inversion H as [|? ? Hc Hs]; subst.
  destruct (slug_char_plain _ Hc) as [-> ->]. simpl. rewrite Hc, IH by exact Hs.
  reflexivity.
Qed.

(** X28: a slug has at most 40 characters, all of them lower-case letters,
    digits or dashes, whatever the name it is made from; and a slug is its
    own slug. *)
Theorem slugify_properties (name : string) :
  let slug := Seed.slugify name in
  (String.length slug <= 40)%nat
  /\ Forall (fun c => Seed.slug_char c = true) (list_ascii_of_string slug)
  /\ Seed.slugify slug = slug.
Proof.
  cbv zeta.
  assert (Hc : Forall (fun c => Seed.slug_char c = true)
                      (list_ascii_of_string (Seed.slugify name)))
    by (apply substring_chars, keep_slug_chars_chars).
  split; [apply substring_length|]. split; [exact Hc|].
  unfold Seed.slugify at 1. rewrite slug_fixed by exact Hc.
  apply substring_all, substring_length.
Qed.

(** * Further frames and the page out of step *)

(** X29: whatever the outage schedule, a request to the orders route that
    carries a session leaves the catalogue and the cart rows as they were,
    and the line table too, unless it clears the lines of the requester's
    own cart: the line table is then the former one without exactly the
    lines of that cart. *)
Theorem checkout_changes_own_cart_only (req : Request) (userId : string) (d : Db) :
  session req = Some userId ->
  only_own_cart_cleared userId d (snd (ApiOrders.handler req d)).
Proof. apply orders_handler_frame. Qed.

Lemma checkout_changes_own_cart_only_witness :
  only_own_cart_cleared "u1" db_two_users
    (snd (ApiOrders.handler (request "POST" JsUndefined) db_two_users)).
Proof. apply checkout_changes_own_cart_only. reflexivity. Defined.

(** X30: what [handleUpdateQuantity] sends is the difference between the
    quantity asked for and the quantity the page shows, not the quantity
    itself.  Take a database with no outage ahead that satisfies the store
    constraints (fresh ids, unique lines, foreign keys), a user who has a
    cart, and a page that shows [shown] of a catalogue product while the
    cart holds [stored] of it.  Asking for [n >= 1], with [n - shown] of
    magnitude at most 2^31 - 1, leaves the cart with [stored + (n - shown)]
    of the product when that is between 1 and 2^31 - 1: the quantity asked
    for exactly when the page was in step, and something else when it was
    not.  Afterwards the page is in step with the database. *)
Theorem page_applies_difference_to_shown (uid : string) (p : CartPage.t) (d : Db)
        (c : Cart.t) (pid : string) (prod : Product.t) (n shown : Z) :
  consistent d -> prisma.find_cart uid d = Some c ->
  is_cuid pid = true -> prisma.find_product pid d = Some prod ->
  CartPage.shown_quantity pid (CartPage.cart p) = Value shown ->
  1 <= n -> Z.abs (n - shown) <= 2 ^ 31 - 1 ->
  0 < stored_quantity (Cart.id c) pid d + (n - shown) <= 2 ^ 31 - 1 ->
  let w := CartPage.handleUpdateQuantity (Some uid) pid n (p, d) in
  stored_quantity (Cart.id c) pid (snd w)
  = stored_quantity (Cart.id c) pid d + (n - shown)
  /\ in_sync uid w
  /\ CartPage.alerts (fst w) = CartPage.alerts p.
Proof.
  intros Hcon Hc Hcuid Hprod Hshown Hn Hb32 Hpos.
  assert (Hb : Z.abs (n - shown) < 2 ^ 53) by lia.
  unfold CartPage.handleUpdateQuantity.
  replace (n <? 1) with false by (symmetry; apply Z.ltb_ge; lia).
  cbv zeta. cbn [fst snd].
  change (CartPage.cart (CartPage.setUpdating true p)) with (CartPage.cart p).
  rewrite Hshown, Z.max_r by lia.
  set (b := JsObject _).
  pose proof (@consistent_fetch (Some uid) api_cart "POST" b d Hcon) as Hcon'.
  rewrite fetch_post in *.
  set (req := {| method := "POST"; session := Some uid; body := b |}) in *.
  destruct (@post_sets uid d c pid (n - shown) prod req
              Hcon Hc (@parse_posted pid (n - shown) Hcuid Hb) Hprod
              (proj1 Hpos) ltac:(apply int32_bounds; lia)
              ltac:(intros _; apply int32_bounds; lia))
    as (rows' & d' & line & Hrun & Hcarts & Hl & Hq).
  rewrite Hrun in *. cbn [fst snd] in *.
  change (Browser.ok (respond 200 (JCart c rows' (cart_total rows')))) with true.
  cbv iota. destruct Hcon' as (H' & Hfr' & Hu' & Hfk').
  destruct (@fetchCart_in_sync uid (CartPage.setUpdating true p) d' c H' Hfk'
              (@find_cart_same_carts uid d d' c Hcarts Hc))
    as ((c1 & rows1 & Hc1 & Hr1 & Hp1) & Hd & Ha & _).
  set (w1 := CartPage.fetchCart (Some uid) (CartPage.setUpdating true p, d')) in *.
  unfold CartPage.finally. cbn [fst snd]. rewrite Hd.
  split; [rewrite (stored_quantity_line _ _ _ Hl); exact Hq|].
  split; [exists c1, rows1; cbn [fst snd]; rewrite <- Hd; auto | exact Ha].
Qed.

Lemma page_applies_difference_to_shown_witness :
  let w := CartPage.handleUpdateQuantity (Some "u1") "cproduct0001" 2
             (page_stale, db_three) in
  stored_quantity "c0" "cproduct0001" (snd w) = 4
  /\ in_sync "u1" w
  /\ CartPage.alerts (fst w) = CartPage.alerts page_stale.
Proof.
  apply (@page_applies_difference_to_shown "u1" page_stale db_three
           {| Cart.id := "c0"; Cart.userId := "u1" |} "cproduct0001" P1 2 1).
  - exact db_three_consistent.
  - reflexivity.
  - reflexivity.
  - reflexivity.
  - reflexivity.
  - lia.
  - vm_compute; discriminate.
  - vm_compute. split; [reflexivity | discriminate].
Defined.
